(** * icat: sending images to a terminal with the kitty graphics protocol

    A shallow embedding of [kitty/icat.py] and the properties of its
    geometry probe, capability negotiation, layout arithmetic, chunked
    transport and driver.

    Conventions.
    - Python [int] is [Z]; Python [float] is an IEEE 754 binary64 value,
      computed with the executable specification [SpecFloat] (precision 53,
      round to nearest even), so every float the program computes is
      computed here bit for bit.
    - [bytes] is [list byte]; [str] is [string].
    - A [dict] whose iteration order reaches the wire (a graphics command)
      is an insertion-ordered association list; the probe response table,
      only ever looked up by key, is a [gmap].
    - Effects are explicit: a state-and-exception monad over a [world]
      holding the terminal, the standard streams, the clock and the
      function attributes the program uses as process-wide state.
    - Time is the counter of nanoseconds of the monotonic clock. It moves
      on while [select] waits, by no more than the timeout of the call,
      and by the time the program takes before each reading, which the
      world scripts. *)

From Stdlib Require Import ZArith List String Ascii Strings.Byte Bool Lia DecimalString.
From Stdlib Require Import Floats.SpecFloat.
From stdpp Require Import gmap.

Local Open Scope Z_scope.

(** ** Python exceptions the program can raise or meet *)

Inductive exn : Type :=
| SystemExit (message : string)
| SystemExitCode (code : Z)
| OpenFailed (path : string) (message : string)
| OSError
| TypeError
| KeyError (key : string)
| ZeroDivisionError
| OverflowError
| ValueError
| UnicodeEncodeError
| TermiosError.              (* [termios.error] *)

Inductive result (A : Type) : Type :=
| Ok (a : A)
| Raise (e : exn).
Arguments Ok {A} a.
Arguments Raise {A} e.

Definition bind_result {A B} (r : result A) (k : A -> result B) : result B :=
  match r with
  | Ok a => k a
  | Raise e => Raise e
  end.

(** ** binary64 arithmetic as Python uses it *)

Module Float.

Definition prec : Z := 53.
Definition emax : Z := 1024.

Definition float := spec_float.

Definition is_finite (x : float) : bool :=
  match x with
  | S754_zero _ | S754_finite _ _ _ => true
  | _ => false
  end.

Definition is_zero (x : float) : bool :=
  match x with
  | S754_zero _ => true
  | _ => false
  end.

(** [float(n)] for an [int]: the nearest binary64, ties to even;
    [OverflowError] when that is an infinity. *)
Definition of_int (n : Z) : result float :=
  let x := binary_normalize prec emax n 0 false in
  if is_finite x then Ok x else Raise OverflowError.

(** [x / y] on floats: [ZeroDivisionError] on a zero divisor. *)
Definition div (x y : float) : result float :=
  if is_zero y then Raise ZeroDivisionError else Ok (SFdiv prec emax x y).

Definition mul (x y : float) : float := SFmul prec emax x y.

Definition sub (x y : float) : float := SFsub prec emax x y.

Definition ltb (x y : float) : bool := SFltb x y.

(** [a / b] on two [int]s: the correctly rounded quotient. The division
    of [SpecFloat] takes mantissas of any size, so the two integers are
    divided as they are, without a first rounding to binary64. *)
Definition int_as_float (n : Z) : float :=
  match n with
  | Z0 => S754_zero false
  | Zpos p => S754_finite false p 0
  | Zneg p => S754_finite true p 0
  end.

Definition int_truediv (a b : Z) : result float :=
  if b =? 0 then Raise ZeroDivisionError
  else
    let q := SFdiv prec emax (int_as_float a) (int_as_float b) in
    if is_finite q then Ok q else Raise OverflowError.

(** [math.floor], [math.ceil] and [int()] of a float: an [int]. *)
Definition floor (x : float) : result Z :=
  match x with
  | S754_zero _ => Ok 0
  | S754_finite s m e =>
      let n := if s then Z.neg m else Z.pos m in
      Ok (if 0 <=? e then n * 2 ^ e else n / 2 ^ (- e))
  | S754_infinity _ => Raise OverflowError
  | S754_nan => Raise ValueError
  end.

Definition ceil (x : float) : result Z :=
  match x with
  | S754_zero _ => Ok 0
  | S754_finite s m e =>
      let n := if s then Z.neg m else Z.pos m in
      Ok (if 0 <=? e then n * 2 ^ e else - ((- n) / 2 ^ (- e)))
  | S754_infinity _ => Raise OverflowError
  | S754_nan => Raise ValueError
  end.

(** The literal [0.1]: the binary64 nearest to one tenth. *)
Definition one_tenth : float := SFdiv prec emax (int_as_float 1) (int_as_float 10).

Definition trunc (x : float) : result Z :=
  match x with
  | S754_zero _ => Ok 0
  | S754_finite s m e =>
      let n := if s then Z.neg m else Z.pos m in
      Ok (if 0 <=? e then n * 2 ^ e else Z.quot n (2 ^ (- e)))
  | S754_infinity _ => Raise OverflowError
  | S754_nan => Raise ValueError
  end.

End Float.

(** ** The layout arithmetic *)

(** One correction step of [fit_image]:
    [corrf = bound / float(side); floor(corrf * other)]. *)
Definition scale_to (bound side other : Z) : result Z :=
  bind_result (Float.of_int side) (fun fside =>
  bind_result (Float.of_int bound) (fun fbound =>
  bind_result (Float.div fbound fside) (fun corrf =>
  bind_result (Float.of_int other) (fun fother =>
  Float.floor (Float.mul corrf fother))))).

Definition fit_image (width height pwidth pheight : Z) : result (Z * Z) :=
  bind_result
    (if pheight <? height
     then bind_result (scale_to pheight height width) (fun w => Ok (w, pheight))
     else Ok (width, height))
    (fun '(width, height) =>
  bind_result
    (if pwidth <? width
     then bind_result (scale_to pwidth width height) (fun h => Ok (pwidth, h))
     else Ok (width, height))
    (fun '(width, height) =>
  bind_result
    (if pheight <? height
     then bind_result (scale_to pheight height width) (fun w => Ok (w, pheight))
     else Ok (width, height))
    (fun '(width, height) => Ok (width, height)))).


(** ** Python values in a graphics command, and the command dict *)

Inductive pyval : Type :=
| PInt (n : Z)
| PStr (s : string).

(** [str(v)] as ['{}'.format(v)] prints it. *)
Definition str_of_Z (n : Z) : string := NilZero.string_of_int (Z.to_int n).

Definition format_val (v : pyval) : string :=
  match v with
  | PInt n => str_of_Z n
  | PStr s => s
  end.

(** A command is a [dict] from [str] to [int] or [str]. Its iteration order
    (insertion order) is what [write_gr_cmd] puts on the wire, so it is an
    association list kept in insertion order, with one entry per key. *)
Definition dict : Type := list (string * pyval).

Fixpoint dict_set (k : string) (v : pyval) (d : dict) : dict :=
  match d with
  | [] => [(k, v)]
  | (k', v') :: d' =>
      if String.eqb k k' then (k, v) :: d' else (k', v') :: dict_set k v d'
  end.

Fixpoint dict_get (k : string) (d : dict) : option pyval :=
  match d with
  | [] => None
  | (k', v') :: d' => if String.eqb k k' then Some v' else dict_get k d'
  end.

(** ** The terminal and the process-wide state *)

Module Size.
(** [Size = namedtuple('Size', 'rows cols width height')], the four
    unsigned shorts of [struct winsize]. *)
Record t : Type := Make { rows : Z; cols : Z; width : Z; height : Z }.
End Size.

(** What [termios.tcgetattr] returns:
    [[iflag, oflag, cflag, lflag, ispeed, ospeed, cc]]. *)
Record termios : Type := Termios {
  iflag : Z; oflag : Z; cflag : Z; lflag : Z;
  ispeed : Z; ospeed : Z;
  cc : list Z
}.

(** One answer of [sel.select(timeout)] followed, when stdin is ready, by
    the [sys.stdin.buffer.read()] of the callback. Durations are in
    nanoseconds.
    - [Idle]: the whole timeout went by with nothing to read.
    - [Data after d]: stdin was ready [after] nanoseconds into the wait (at
      the latest when the timeout ran out) and [read()] gave [d]. A
      terminal in raw mode has no end of input of its own: [d] is empty
      only once the terminal has hung up.
    - [SelectFails]: the call raised [OSError]. *)
Inductive stdin_event : Type :=
| Idle
| Data (after : N) (d : list byte)
| SelectFails.

(** The one function value the program stores: a [lambda] with [params]
    positional parameters whose body calls [screen_size(refresh=...)]. *)
Record pyfun : Type := Lambda { params : nat; body_refresh : bool }.

Record world : Type := World {
  (* what TIOCGWINSZ on fd 1 answers now; [None]: the ioctl raises *)
  tty_winsize : option Size.t;
  (* the function attribute [screen_size.ans] *)
  screen_size_ans : option Size.t;
  (* bytes that reached standard output, oldest first *)
  stdout : list byte;
  (* [None]: writing never fails; [Some n]: [n] more writes succeed, every
     later one raises [OSError] *)
  stdout_credit : option nat;
  stdout_isatty : bool;
  (* fd 0 is a terminal, and one that has not hung up: what [isatty]
     answers, and whether the [termios] calls on it succeed *)
  stdin_isatty : bool;
  (* attributes and file status flags of the terminal behind stdin *)
  stdin_attr : termios;
  stdin_fl : Z;
  (* CLOCK_MONOTONIC, in nanoseconds *)
  now : N;
  (* the nanoseconds the program itself takes before each reading of the
     clock, one entry for every call of [monotonic()] to come *)
  clock : list N;
  (* what the calls of [select] to come will find on stdin *)
  stdin_events : list stdin_event;
  (* the function attribute [detect_support.has_files] *)
  has_files : option bool;
  (* paths handed to the image decoder or the rasterizer, oldest first *)
  decoded : list string;
  (* lines printed to standard error *)
  stderr : list string;
  (* the handler [signal.signal] installed for SIGWINCH, if any *)
  sigwinch : option pyfun;
  (* ghost: the command and payload of every frame [write_gr_cmd] has
     written in full, oldest first *)
  frames : list (dict * list byte)
}.

Definition set_screen_size_ans (v : option Size.t) (w : world) : world :=
  World (tty_winsize w) v (stdout w) (stdout_credit w) (stdout_isatty w)
        (stdin_isatty w) (stdin_attr w) (stdin_fl w) (now w) (clock w)
        (stdin_events w) (has_files w) (decoded w) (stderr w) (sigwinch w)
        (frames w).

Definition set_stdout (v : list byte) (c : option nat) (w : world) : world :=
  World (tty_winsize w) (screen_size_ans w) v c (stdout_isatty w)
        (stdin_isatty w) (stdin_attr w) (stdin_fl w) (now w) (clock w)
        (stdin_events w) (has_files w) (decoded w) (stderr w) (sigwinch w)
        (frames w).

Definition set_stdin_isatty (v : bool) (w : world) : world :=
  World (tty_winsize w) (screen_size_ans w) (stdout w) (stdout_credit w)
        (stdout_isatty w) v (stdin_attr w) (stdin_fl w) (now w) (clock w)
        (stdin_events w) (has_files w) (decoded w) (stderr w) (sigwinch w)
        (frames w).

Definition set_stdin_attr (v : termios) (w : world) : world :=
  World (tty_winsize w) (screen_size_ans w) (stdout w) (stdout_credit w)
        (stdout_isatty w) (stdin_isatty w) v (stdin_fl w) (now w) (clock w)
        (stdin_events w) (has_files w) (decoded w) (stderr w) (sigwinch w)
        (frames w).

Definition set_stdin_fl (v : Z) (w : world) : world :=
  World (tty_winsize w) (screen_size_ans w) (stdout w) (stdout_credit w)
        (stdout_isatty w) (stdin_isatty w) (stdin_attr w) v (now w) (clock w)
        (stdin_events w) (has_files w) (decoded w) (stderr w) (sigwinch w)
        (frames w).

Definition set_now (v : N) (w : world) : world :=
  World (tty_winsize w) (screen_size_ans w) (stdout w) (stdout_credit w)
        (stdout_isatty w) (stdin_isatty w) (stdin_attr w) (stdin_fl w) v
        (clock w) (stdin_events w) (has_files w) (decoded w) (stderr w)
        (sigwinch w) (frames w).

Definition set_clock (v : list N) (w : world) : world :=
  World (tty_winsize w) (screen_size_ans w) (stdout w) (stdout_credit w)
        (stdout_isatty w) (stdin_isatty w) (stdin_attr w) (stdin_fl w) (now w)
        v (stdin_events w) (has_files w) (decoded w) (stderr w) (sigwinch w)
        (frames w).

Definition set_stdin_events (v : list stdin_event) (w : world) : world :=
  World (tty_winsize w) (screen_size_ans w) (stdout w) (stdout_credit w)
        (stdout_isatty w) (stdin_isatty w) (stdin_attr w) (stdin_fl w) (now w)
        (clock w) v (has_files w) (decoded w) (stderr w) (sigwinch w)
        (frames w).

Definition set_has_files (v : option bool) (w : world) : world :=
  World (tty_winsize w) (screen_size_ans w) (stdout w) (stdout_credit w)
        (stdout_isatty w) (stdin_isatty w) (stdin_attr w) (stdin_fl w) (now w)
        (clock w) (stdin_events w) v (decoded w) (stderr w) (sigwinch w)
        (frames w).

Definition set_decoded (v : list string) (w : world) : world :=
  World (tty_winsize w) (screen_size_ans w) (stdout w) (stdout_credit w)
        (stdout_isatty w) (stdin_isatty w) (stdin_attr w) (stdin_fl w) (now w)
        (clock w) (stdin_events w) (has_files w) v (stderr w) (sigwinch w)
        (frames w).

Definition set_stderr (v : list string) (w : world) : world :=
  World (tty_winsize w) (screen_size_ans w) (stdout w) (stdout_credit w)
        (stdout_isatty w) (stdin_isatty w) (stdin_attr w) (stdin_fl w) (now w)
        (clock w) (stdin_events w) (has_files w) (decoded w) v (sigwinch w)
        (frames w).

Definition set_sigwinch (v : option pyfun) (w : world) : world :=
  World (tty_winsize w) (screen_size_ans w) (stdout w) (stdout_credit w)
        (stdout_isatty w) (stdin_isatty w) (stdin_attr w) (stdin_fl w) (now w)
        (clock w) (stdin_events w) (has_files w) (decoded w) (stderr w) v
        (frames w).

Definition set_frames (v : list (dict * list byte)) (w : world) : world :=
  World (tty_winsize w) (screen_size_ans w) (stdout w) (stdout_credit w)
        (stdout_isatty w) (stdin_isatty w) (stdin_attr w) (stdin_fl w) (now w)
        (clock w) (stdin_events w) (has_files w) (decoded w) (stderr w)
        (sigwinch w) v.

(** ** The monad of the program: state, exceptions, and a script that can
    run dry

    [Starved] is not a Python outcome: it says that the [world] holds no
    further entry of the clock or stdin event for a call that needs
    one. *)

Inductive outcome (A : Type) : Type :=
| Ret (a : A)
| Exc (e : exn)
| Starved.
Arguments Ret {A} a.
Arguments Exc {A} e.
Arguments Starved {A}.

Definition M (A : Type) : Type := world -> outcome A * world.

Definition ret {A} (a : A) : M A := fun w => (Ret a, w).

Definition bind {A B} (m : M A) (k : A -> M B) : M B :=
  fun w =>
    match m w with
    | (Ret a, w') => k a w'
    | (Exc e, w') => (Exc e, w')
    | (Starved, w') => (Starved, w')
    end.

Definition raise {A} (e : exn) : M A := fun w => (Exc e, w).

Definition lift {A} (r : result A) : M A :=
  match r with
  | Ok a => ret a
  | Raise e => raise e
  end.

Definition get {A} (f : world -> A) : M A := fun w => (Ret (f w), w).

Definition modify (f : world -> world) : M unit := fun w => (Ret tt, f w).

(** [try: body finally: cleanup]. The cleanup runs after a normal end and
    after an exception; an exception of the cleanup itself replaces the
    outcome of the body. *)
Definition try_finally {A} (body : M A) (cleanup : M unit) : M A :=
  fun w =>
    match body w with
    | (Starved, w') => (Starved, w')
    | (r, w') =>
        match cleanup w' with
        | (Ret _, w'') => (r, w'')
        | (Exc e, w'') => (Exc e, w'')
        | (Starved, w'') => (Starved, w'')
        end
    end.

(** [try: body except OpenFailed as e: handler(e)]. *)
Definition try_except_OpenFailed {A} (body : M A) (handler : string -> string -> M A) : M A :=
  fun w =>
    match body w with
    | (Exc (OpenFailed p msg), w') => handler p msg w'
    | r => r
    end.

Notation "'let*' x ':=' m 'in' k" := (bind m (fun x => k))
  (at level 10, x name, m at level 100, k at level 200).
Notation "'do' m 'then' k" := (bind m (fun _ => k))
  (at level 10, m at level 100, k at level 200).

Fixpoint for_each {A} (l : list A) (body : A -> M unit) : M unit :=
  match l with
  | [] => ret tt
  | x :: l' => do body x then for_each l' body
  end.

(** [sys.stdout.buffer.write(bs)]: one call on standard output, which
    uses up one unit of credit. *)
Definition stdout_write (bs : list byte) : M unit :=
  fun w =>
    match stdout_credit w with
    | None => (Ret tt, set_stdout (stdout w ++ bs) None w)
    | Some (S n) => (Ret tt, set_stdout (stdout w ++ bs) (Some n) w)
    | Some O => (Exc OSError, w)
    end.

(** [sys.stdout.flush()]: a call on standard output that adds no byte. *)
Definition stdout_flush : M unit := stdout_write [].

(** ** Geometry probe *)

(** [fcntl.ioctl(1, termios.TIOCGWINSZ, s)] unpacked with ['HHHH']. *)
Definition ioctl_TIOCGWINSZ : M Size.t :=
  fun w =>
    match tty_winsize w with
    | Some sz => (Ret sz, w)
    | None => (Exc OSError, w)
    end.

Definition screen_size (refresh : bool) : M Size.t :=
  let* ans := get screen_size_ans in
  match refresh, ans with
  | false, Some sz => ret sz
  | _, _ =>
      let* sz := ioctl_TIOCGWINSZ in
      do modify (set_screen_size_ans (Some sz)) then
      ret sz
  end.

(** ** Bytes and text *)

Definition bytes : Type := list byte.

Definition ESC : byte := x1b.

(** A [bytes] literal whose characters are all ASCII. *)
Definition b (s : string) : bytes := list_byte_of_string s.

Definition byte_to_Z (x : byte) : Z := Z.of_N (Byte.to_N x).

Definition byte_of_Z (n : Z) : byte :=
  match Byte.of_N (Z.to_N n) with
  | Some x => x
  | None => x00
  end.

Fixpoint is_ascii (s : string) : bool :=
  match s with
  | EmptyString => true
  | String c s' => (N_of_ascii c <? 128)%N && is_ascii s'
  end.

(** [s.encode('ascii')]. *)
Definition encode_ascii (s : string) : result bytes :=
  if is_ascii s then Ok (list_byte_of_string s)
  else Raise UnicodeEncodeError.

(** [sep.join(parts)]. *)
Fixpoint join (sep : string) (parts : list string) : string :=
  match parts with
  | [] => EmptyString
  | [p] => p
  | p :: rest => String.append p (String.append sep (join sep rest))
  end.

(** ** base64 ([base64.standard_b64encode], RFC 4648 with padding)

    The encoder belongs to the Python library; it is written out here so
    that the chunks can be decoded again. *)
Module Base64.

Definition alphabet : bytes :=
  b "ABCDEFGHIJKLMNOPQRSTUVWXYZabcdefghijklmnopqrstuvwxyz0123456789+/".

Definition pad : byte := "="%byte.

Definition enc6 (n : Z) : byte := nth (Z.to_nat n) alphabet pad.

Fixpoint index_of (x : byte) (l : bytes) (i : Z) : option Z :=
  match l with
  | [] => None
  | y :: l' => if Byte.eqb x y then Some i else index_of x l' (i + 1)
  end.

Definition dec6 (x : byte) : option Z := index_of x alphabet 0.

Fixpoint encode (l : bytes) : bytes :=
  match l with
  | [] => []
  | [x] =>
      let n := byte_to_Z x * 65536 in
      [enc6 (n / 262144); enc6 (n / 4096 mod 64); pad; pad]
  | [x; y] =>
      let n := byte_to_Z x * 65536 + byte_to_Z y * 256 in
      [enc6 (n / 262144); enc6 (n / 4096 mod 64); enc6 (n / 64 mod 64); pad]
  | x :: y :: z :: rest =>
      let n := byte_to_Z x * 65536 + byte_to_Z y * 256 + byte_to_Z z in
      enc6 (n / 262144) :: enc6 (n / 4096 mod 64)
        :: enc6 (n / 64 mod 64) :: enc6 (n mod 64) :: encode rest
  end.

Definition sextets (s0 s1 s2 s3 : Z) : Z := ((s0 * 64 + s1) * 64 + s2) * 64 + s3.

(** The decoder of the reassembly property: groups of four characters,
    padding allowed in the last group only. *)
Fixpoint decode (l : bytes) : option bytes :=
  match l with
  | [] => Some []
  | c0 :: c1 :: c2 :: c3 :: rest =>
      match dec6 c0, dec6 c1 with
      | Some s0, Some s1 =>
          if Byte.eqb c3 pad then
            match rest with
            | [] =>
                if Byte.eqb c2 pad then
                  Some [byte_of_Z (sextets s0 s1 0 0 / 65536)]
                else
                  match dec6 c2 with
                  | Some s2 =>
                      let n := sextets s0 s1 s2 0 in
                      Some [byte_of_Z (n / 65536); byte_of_Z (n / 256 mod 256)]
                  | None => None
                  end
            | _ => None
            end
          else
            match dec6 c2, dec6 c3, decode rest with
            | Some s2, Some s3, Some tail =>
                let n := sextets s0 s1 s2 s3 in
                Some (byte_of_Z (n / 65536) :: byte_of_Z (n / 256 mod 256)
                        :: byte_of_Z (n mod 256) :: tail)
            | _, _, _ => None
            end
      | _, _ => None
      end
  | _ => None
  end.

End Base64.

Definition standard_b64encode : bytes -> bytes := Base64.encode.


(** ** What the program takes from its libraries and its surroundings *)

(** An image as the decoder (PIL) holds it. *)
Record pil_image : Type := Image {
  im_mode : string;
  im_size : Z * Z;
  im_bytes : bytes
}.

(** How a run of [rsvg-convert] ends. *)
Inductive rsvg_outcome : Type :=
| RsvgOutput (png : bytes)
| RsvgMissing                (* [OSError]: no such program *)
| RsvgFailed.                (* [CalledProcessError]: non-zero exit *)

Record env : Type := Env {
  (* [zlib.compress] *)
  zlib_compress : bytes -> bytes;
  (* [mimetypes.guess_type(name)[0]] *)
  guess_type : string -> option string;
  (* [os.path.isdir] *)
  isdir : string -> bool;
  (* [os.walk(d)]: the [(dirpath, dirnames, filenames)] triples, top down *)
  os_walk : string -> list (string * list string * list string);
  (* [from PIL import Image] succeeds *)
  pil_installed : bool;
  (* [Image.open(path)]: the image, or the text of the exception *)
  image_open : string -> string + pil_image;
  (* [im.convert('RGBA')] *)
  image_convert_rgba : pil_image -> pil_image;
  (* [rsvg-convert -f png path] *)
  rsvg_convert : string -> rsvg_outcome;
  (* [NamedTemporaryFile()]: the encoded [f.name], or [None] when creating
     the file raises [OSError] *)
  tmp_name : option bytes;
  (* [option_parser().parse_args(argv)]: the [items] *)
  parse_args : list string -> result (list string);
  (* [time.monotonic()]: the float of seconds the interpreter makes of the
     nanoseconds of the clock *)
  clock_seconds : N -> Float.float
}.

(** ** Transport encoder *)

Definition format_item (kv : string * pyval) : string :=
  String.append (fst kv) (String.append "=" (format_val (snd kv))).

Definition log_frame (cmd : dict) (payload : bytes) : M unit :=
  modify (fun w => set_frames (frames w ++ [(cmd, payload)]) w).

Definition write_gr_cmd (cmd : dict) (payload : bytes) : M unit :=
  let text := join "," (map format_item cmd) in
  do stdout_write [ESC; "_"%byte; "G"%byte] then
  let* encoded := lift (encode_ascii text) in
  do stdout_write encoded then
  do stdout_write [";"%byte] then
  do stdout_write payload then
  do stdout_write [ESC; "\"%byte] then
  do stdout_flush then
  log_frame cmd payload.

Definition add_format_code (cmd : dict) (mode : string) (width height : Z) : result dict :=
  bind_result
    (if String.eqb mode "RGB" then Ok "24"%string
     else if String.eqb mode "RGBA" then Ok "32"%string
     else if String.eqb mode "PNG" then Ok "100"%string
     else Raise (KeyError mode))
    (fun code =>
       let cmd := dict_set "f" (PStr code) cmd in
       if negb (String.eqb mode "PNG")
       then Ok (dict_set "v" (PInt height) (dict_set "s" (PInt width) cmd))
       else Ok cmd).

Definition py_bool_Z (x : bool) : Z := if x then 1 else 0.

Definition nonempty {A} (l : list A) : bool :=
  match l with
  | [] => false
  | _ => true
  end.

(** The size of a chunk, [4096] bytes of base64 text. *)
Definition chunk_size : nat := 4096.

(** The [while data:] loop of [write_chunked]. Every turn removes a
    non-empty chunk, so [length data] turns are enough; [fuel] counts them. *)
Fixpoint write_chunks (fuel : nat) (cmd : dict) (data : bytes) : M dict :=
  if nonempty data then
    match fuel with
    | O => fun w => (Starved, w)
    | S fuel' =>
        let chunk := firstn chunk_size data in
        let data := skipn chunk_size data in
        let m := py_bool_Z (nonempty data) in
        let cmd := dict_set "m" (PInt m) cmd in
        do write_gr_cmd cmd chunk then
        write_chunks fuel' [] data
    end
  else ret cmd.

Section Program.

Variable E : env.

Definition write_chunked (mode : string) (cmd : dict) (data : bytes) : M dict :=
  let '(data, cmd) :=
    if negb (String.eqb mode "PNG")
    then (zlib_compress E data, dict_set "o" (PStr "z") cmd)
    else (data, cmd) in
  let data := standard_b64encode data in
  write_chunks (length data) cmd data.

(** ** Cursor placement *)

Definition spaces (n : Z) : bytes := repeat " "%byte (Z.to_nat n).

Definition set_cursor (cmd : dict) (width height : Z) : M dict :=
  let* ss := screen_size false in
  let* cw := lift (bind_result (Float.int_truediv (Size.width ss) (Size.cols ss)) Float.trunc) in
  let* num_of_cells_needed := lift (bind_result (Float.int_truediv width cw) Float.ceil) in
  if Size.cols ss <? num_of_cells_needed then
    let* wh := lift (fit_image width height (Size.width ss) height) in
    let* ch := lift (bind_result (Float.int_truediv (Size.height ss) (Size.rows ss)) Float.trunc) in
    let* num_of_rows_needed := lift (bind_result (Float.int_truediv height ch) Float.ceil) in
    let y_off := height mod ch in
    let cmd := dict_set "r" (PInt num_of_rows_needed) (dict_set "c" (PInt (Size.cols ss)) cmd) in
    ret (dict_set "Y" (PInt y_off) cmd)
  else
    let x_off := width mod cw in
    let cmd := dict_set "X" (PInt x_off) cmd in
    let extra_cells := (Size.cols ss - num_of_cells_needed) / 2 in
    do (if extra_cells =? 0 then ret tt else stdout_write (spaces extra_cells)) then
    ret cmd.

Definition show (data : bytes) (mode : string) (width height : Z) : M unit :=
  let cmd := [("a"%string, PStr "T")] in
  let cmd := if String.eqb mode "PNG" then dict_set "S" (PInt (Z.of_nat (length data))) cmd else cmd in
  let* cmd := lift (add_format_code cmd mode width height) in
  let* cmd := set_cursor cmd width height in
  let* _ := write_chunked mode cmd data in
  ret tt.

(** ** Capability negotiation *)

(** Linux values of the constants [tty.setraw] and [detect_support] use. *)
Definition O_NONBLOCK : Z := 2048.
Definition BRKINT : Z := 2.
Definition ICRNL : Z := 256.
Definition INPCK : Z := 16.
Definition ISTRIP : Z := 32.
Definition IXON : Z := 1024.
Definition OPOST : Z := 1.
Definition CSIZE : Z := 48.
Definition PARENB : Z := 256.
Definition CS8 : Z := 48.
Definition ECHO : Z := 8.
Definition ICANON : Z := 2.
Definition IEXTEN : Z := 32768.
Definition ISIG : Z := 1.
Definition VMIN : nat := 6.
Definition VTIME : nat := 5.

Definition clear_bits (flags mask : Z) : Z := Z.land flags (Z.lnot mask).

(** The attributes [tty.setraw] computes from the current ones. The control
    characters are a list of NCCS = 32 entries; slots 5 and 6 exist. *)
Definition raw_mode (mode : termios) : termios :=
  let i := clear_bits (iflag mode) (Z.lor BRKINT (Z.lor ICRNL (Z.lor INPCK (Z.lor ISTRIP IXON)))) in
  let o := clear_bits (oflag mode) OPOST in
  let c := Z.lor (clear_bits (cflag mode) (Z.lor CSIZE PARENB)) CS8 in
  let l := clear_bits (lflag mode) (Z.lor ECHO (Z.lor ICANON (Z.lor IEXTEN ISIG))) in
  Termios i o c l (ispeed mode) (ospeed mode) (<[VTIME := 0]> (<[VMIN := 1]> (cc mode))).

(** [termios.tcgetattr(fd)] and [termios.tcsetattr(fd, when, mode)] raise
    [termios.error] on anything but a terminal that is still there. *)
Definition tcgetattr : M termios :=
  let* present := get stdin_isatty in
  if present then get stdin_attr else raise TermiosError.

Definition tcsetattr (mode : termios) : M unit :=
  let* present := get stdin_isatty in
  if present then modify (set_stdin_attr mode) else raise TermiosError.

Definition fcntl_F_GETFL : M Z := get stdin_fl.
Definition fcntl_F_SETFL (fl : Z) : M unit := modify (set_stdin_fl fl).

Definition setraw : M unit :=
  let* mode := tcgetattr in
  tcsetattr (raw_mode mode).

(** [monotonic()]: the clock is read once the time the program took to
    get here has gone by. *)
Definition monotonic : M Float.float :=
  fun w =>
    match clock w with
    | lag :: rest =>
        let t := (now w + lag)%N in
        (Ret (clock_seconds E t), set_clock rest (set_now t w))
    | [] => (Starved, w)
    end.

(** The longest [select(timeout)] waits, in nanoseconds. The selector
    rounds the timeout up to whole milliseconds,
    [math.ceil(timeout * 1e3) * 1e-3]; it does not wait on a timeout that
    is not positive. *)
Definition select_wait (timeout : Float.float) : N :=
  match Float.ceil (Float.mul timeout (Float.int_as_float 1000)) with
  | Ok ms => Z.to_N (ms * 1000000)
  | Raise _ => 0%N
  end.

(** The time a call of [select] that waits [wait] nanoseconds at most
    takes to answer [ev]. *)
Definition took (wait : N) (ev : stdin_event) : N :=
  match ev with
  | Idle => wait
  | Data after _ => N.min after wait
  | SelectFails => 0%N
  end.

(** [sel.select(timeout)] on the one registered stream, and the read of
    the callback: the clock moves on by the time the call takes, and a
    read that gives nothing leaves fd 0 without its terminal. *)
Definition select (timeout : Float.float) : M stdin_event :=
  fun w =>
    match stdin_events w with
    | ev :: rest =>
        let w := set_stdin_events rest
                   (set_now (now w + took (select_wait timeout) ev)%N w) in
        match ev with
        | Data _ [] => (Ret ev, set_stdin_isatty false w)
        | _ => (Ret ev, w)
        end
    | [] => (Starved, w)
    end.

(** *** The response pattern

    [re.finditer(b'\033_Gi=([1|2]);(.+?)\033\\\\', received)]: the literal
    [ESC _ G i =], one byte of the class [1|2] (which holds the bar too),
    [;], then as few bytes as possible, at least one and none a newline,
    up to the first [ESC \] that follows. *)

Definition newline : byte := x0a.

Definition starts_with_ST (s : bytes) : bool :=
  match s with
  | e :: bs :: _ => Byte.eqb e ESC && Byte.eqb bs "\"%byte
  | _ => false
  end.

(** [(.+?)ESC \] at the head of [s]: the group and the number of bytes
    matched, terminator included. *)
Fixpoint lazy_group (s : bytes) : option (bytes * nat) :=
  match s with
  | [] => None
  | c :: rest =>
      if Byte.eqb c newline then None
      else if starts_with_ST rest then Some ([c], 3%nat)
      else
        match lazy_group rest with
        | Some (g, n) => Some (c :: g, S n)
        | None => None
        end
  end.

Definition in_class_1_bar_2 (c : byte) : bool :=
  Byte.eqb c "1"%byte || Byte.eqb c "|"%byte || Byte.eqb c "2"%byte.

(** A match of the whole pattern at the head of [s]: group 1, group 2 and
    the length of the match. *)
Definition match_at (s : bytes) : option (byte * bytes * nat) :=
  match s with
  | e :: u :: g :: i :: q :: c :: semi :: rest =>
      if Byte.eqb e ESC && Byte.eqb u "_"%byte && Byte.eqb g "G"%byte
         && Byte.eqb i "i"%byte && Byte.eqb q "="%byte
         && in_class_1_bar_2 c && Byte.eqb semi ";"%byte
      then
        match lazy_group rest with
        | Some (grp, n) => Some (c, grp, (7 + n)%nat)
        | None => None
        end
      else None
  | _ => None
  end.

(** The non-overlapping matches, left to right. [skip] counts the bytes of
    the last match still to step over. *)
Fixpoint finditer_from (skip : nat) (s : bytes) : list (byte * bytes) :=
  match s with
  | [] => []
  | _ :: rest =>
      match skip with
      | S k => finditer_from k rest
      | O =>
          match match_at s with
          | Some (c, grp, n) => (c, grp) :: finditer_from (Nat.pred n) rest
          | None => finditer_from O rest
          end
      end
  end.

Definition finditer (s : bytes) : list (byte * bytes) := finditer_from O s.

Fixpoint bytes_eqb (x y : bytes) : bool :=
  match x, y with
  | [], [] => true
  | c :: x', d :: y' => Byte.eqb c d && bytes_eqb x' y'
  | _, _ => false
  end.

(** The body of the [for m in re.finditer(...)] loop for one match. *)
Definition record_response (responses : gmap Z bool) (m : byte * bytes) : gmap Z bool :=
  let '(iid, status) := m in
  if Byte.eqb iid "1"%byte || Byte.eqb iid "2"%byte then
    let iid := if Byte.eqb iid "1"%byte then 1 else 2 in
    match responses !! iid with
    | None => <[iid := bytes_eqb status (b "OK")]> responses
    | Some _ => responses
    end
  else responses.

Definition parse_responses (received : bytes) (responses : gmap Z bool) : gmap Z bool :=
  fold_left record_response (finditer received) responses.

(** The nested [read()], given what [sys.stdin.buffer.read()] returned. *)
Definition read (d : bytes) (received : bytes) (responses : gmap Z bool)
  : bytes * gmap Z bool :=
  if nonempty d then
    let received := received ++ d in
    (received, parse_responses received responses)
  else
    (received, <[2 := false]> (<[1 := false]> responses)).

Definition has_key (k : Z) (responses : gmap Z bool) : bool :=
  match responses !! k with
  | Some _ => true
  | None => false
  end.

(** [float < int]: Python compares the two values exactly, without
    rounding the integer to a float. *)
Definition float_lt_int (x : Float.float) (n : Z) : bool :=
  match x with
  | S754_zero _ => 0 <? n
  | S754_finite s m e =>
      let v := if s then Z.neg m else Z.pos m in
      if 0 <=? e then v * 2 ^ e <? n else v <? n * 2 ^ (- e)
  | S754_infinity s => s
  | S754_nan => false
  end.

(** The timeout of one call of [select] in the polling loop. *)
Definition poll_timeout : Float.float := Float.one_tenth.

(** The test of the polling loop, with the clock reading [now]. *)
Definition keep_polling (now start_time : Float.float) (wait_for : Z)
    (responses : gmap Z bool) : bool :=
  float_lt_int (Float.sub now start_time) wait_for
  && negb (has_key 1 responses) && negb (has_key 2 responses).

(** The polling loop. Each turn reads the clock once, so there are at
    most as many turns as entries of the clock left; [fuel] counts
    them. *)
Fixpoint poll (fuel : nat) (start_time : Float.float) (wait_for : Z)
    (received : bytes) (responses : gmap Z bool) : M (gmap Z bool) :=
  match fuel with
  | O => fun w => (Starved, w)
  | S fuel' =>
      let* now := monotonic in
      if keep_polling now start_time wait_for responses then
        let* ev := select poll_timeout in
        match ev with
        | Idle => poll fuel' start_time wait_for received responses
        | Data _ d =>
            let '(received, responses) := read d received responses in
            poll fuel' start_time wait_for received responses
        | SelectFails => raise OSError
        end
      else ret responses
  end.

Definition NamedTemporaryFile : M bytes :=
  match tmp_name E with
  | Some name => ret name
  | None => raise OSError
  end.

Definition probe_1 : dict :=
  [("a", PStr "q"); ("s", PInt 1); ("v", PInt 1); ("i", PInt 1)]%string.

Definition probe_2 : dict :=
  [("a", PStr "q"); ("s", PInt 1); ("v", PInt 1); ("i", PInt 2); ("t", PStr "f")]%string.

(** The [try] block of [detect_support]. *)
Definition negotiate (wait_for : Z) : M (gmap Z bool) :=
  let* start_time := monotonic in
  let* name := NamedTemporaryFile in
  do write_gr_cmd probe_1 (standard_b64encode (b "abcd")) then
  do write_gr_cmd probe_2 (standard_b64encode name) then
  let* turns := get (fun w => S (length (clock w))) in
  poll turns start_time wait_for [] ∅.

(** The [finally] block. *)
Definition restore_terminal (old : termios) (oldfl : Z) : M unit :=
  do stdout_write [ESC; "["%byte; "J"%byte] then
  do stdout_flush then
  do tcsetattr old then
  fcntl_F_SETFL oldfl.

Definition checking_message (wait_for : Z) : bytes :=
  b (String.append "Checking for graphics ("
       (String.append (str_of_Z wait_for) "s max. wait)...")) ++ [x0d].

Definition detect_support (wait_for : Z) : M bool :=
  let* old := tcgetattr in
  let* oldfl := fcntl_F_GETFL in
  do fcntl_F_SETFL (Z.lor oldfl O_NONBLOCK) then
  do stdout_write (checking_message wait_for) then
  do stdout_flush then
  do setraw then
  let* responses := try_finally (negotiate wait_for) (restore_terminal old oldfl) in
  do modify (set_has_files
               (Some (match responses !! 2 with Some v => v | None => false end))) then
  ret (match responses !! 1 with Some v => v | None => false end).

(** ** Driver *)

Definition note_decoded (path : string) : M unit :=
  modify (fun w => set_decoded (decoded w ++ [path]) w).

Definition convert_svg (path : string) : M bytes :=
  do note_decoded path then
  match rsvg_convert E path with
  | RsvgOutput png => ret png
  | RsvgMissing =>
      raise (SystemExit "Could not find the program rsvg-convert, needed to display svg files")
  | RsvgFailed => raise (OpenFailed path "rsvg-convert could not process the image")
  end.

Definition process (path : string) (mt : string) : M unit :=
  let* image :=
    if String.eqb mt "image/svg+xml" then
      let* data := convert_svg path in
      ret (data, "PNG"%string, 0, 0)
    else
      if negb (pil_installed E) then
        raise (SystemExit "You need to install the python-pillow package for image support")
      else
        do note_decoded path then
        match image_open E path with
        | inl message => raise (OpenFailed path message)
        | inr im =>
            let im :=
              if String.eqb (im_mode im) "RGB" || String.eqb (im_mode im) "RGBA"
              then im else image_convert_rgba E im in
            ret (im_bytes im, im_mode im, fst (im_size im), snd (im_size im))
        end in
  let '(data, mode, width, height) := image in
  do show data mode width height then
  stdout_write [newline].

(** [os.path.join(dirpath, f)] on a POSIX system. *)
Definition path_join (dirpath f : string) : string :=
  if String.prefix "/" f then f
  else if String.eqb dirpath "" then f
  else if String.eqb (String.substring (String.length dirpath - 1) 1 dirpath) "/"
       then String.append dirpath f
       else String.append dirpath (String.append "/" f).

(** The pairs the generator [scan(d)] yields, in order. *)
Definition scan (d : string) : list (string * string) :=
  flat_map
    (fun '(dirpath, dirnames, filenames) =>
       flat_map
         (fun f =>
            match guess_type E f with
            | Some mt =>
                if negb (String.eqb mt "") && String.prefix "image/" mt
                then [(path_join dirpath f, mt)] else []
            | None => []
            end)
         filenames)
    (os_walk E d).

(** The body of [for item in args.items], [errors] threaded through. *)
Definition process_item (item : string) (errors : list (string * string))
  : M (list (string * string)) :=
  try_except_OpenFailed
    (do (if isdir E item then
           for_each (scan item) (fun '(x, mt) => process item mt)
         else
           process item
             (match guess_type E item with
              | Some mt => if String.eqb mt "" then "application/octet-stream" else mt
              | None => "application/octet-stream"
              end)%string) then
     ret errors)
    (fun path message => ret (errors ++ [(path, message)])).

Fixpoint process_items (items : list string) (errors : list (string * string))
  : M (list (string * string)) :=
  match items with
  | [] => ret errors
  | item :: rest =>
      let* errors := process_item item errors in
      process_items rest errors
  end.

(** [str(e)] of an [OpenFailed]. *)
Definition OpenFailed_str (e : string * string) : string :=
  String.append "Failed to open: "
    (String.append (fst e) (String.append " with error: " (snd e))).

Definition print_stderr (line : string) : M unit :=
  modify (fun w => set_stderr (stderr w ++ [line]) w).

Definition main (args : list string) : M unit :=
  do modify (set_sigwinch (Some (Lambda 0 true))) then
  let* out_tty := get stdout_isatty in
  let* in_tty := get stdin_isatty in
  if negb out_tty || negb in_tty then
    raise (SystemExit "Must be run in a terminal, stdout is currently not a terminal")
  else
  let* ss := screen_size false in
  if Size.width ss =? 0 then
    raise (SystemExit "Terminal does not support reporting screen sizes via the TIOCGWINSZ ioctl")
  else
  let* items := lift (parse_args E (tl args)) in
  if negb (nonempty items) then
    raise (SystemExit "You must specify at least one file to cat")
  else
  let* supported := detect_support 10 in
  if negb supported then
    raise (SystemExit "This terminal emulator does not support the graphics protocol, use a terminal emulator such as kitty that does support it")
  else
  let* errors := process_items items [] in
  if negb (nonempty errors) then ret tt
  else
    do for_each errors (fun err => print_stderr (OpenFailed_str err)) then
    raise (SystemExitCode 1).

End Program.

(** ** Signals *)

(** A call of a stored function with [nargs] positional arguments:
    [TypeError] unless it has that many parameters. *)
Definition call (f : pyfun) (nargs : nat) : M unit :=
  if Nat.eqb nargs (params f) then
    let* _ := screen_size (body_refresh f) in
    ret tt
  else raise TypeError.

(** Python runs the handler of a signal as [handler(signum, frame)]; a
    SIGWINCH without a handler is ignored. *)
Definition deliver_SIGWINCH : M unit :=
  let* handler := get sigwinch in
  match handler with
  | Some f => call f 2
  | None => ret tt
  end.

(** The terminal is resized: TIOCGWINSZ answers [sz] from now on. *)
Definition resize (sz : Size.t) (w : world) : world :=
  World (Some sz) (screen_size_ans w) (stdout w) (stdout_credit w)
        (stdout_isatty w) (stdin_isatty w) (stdin_attr w) (stdin_fl w) (now w)
        (clock w) (stdin_events w) (has_files w) (decoded w) (stderr w)
        (sigwinch w) (frames w).

(** ** A terminal, a library and some runs to evaluate the program on *)

Module Run.

(** The clock as a float of seconds: the nanoseconds divided by [1e9],
    correctly rounded. *)
Definition seconds (t : N) : Float.float :=
  SFdiv Float.prec Float.emax
    (Float.int_as_float (Z.of_N t)) (Float.int_as_float 1000000000).

(** The response frame [ESC _ G i=<id>;<status> ESC \ ]. *)
Definition response (iid status : string) : bytes :=
  [ESC] ++ b (String.append "_Gi=" (String.append iid (String.append ";" status)))
    ++ [ESC; "\"%byte].

Definition ends_with (suffix name : string) : bool :=
  String.eqb
    (String.substring (String.length name - String.length suffix)
       (String.length suffix) name)
    suffix.

(** What the decoder makes of every file: 300 x 200 pixels, RGB. *)
Definition small_image : pil_image := Image "RGB" (300, 200) (repeat x00 12).

(** A stand-in for [zlib.compress]: a two-byte header before the data. *)
Definition stored (d : bytes) : bytes := x78 :: x9c :: d.
Definition unstored (d : bytes) : option bytes :=
  match d with
  | _ :: _ :: d' => Some d'
  | _ => None
  end.

(** A directory [pics] holding [a.png], [notes.txt] and [b.png]. The
    decoder opens every path, the directory too, when [lenient]; it
    refuses the directory otherwise, as the real one does. *)
Definition library (lenient : bool) : env :=
  Env stored
      (fun name => if ends_with ".png" name then Some "image/png"%string
                   else if ends_with ".txt" name then Some "text/plain"%string
                   else None)
      (fun path => String.eqb path "pics")
      (fun d => [(d, [], ["a.png"; "notes.txt"; "b.png"]%string)])
      true
      (fun path =>
         if String.eqb path "pics" && negb lenient
         then inl "cannot identify image file"%string
         else inr small_image)
      (fun im => im)
      (fun _ => RsvgFailed)
      (Some (b "/tmp/tmpq1w2e3"))
      (fun argv =>
         match argv with
         | [] => Raise (SystemExitCode 2)
         | _ => Ok argv
         end)
      seconds.

Definition cooked : termios :=
  Termios 17664 5 191 35387 15 15
    [3; 28; 127; 21; 4; 0; 1; 0; 17; 19; 26; 0; 18; 15; 23; 22;
     0; 0; 0; 0; 0; 0; 0; 0; 0; 0; 0; 0; 0; 0; 0; 0].

(** A terminal of 50 rows and 100 columns, 1000 x 800 pixels, behind
    both standard streams, with the clock at [0]: the program takes
    [lags] before its readings of the clock and finds [events] on
    stdin. *)
Definition terminal (sz : Size.t) (credit : option nat)
    (lags : list N) (events : list stdin_event) : world :=
  World (Some sz) None [] credit true true cooked 2 0%N lags events
        None [] [] None [].

Definition geometry : Size.t := Size.Make 50 100 1000 800.

(** The program takes 20 microseconds before every reading. *)
Definition brisk (n : nat) : list N := repeat 20000%N n.

(** Both probes are answered, each answer in a read of its own: the
    first 50 milliseconds into the first wait, the second a quarter of a
    second after it. *)
Definition answers_apart : world :=
  terminal geometry None (brisk 4)
    [Data 50000000 (response "1" "OK"); Idle; Idle; Data 50000000 (response "2" "OK")].

(** The same bytes, delivered by one read. *)
Definition answers_together : world :=
  terminal geometry None (brisk 4)
    [Data 50000000 (response "1" "OK" ++ response "2" "OK")].

(** Nothing arrives for more than ten seconds. *)
Definition silent : world :=
  terminal geometry None (brisk 102) (repeat Idle 101).

(** Two bytes that are no response arrive 30 milliseconds into the first
    wait; nothing else does. *)
Definition noisy : world :=
  terminal geometry None (brisk 103) (Data 30000000 (b "xx") :: repeat Idle 101).

(** Standard output breaks after [n] writes. *)
Definition broken_after (n : nat) : world :=
  terminal geometry (Some n) (brisk 102) (repeat Idle 101).

(** The terminal hangs up 50 milliseconds into the first wait. *)
Definition hung_up : world :=
  terminal geometry None (brisk 3) [Data 50000000 []].

(** A terminal that reports its width in pixels but not its height, and
    answers the first probe. *)
Definition no_pixel_height : world :=
  terminal (Size.Make 50 100 1000 0) None (brisk 3)
    [Data 50000000 (response "1" "OK")].

Definition supporting : world :=
  terminal geometry None (brisk 3) [Data 50000000 (response "1" "OK")].

(** A terminal that reports no pixel width, with standard input taken
    from a pipe. *)
Definition piped_input : world :=
  World (Some (Size.Make 50 100 0 0)) None [] None true false cooked 2 0%N
        [] [] None [] [] None [].

(** The library on a system where no temporary file can be created. *)
Definition without_tmp : env :=
  Env stored (guess_type (library false)) (isdir (library false))
      (os_walk (library false)) true (image_open (library false))
      (fun im => im) (fun _ => RsvgFailed) None (parse_args (library false))
      seconds.

(** A command with a value outside ASCII. *)
Definition accented : dict :=
  [("a"%string, PStr (String (ascii_of_nat 233) EmptyString))].

End Run.

(** ** Names used by the statements *)

Definition size_unsupported : exn :=
  SystemExit "Terminal does not support reporting screen sizes via the TIOCGWINSZ ioctl".

(** The geometry [screen_size()] answers with: the cached one, or else
    what the terminal reports. *)
Definition reported_size (w : world) : option Size.t :=
  match screen_size_ans w with
  | Some sz => Some sz
  | None => tty_winsize w
  end.


(** A command whose keys and values are ASCII, so that [write_gr_cmd] can
    encode it. *)
Definition wire_ascii (cmd : dict) : bool :=
  forallb (fun kv => is_ascii (format_item kv)) cmd.

(** The base64 text [write_chunked] cuts into chunks. *)
Definition encoded_payload (E : env) (mode : string) (data : bytes) : bytes :=
  standard_b64encode
    (if negb (String.eqb mode "PNG") then zlib_compress E data else data).

(** The frames the loop of [write_chunked] logs when every write succeeds:
    the first carries the command, all carry [m]. *)
Fixpoint chunk_frames (fuel : nat) (cmd : dict) (data : bytes)
  : list (dict * bytes) :=
  if nonempty data then
    match fuel with
    | O => []
    | S fuel' =>
        let rest := skipn chunk_size data in
        (dict_set "m" (PInt (py_bool_Z (nonempty rest))) cmd, firstn chunk_size data)
          :: chunk_frames fuel' [] rest
    end
  else [].

(** The receiving side of a transmission: whether a frame carries the
    compression flag [o=z], and the payload put together again. *)
Definition carries_o_z (fr : dict * bytes) : bool :=
  match dict_get "o" (fst fr) with
  | Some (PStr s) => String.eqb s "z"
  | _ => false
  end.

Definition compressed (sent : list (dict * bytes)) : bool :=
  existsb carries_o_z sent.

Definition reassemble (decompress : bytes -> option bytes)
    (sent : list (dict * bytes)) : option bytes :=
  match Base64.decode (concat (map snd sent)) with
  | Some raw => if compressed sent then decompress raw else Some raw
  | None => None
  end.

(** The clock test of the polling loop: fewer than [wait_for] seconds
    have passed between the readings [start_time] and [now]. *)
Definition before_deadline (start_time : Float.float) (wait_for : Z)
    (now : Float.float) : bool :=
  float_lt_int (Float.sub now start_time) wait_for.

(** Stdin events that bring no response frame, no end of input and no
    error: after every read the response table is still empty. *)
Fixpoint quiet (received : bytes) (events : list stdin_event) : Prop :=
  match events with
  | [] => True
  | Idle :: rest => quiet received rest
  | Data _ d :: rest =>
      d <> [] /\ parse_responses (received ++ d) ∅ = ∅
      /\ quiet (received ++ d) rest
  | SelectFails :: _ => False
  end.

(** The statements up to the [try]: non-blocking mode, the message, raw
    mode. *)
Definition entered (wait_for : Z) (w : world) : world :=
  set_stdin_attr (raw_mode (stdin_attr w))
    (set_stdout (stdout w ++ checking_message wait_for) None
       (set_stdin_fl (Z.lor (stdin_fl w) O_NONBLOCK) w)).

(** A computation that leaves the list of decoded paths alone, and one
    that only adds paths taken from [paths] to it. *)
Definition keeps_decoded {A} (m : M A) : Prop :=
  forall w r w', m w = (r, w') -> decoded w' = decoded w.

Definition decodes_only {A} (paths : list string) (m : M A) : Prop :=
  forall w r w', m w = (r, w') ->
    exists added, decoded w' = decoded w ++ added /\ Forall (fun p => In p paths) added.

(** The ceiling of [a / b]. *)
Definition ceil_div (a b : Z) : Z := - (- a / b).

(** The bytes of one frame on the wire:
    [ESC _ G <key>=<value>,... ; <payload> ESC \ ]. *)
Definition frame_bytes (fr : dict * bytes) : bytes :=
  [ESC; "_"%byte; "G"%byte]
    ++ list_byte_of_string (join "," (map format_item (fst fr)))
    ++ [";"%byte] ++ snd fr ++ [ESC; "\"%byte].

(** A receiver that decodes the chunk of every frame on its own, as it
    arrives, and joins the pieces. *)
Fixpoint decode_each (chunks : list bytes) : option bytes :=
  match chunks with
  | [] => Some []
  | c :: rest =>
      match Base64.decode c, decode_each rest with
      | Some piece, Some pieces => Some (piece ++ pieces)
      | _, _ => None
      end
  end.

(** The payload as [write_chunked] encodes it: compressed unless the
    mode is PNG. *)
Definition raw_payload (E : env) (mode : string) (data : bytes) : bytes :=
  if negb (String.eqb mode "PNG") then zlib_compress E data else data.

(** The response frame [ESC _ G i = <id> ; <status> ESC \ ] a terminal
    sends, as bytes. *)
Definition response_frame (iid : byte) (status : bytes) : bytes :=
  [ESC; "_"%byte; "G"%byte; "i"%byte; "="%byte; iid; ";"%byte] ++ status ++ [ESC; "\"%byte].

(** The bytes the reads of [events] deliver, joined. *)
Fixpoint delivered (events : list stdin_event) : bytes :=
  match events with
  | [] => []
  | Data _ d :: rest => d ++ delivered rest
  | _ :: rest => delivered rest
  end.

(** [responses.get(k, False)] and [bool(responses.get(k))]. *)
Definition answer (k : Z) (responses : gmap Z bool) : bool :=
  match responses !! k with
  | Some v => v
  | None => false
  end.

(** The library of [Run] on a system where [rsvg-convert] is installed
    and turns every file into the four bytes that open a PNG file; names
    that end in [.svg] are guessed as SVG. *)
Definition svg_library : env :=
  Env Run.stored
      (fun name => if Run.ends_with ".svg" name then Some "image/svg+xml"%string
                   else guess_type (Run.library false) name)
      (isdir (Run.library false)) (os_walk (Run.library false)) true
      (image_open (Run.library false)) (fun im => im)
      (fun _ => RsvgOutput [x89; x50; x4e; x47])
      (Some (b "/tmp/tmpq1w2e3")) (parse_args (Run.library false)) Run.seconds.

(** The table after the reads of [evs], which bring nothing, and the
    read of [d]. *)
Definition first_answers (evs : list stdin_event) (d : bytes) : gmap Z bool :=
  snd (read d (delivered evs) ∅).

(** The longest a call of [select] in the polling loop waits: a tenth of
    a second. *)
Definition poll_wait : N := select_wait poll_timeout.

(** The times at which the polling loop reads the clock. At [t] the last
    call has returned; the program takes one entry of [lags] before each
    reading, and after each reading for which an event is left it waits
    in [select] for that event. *)
Fixpoint test_times (t : N) (lags : list N) (evs : list stdin_event) : list N :=
  match lags with
  | [] => []
  | lag :: lags' =>
      (t + lag)%N ::
      match evs with
      | [] => []
      | ev :: evs' => test_times (t + lag + took poll_wait ev)%N lags' evs'
      end
  end.

(** The time at which the last of the calls of [select] that answer
    [evs] returns. *)
Fixpoint time_after (t : N) (lags : list N) (evs : list stdin_event) : N :=
  match lags, evs with
  | lag :: lags', ev :: evs' => time_after (t + lag + took poll_wait ev)%N lags' evs'
  | _, _ => t
  end.

(** The test of the polling loop at time [t], for a loop started at the
    time [start]. *)
Definition in_time (E : env) (wait_for : Z) (start t : N) : bool :=
  before_deadline (clock_seconds E start) wait_for (clock_seconds E t).

(** A negotiation that is resolved in time by an answer of the terminal.
    The clock is first read [lag0] after the call; the turns of [evs]
    bring nothing, each test before them finding the deadline ahead; then,
    after a test [lag_now] later that finds it ahead too, the read of
    [d], which is not empty, resolves an id; one more reading, [lag_end]
    later, is taken by the test that ends the loop. [rest] and [revs] are
    the entries of the clock and the events left. *)
Definition resolved_by (E : env) (wait_for : Z) (w : world)
    (evs : list stdin_event) (d : bytes)
    (rest : list N) (revs : list stdin_event) : Prop :=
  exists lag0 lags lag_now lag_end after,
    let start := (now w + lag0)%N in
    clock w = lag0 :: lags ++ lag_now :: lag_end :: rest
    /\ stdin_events w = evs ++ Data after d :: revs
    /\ length evs = length lags
    /\ Forall (fun t => in_time E wait_for start t = true) (test_times start lags evs)
    /\ in_time E wait_for start (time_after start lags evs + lag_now) = true
    /\ quiet [] evs
    /\ d <> []
    /\ (is_Some (first_answers evs d !! 1) \/ is_Some (first_answers evs d !! 2)).

Definition unsupported : exn :=
  SystemExit "This terminal emulator does not support the graphics protocol, use a terminal emulator such as kitty that does support it".

(** The type [main] takes for an item that is not a directory. *)
Definition item_type (E : env) (item : string) : string :=
  match guess_type E item with
  | Some mt => if String.eqb mt "" then "application/octet-stream" else mt
  | None => "application/octet-stream"
  end.

(** The text of the [OpenFailed] that [process] raises for [item], if it
    raises one: [rsvg-convert] fails on an SVG, or the decoder refuses a
    file of another type. *)
Definition open_error (E : env) (item : string) : option string :=
  if String.eqb (item_type E item) "image/svg+xml" then
    match rsvg_convert E item with
    | RsvgFailed => Some "rsvg-convert could not process the image"%string
    | _ => None
    end
  else if pil_installed E then
    match image_open E item with
    | inl message => Some message
    | inr _ => None
    end
  else None.

(** The [SystemExit] that [process] raises for [item], if it raises one:
    [rsvg-convert] is missing for an SVG, or the decoder is missing for a
    file of another type. *)
Definition fatal_error (E : env) (item : string) : option exn :=
  if String.eqb (item_type E item) "image/svg+xml" then
    match rsvg_convert E item with
    | RsvgMissing =>
        Some (SystemExit "Could not find the program rsvg-convert, needed to display svg files")
    | _ => None
    end
  else if pil_installed E then None
  else Some (SystemExit "You need to install the python-pillow package for image support").

(** What [str(e)] gives for the [OpenFailed] of [item]. *)
Definition failure_line (E : env) (item : string) : string :=
  String.append "Failed to open: "
    (String.append item
       (String.append " with error: "
          (match open_error E item with Some message => message | None => "" end))).

(** An item that is a file and that cannot be opened. *)
Definition unreadable (E : env) (item : string) : Prop :=
  isdir E item = false /\ is_Some (open_error E item).

(** A system whose decoder identifies no file and whose [rsvg-convert]
    fails on every file. *)
Definition blind_library : env :=
  Env Run.stored (guess_type svg_library) (fun _ => false) (fun _ => []) true
      (fun _ => inl "cannot identify image file"%string) (fun im => im)
      (fun _ => RsvgFailed) (Some (b "/tmp/tmpq1w2e3")) (parse_args (Run.library false))
      Run.seconds.

(** A system without the decoder. *)
Definition bare_library : env :=
  Env Run.stored (guess_type (Run.library false)) (fun _ => false) (fun _ => []) false
      (image_open (Run.library false)) (fun im => im)
      (fun _ => RsvgFailed) (Some (b "/tmp/tmpq1w2e3")) (parse_args (Run.library false))
      Run.seconds.

(** A computation that, unless the script of the world runs dry, ends in
    a world where [P] holds whenever it started in one. *)
Definition maintains {A} (P : world -> Prop) (m : M A) : Prop :=
  forall w r w', m w = (r, w') -> r <> Starved -> P w -> P w'.

(** Standard output is in working order and the terminal behind standard
    input, if it is still there, has the attributes [attr] and the status
    flags [fl]. *)
Definition terminal_as (attr : termios) (fl : Z) (w : world) : Prop :=
  stdout_credit w = None
  /\ (stdin_isatty w = true -> stdin_attr w = attr /\ stdin_fl w = fl).

(** A character of base64 text: one of the 64 of the alphabet, or the
    padding. *)
Definition base64_char (c : byte) : Prop :=
  In c Base64.alphabet \/ c = Base64.pad.
(** * Properties *)

(** ** Running a [bind] *)

Lemma bind_Ret {A B} (m : M A) (k : A -> M B) (w w' : world) (a : A) :
  m w = (Ret a, w') -> bind m k w = k a w'.
Proof. intros H. unfold bind. rewrite H. reflexivity. Qed.

(** One statement that returns, by computation. *)
Ltac step := erewrite bind_Ret by reflexivity.

(** ** binary64: every operation within one unit in the last place

    [SpecFloat] computes; it states nothing. The lemmas below follow its
    algorithms far enough to bracket the quotient and the product of two
    normal numbers between neighbouring 53-bit values. *)

(** [digits2_pos p] is the number of bits of [p]. *)
Lemma digits_bounds (p : positive) :
  2 ^ (Z.pos (digits2_pos p) - 1) <= Z.pos p < 2 ^ Z.pos (digits2_pos p).
Proof.
  induction p as [p IH | p IH |]; cbn [digits2_pos].
  - rewrite Pos2Z.inj_succ.
    replace (Z.succ (Z.pos (digits2_pos p)) - 1)
      with (Z.succ (Z.pos (digits2_pos p) - 1)) by lia.
    rewrite !Z.pow_succ_r by lia. lia.
  - rewrite Pos2Z.inj_succ.
    replace (Z.succ (Z.pos (digits2_pos p)) - 1)
      with (Z.succ (Z.pos (digits2_pos p) - 1)) by lia.
    rewrite !Z.pow_succ_r by lia. lia.
  - cbn. lia.
Qed.

Lemma digits_unique (p : positive) (k : Z) :
  2 ^ (k - 1) <= Z.pos p < 2 ^ k -> Z.pos (digits2_pos p) = k.
Proof.
  intros [Hlo Hhi]. pose proof (digits_bounds p) as [Dlo Dhi].
  set (d := Z.pos (digits2_pos p)) in *.
  assert (0 < d) by (subst d; lia).
  assert (Hk : 0 < k).
  { destruct (Z.ltb_spec 0 k); [assumption |].
    assert (2 ^ k <= 1).
    { destruct (Z.eq_dec k 0); [subst; cbn; lia |]. rewrite Z.pow_neg_r by lia. lia. }
    lia. }
  destruct (Z.lt_trichotomy d k) as [Hlt | [Heq | Hgt]]; [| exact Heq |].
  - assert (2 ^ d <= 2 ^ (k - 1)) by (apply Z.pow_le_mono_r; lia). lia.
  - assert (2 ^ k <= 2 ^ (d - 1)) by (apply Z.pow_le_mono_r; lia). lia.
Qed.

(** Shifting right: the mantissa of a record is halved at every step. *)
Lemma shr_1_m (mrs : shr_record) :
  0 <= shr_m mrs -> shr_m (shr_1 mrs) = shr_m mrs / 2.
Proof.
  destruct mrs as [m r s]. cbn [shr_m]. intros Hm.
  destruct m as [| p | p]; [reflexivity | | lia].
  destruct p as [p | p |]; cbn [shr_1 shr_m].
  - rewrite (Pos2Z.inj_xI p). Z.div_mod_to_equations. lia.
  - rewrite (Pos2Z.inj_xO p). Z.div_mod_to_equations. lia.
  - reflexivity.
Qed.

Lemma shr_1_nonneg (mrs : shr_record) : 0 <= shr_m mrs -> 0 <= shr_m (shr_1 mrs).
Proof. intros H. rewrite shr_1_m by exact H. apply Z.div_pos; lia. Qed.

Lemma pow2_xI (p : positive) : 2 ^ Z.pos p~1 = 2 * (2 ^ Z.pos p * 2 ^ Z.pos p).
Proof.
  rewrite (Pos2Z.inj_xI p).
  replace (2 * Z.pos p + 1) with (Z.succ (2 * Z.pos p)) by lia.
  rewrite Z.pow_succ_r by lia. rewrite Z.pow_twice_r. reflexivity.
Qed.

Lemma pow2_xO (p : positive) : 2 ^ Z.pos p~0 = 2 ^ Z.pos p * 2 ^ Z.pos p.
Proof.
  rewrite (Pos2Z.inj_xO p). apply Z.pow_twice_r.
Qed.

Lemma iter_shr_1_m (p : positive) :
  forall mrs, 0 <= shr_m mrs ->
    shr_m (SpecFloat.iter_pos shr_1 p mrs) = shr_m mrs / 2 ^ Z.pos p
    /\ 0 <= shr_m (SpecFloat.iter_pos shr_1 p mrs).
Proof.
  induction p as [p IH | p IH |]; intros mrs Hm; cbn [SpecFloat.iter_pos].
  - pose proof (shr_1_nonneg mrs Hm) as H1.
    destruct (IH (shr_1 mrs) H1) as [E1 N1].
    destruct (IH _ N1) as [E2 N2].
    split; [| exact N2].
    rewrite E2, E1, shr_1_m by exact Hm.
    assert (0 < 2 ^ Z.pos p) by (apply Z.pow_pos_nonneg; lia).
    rewrite !Z.div_div by lia.
    rewrite pow2_xI. f_equal; ring.
  - destruct (IH mrs Hm) as [E1 N1].
    destruct (IH _ N1) as [E2 N2].
    split; [| exact N2].
    assert (0 < 2 ^ Z.pos p) by (apply Z.pow_pos_nonneg; lia).
    rewrite E2, E1. rewrite !Z.div_div by lia.
    rewrite pow2_xO. f_equal; ring.
  - split; [| apply shr_1_nonneg; exact Hm].
    rewrite shr_1_m by exact Hm. reflexivity.
Qed.

Lemma shr_m_spec (mrs : shr_record) (e n : Z) :
  0 <= shr_m mrs -> 0 <= n ->
  shr_m (fst (shr mrs e n)) = shr_m mrs / 2 ^ n /\ snd (shr mrs e n) = e + n.
Proof.
  intros Hm Hn. unfold shr. destruct n as [| p | p]; [| | lia].
  - cbn [fst snd]. rewrite Z.div_1_r. lia.
  - cbn [fst snd]. split; [apply iter_shr_1_m; exact Hm | reflexivity].
Qed.

Lemma shr_m_of_loc (m : Z) (l : location) : shr_m (shr_record_of_loc m l) = m.
Proof. destruct l as [| []]; reflexivity. Qed.

Lemma round_nearest_even_cases (m : Z) (l : location) :
  round_nearest_even m l = m \/ round_nearest_even m l = m + 1.
Proof.
  destruct l as [| []]; cbn; auto. destruct (Z.even m); auto.
Qed.

Lemma fexp_normal (e : Z) : -1074 <= e - 53 -> fexp Float.prec Float.emax e = e - 53.
Proof. unfold fexp, emin, Float.prec, Float.emax. lia. Qed.

Lemma pow2_pos (n : Z) : 0 <= n -> 0 < 2 ^ n.
Proof. intros. apply Z.pow_pos_nonneg; lia. Qed.

(** The leading 53 bits of a positive integer of at least 53 bits. *)
Lemma leading_bits (mx : positive) :
  let d := Z.pos (digits2_pos mx) in
  53 <= d ->
  2 ^ 52 <= Z.pos mx / 2 ^ (d - 53) < 2 ^ 53.
Proof.
  intros d Hd. pose proof (digits_bounds mx) as [Hlo Hhi]. fold d in Hlo, Hhi.
  assert (Hn : 0 < 2 ^ (d - 53)) by (apply pow2_pos; lia).
  assert (E1 : 2 ^ (d - 1) = 2 ^ 52 * 2 ^ (d - 53)).
  { rewrite <- Z.pow_add_r by lia. f_equal. lia. }
  assert (E2 : 2 ^ d = 2 ^ 53 * 2 ^ (d - 53)).
  { rewrite <- Z.pow_add_r by lia. f_equal. lia. }
  split.
  - apply Z.div_le_lower_bound; [exact Hn |]. lia.
  - apply Z.div_lt_upper_bound; [exact Hn |]. lia.
Qed.

Lemma shr_fexp_normal (m : positive) (e : Z) (l : location) :
  let d := Z.pos (digits2_pos m) in
  53 <= d -> -1074 <= d + e - 53 ->
  shr_m (fst (shr_fexp Float.prec Float.emax (Z.pos m) e l)) = Z.pos m / 2 ^ (d - 53)
  /\ snd (shr_fexp Float.prec Float.emax (Z.pos m) e l) = e + (d - 53).
Proof.
  intros d Hd He. unfold shr_fexp. cbn [Zdigits2]. fold d.
  rewrite fexp_normal by lia.
  replace (d + e - 53 - e) with (d - 53) by lia.
  pose proof (shr_m_spec (shr_record_of_loc (Z.pos m) l) e (d - 53)) as H.
  rewrite shr_m_of_loc in H. apply H; lia.
Qed.

(** Rounding a mantissa of at least 53 bits: the result is normal and is
    the leading 53 bits, or their successor, whatever the location says. *)
Lemma binary_round_aux_normal (mx : positive) (ex : Z) (lx : location) :
  let d := Z.pos (digits2_pos mx) in
  53 <= d -> -1074 <= d + ex - 53 -> d + ex - 53 < 971 ->
  exists m' e',
    binary_round_aux Float.prec Float.emax false (Z.pos mx) ex lx = S754_finite false m' e'
    /\ Z.pos (digits2_pos m') = 53
    /\ ex + (d - 53) <= e'
    /\ (Z.pos m' * 2 ^ (e' - (ex + (d - 53))) = Z.pos mx / 2 ^ (d - 53)
        \/ Z.pos m' * 2 ^ (e' - (ex + (d - 53))) = Z.pos mx / 2 ^ (d - 53) + 1).
Proof.
  intros d Hd Hlo Hhi.
  pose proof (leading_bits mx Hd) as Hq. fold d in Hq.
  destruct (shr_fexp_normal mx ex lx Hd Hlo) as [Hm1 He1]. fold d in Hm1, He1.
  unfold binary_round_aux.
  destruct (shr_fexp Float.prec Float.emax (Z.pos mx) ex lx) as [mrs1 e1]. cbn [fst snd] in Hm1, He1.
  set (q := Z.pos mx / 2 ^ (d - 53)) in *.
  set (m1 := round_nearest_even (shr_m mrs1) (loc_of_shr_record mrs1)).
  assert (Hm1' : m1 = q \/ m1 = q + 1).
  { subst m1. rewrite <- Hm1. apply round_nearest_even_cases. }
  assert (Hpos : 0 < m1) by lia.
  destruct m1 as [| pm | pm] eqn:Em1; [lia | | lia].
  assert (Hcases : Z.pos pm < 2 ^ 53 \/ Z.pos pm = 2 ^ 53) by lia.
  destruct Hcases as [Hlt | Heq].
  - assert (Hd1 : Z.pos (digits2_pos pm) = 53) by (apply digits_unique; lia).
    pose proof (shr_fexp_normal pm e1 loc_Exact) as H2. cbv zeta in H2.
    rewrite Hd1 in H2. destruct H2 as [Hm2 He2]; [lia | lia |].
    destruct (shr_fexp Float.prec Float.emax (Z.pos pm) e1 loc_Exact) as [mrs2 e2].
    cbn [fst snd] in Hm2, He2. change (2 ^ (53 - 53)) with 1 in Hm2.
    rewrite Z.div_1_r in Hm2. rewrite Hm2.
    assert (Hle : (e2 <=? Float.emax - Float.prec) = true) by (apply Z.leb_le; unfold Float.emax, Float.prec; lia).
    rewrite Hle. exists pm, e2. split; [reflexivity |]. split; [exact Hd1 |].
    split; [lia |].
    replace (e2 - (ex + (d - 53))) with 0 by lia. rewrite Z.pow_0_r, Z.mul_1_r. lia.
  - assert (Hd1 : Z.pos (digits2_pos pm) = 54) by (apply digits_unique; rewrite Heq; cbn; lia).
    pose proof (shr_fexp_normal pm e1 loc_Exact) as H2. cbv zeta in H2.
    rewrite Hd1 in H2. destruct H2 as [Hm2 He2]; [lia | lia |].
    destruct (shr_fexp Float.prec Float.emax (Z.pos pm) e1 loc_Exact) as [mrs2 e2].
    cbn [fst snd] in Hm2, He2. rewrite Heq in Hm2.
    change (2 ^ 53 / 2 ^ (54 - 53)) with 4503599627370496 in Hm2.
    rewrite Hm2.
    assert (Hle : (e2 <=? Float.emax - Float.prec) = true) by (apply Z.leb_le; unfold Float.emax, Float.prec; lia).
    rewrite Hle. exists 4503599627370496%positive, e2.
    split; [reflexivity |]. split; [reflexivity |]. split; [lia |].
    replace (e2 - (ex + (d - 53))) with 1 by lia.
    right. change (Z.pos 4503599627370496 * 2 ^ 1) with (2 ^ 53). lia.
Qed.

Lemma pos_iter_xO (m k : positive) :
  Z.pos (Pos.iter xO m k) = Z.pos m * 2 ^ Z.pos k
  /\ Z.pos (digits2_pos (Pos.iter xO m k)) = Z.pos (digits2_pos m) + Z.pos k.
Proof.
  induction k as [| k [IH1 IH2]] using Pos.peano_ind.
  - cbn [Pos.iter digits2_pos]. rewrite (Pos2Z.inj_xO m), Pos2Z.inj_succ, Z.pow_1_r. lia.
  - rewrite Pos.iter_succ. cbn [digits2_pos].
    rewrite (Pos2Z.inj_xO (Pos.iter xO m k)), !Pos2Z.inj_succ, IH1, IH2.
    rewrite Z.pow_succ_r by lia. lia.
Qed.

Lemma shl_align_spec (mx : positive) (ex ex' : Z) :
  ex' <= ex ->
  snd (shl_align mx ex ex') = ex'
  /\ Z.pos (fst (shl_align mx ex ex')) = Z.pos mx * 2 ^ (ex - ex')
  /\ Z.pos (digits2_pos (fst (shl_align mx ex ex')))
     = Z.pos (digits2_pos mx) + (ex - ex').
Proof.
  intros Hle. unfold shl_align.
  destruct (ex' - ex) as [| p | p] eqn:Hd; cbn [fst snd].
  - replace (ex - ex') with 0 by lia. rewrite Z.pow_0_r. lia.
  - lia.
  - destruct (pos_iter_xO mx p) as [H1 H2].
    replace (ex - ex') with (Z.pos p) by lia. auto.
Qed.

(** A mantissa of 53 bits with an exact location is not rounded. *)
Lemma binary_round_aux_exact (m : positive) (e : Z) :
  Z.pos (digits2_pos m) = 53 -> -1074 <= e -> e <= 971 ->
  binary_round_aux Float.prec Float.emax false (Z.pos m) e loc_Exact = S754_finite false m e.
Proof.
  intros Hd Hlo Hhi. unfold binary_round_aux.
  assert (Hs : shr_fexp Float.prec Float.emax (Z.pos m) e loc_Exact
               = (Build_shr_record (Z.pos m) false false, e)).
  { unfold shr_fexp. cbn [Zdigits2]. rewrite Hd, fexp_normal by lia.
    replace (53 + e - 53 - e) with 0 by lia. reflexivity. }
  rewrite Hs. cbn [shr_m loc_of_shr_record round_nearest_even]. rewrite Hs.
  cbn [shr_m].
  assert (Hle : (e <=? Float.emax - Float.prec) = true) by (apply Z.leb_le; unfold Float.emax, Float.prec; lia).
  rewrite Hle. reflexivity.
Qed.

(** [float(n)] is exact for [0 < n < 2^53]. *)
Lemma normalize_small (n : positive) :
  Z.pos n < 2 ^ 53 ->
  exists m e,
    binary_normalize Float.prec Float.emax (Z.pos n) 0 false = S754_finite false m e
    /\ Z.pos (digits2_pos m) = 53
    /\ -52 <= e <= 0
    /\ e = Z.pos (digits2_pos n) - 53
    /\ Z.pos m = Z.pos n * 2 ^ (- e).
Proof.
  intros Hn. cbn [binary_normalize]. unfold binary_round.
  pose proof (digits_bounds n) as [Dlo Dhi].
  set (d := Z.pos (digits2_pos n)) in *.
  assert (Hd : 1 <= d <= 53).
  { split; [subst d; lia |].
    destruct (Z.le_gt_cases d 53) as [H | H]; [exact H | exfalso].
    assert (2 ^ 53 <= 2 ^ (d - 1)) by (apply Z.pow_le_mono_r; lia). lia. }
  replace (d + 0) with d by lia. rewrite fexp_normal by lia.
  destruct (shl_align_spec n 0 (d - 53)) as (H1 & H2 & H3); [lia |].
  destruct (shl_align n 0 (d - 53)) as [mz ez]. cbn [fst snd] in H1, H2, H3.
  fold d in H3. subst ez.
  exists mz, (d - 53). split.
  - apply binary_round_aux_exact; lia.
  - split; [lia |]. split; [lia |]. split; [reflexivity |].
    rewrite H2. f_equal; f_equal; lia.
Qed.

Lemma div_bracket (a d : Z) : 0 < d -> (a / d) * d <= a < (a / d + 1) * d.
Proof.
  intros Hd. pose proof (Z.mul_div_le a d Hd). pose proof (Z.mul_succ_div_gt a d Hd). lia.
Qed.

(** The quotient of two normal numbers, within one unit in the last place. *)
Lemma SFdiv_normal (mb ms : positive) (eb es : Z) :
  Z.pos (digits2_pos mb) = 53 -> Z.pos (digits2_pos ms) = 53 ->
  -200 <= eb - es <= 200 ->
  exists mc ec E1 Q1,
    SFdiv Float.prec Float.emax (S754_finite false mb eb) (S754_finite false ms es)
    = S754_finite false mc ec
    /\ Z.pos (digits2_pos mc) = 53
    /\ E1 <= ec /\ Z.pos mc * 2 ^ (ec - E1) = Q1
    /\ eb - es - 53 <= E1 <= eb - es - 52
    /\ 2 ^ 52 <= Q1 <= 2 ^ 53
    /\ (Q1 - 1) * (Z.pos ms * 2 ^ (E1 - (eb - es - 53))) <= Z.pos mb * 2 ^ 53
    /\ Z.pos mb * 2 ^ 53 < (Q1 + 1) * (Z.pos ms * 2 ^ (E1 - (eb - es - 53))).
Proof.
  intros Hdb Hds Hr.
  pose proof (digits_bounds mb) as Bb. rewrite Hdb in Bb.
  pose proof (digits_bounds ms) as Bs. rewrite Hds in Bs.
  change (2 ^ (53 - 1)) with (2 ^ 52) in *.
  unfold SFdiv, SFdiv_core_binary. cbn [Zdigits2 xorb]. rewrite Hdb, Hds.
  rewrite fexp_normal by lia.
  replace (Z.min (53 + eb - (53 + es) - 53) (eb - es)) with (eb - es - 53) by lia.
  replace (eb - es - (eb - es - 53)) with 53 by lia.
  rewrite Z.shiftl_mul_pow2 by lia.
  set (a := Z.pos mb * 2 ^ 53).
  assert (Hq : Z.div_eucl a (Z.pos ms) = (a / Z.pos ms, a mod Z.pos ms)).
  { unfold Z.div, Z.modulo. destruct (Z.div_eucl a (Z.pos ms)); reflexivity. }
  rewrite Hq.
  assert (Hqlo : 2 ^ 52 <= a / Z.pos ms).
  { apply Z.div_le_lower_bound; [lia |]. subst a.
    change (2 ^ 52) with 4503599627370496 in *. change (2 ^ 53) with 9007199254740992 in *. lia. }
  assert (Hqhi : a / Z.pos ms < 2 ^ 54).
  { apply Z.div_lt_upper_bound; [lia |]. subst a.
    change (2 ^ 52) with 4503599627370496 in *. change (2 ^ 53) with 9007199254740992 in *.
    change (2 ^ 54) with 18014398509481984. lia. }
  destruct (a / Z.pos ms) as [| pq | pq] eqn:Eq;
    [change (2 ^ 52) with 4503599627370496 in Hqlo; lia | | lia].
  set (d := Z.pos (digits2_pos pq)).
  assert (Hd : 53 <= d <= 54).
  { pose proof (digits_bounds pq) as [Dlo Dhi]. fold d in Dlo, Dhi.
    split.
    - destruct (Z.le_gt_cases 53 d) as [H | H]; [exact H | exfalso].
      assert (2 ^ d <= 2 ^ 52) by (apply Z.pow_le_mono_r; lia). lia.
    - destruct (Z.le_gt_cases d 54) as [H | H]; [exact H | exfalso].
      assert (2 ^ 54 <= 2 ^ (d - 1)) by (apply Z.pow_le_mono_r; lia). lia. }
  destruct (binary_round_aux_normal pq (eb - es - 53)
              (new_location (Z.pos ms) (a mod Z.pos ms)))
    as (mc & ec & Hres & Hdc & Hec & Hval); fold d; [lia | lia | lia |].
  fold d in Hec, Hval.
  pose proof (leading_bits pq) as Hlead. cbv zeta in Hlead. fold d in Hlead.
  specialize (Hlead ltac:(lia)).
  exists mc, ec, (eb - es - 53 + (d - 53)), (Z.pos mc * 2 ^ (ec - (eb - es - 53 + (d - 53)))).
  split; [exact Hres |]. split; [exact Hdc |]. split; [exact Hec |].
  split; [reflexivity |]. split; [lia |].
  replace (eb - es - 53 + (d - 53) - (eb - es - 53)) with (d - 53) by lia.
  set (Q1 := Z.pos mc * 2 ^ (ec - (eb - es - 53 + (d - 53)))) in *.
  set (qq := Z.pos pq / 2 ^ (d - 53)) in *.
  assert (Hn : 0 < 2 ^ (d - 53)) by (apply pow2_pos; lia).
  assert (HD : 0 < Z.pos ms * 2 ^ (d - 53)) by lia.
  assert (Hqq : qq = a / (Z.pos ms * 2 ^ (d - 53))).
  { subst qq. rewrite <- Eq. apply Z.div_div; lia. }
  pose proof (div_bracket a (Z.pos ms * 2 ^ (d - 53)) HD) as [Ba Bb'].
  rewrite <- Hqq in Ba, Bb'.
  set (D := Z.pos ms * 2 ^ (d - 53)) in *.
  split; [lia |].
  assert (HQ : Q1 = qq \/ Q1 = qq + 1) by exact Hval.
  split.
  - assert ((Q1 - 1) * D <= qq * D) by (apply Z.mul_le_mono_nonneg_r; lia). lia.
  - assert ((qq + 1) * D <= (Q1 + 1) * D) by (apply Z.mul_le_mono_nonneg_r; lia). lia.
Qed.

(** The product of two normal numbers, within one unit in the last place. *)
Lemma SFmul_normal (mc mo : positive) (ec eo : Z) :
  Z.pos (digits2_pos mc) = 53 -> Z.pos (digits2_pos mo) = 53 ->
  -300 <= ec + eo <= 300 ->
  exists mp ep E2 Q2 n2,
    SFmul Float.prec Float.emax (S754_finite false mc ec) (S754_finite false mo eo)
    = S754_finite false mp ep
    /\ Z.pos (digits2_pos mp) = 53
    /\ E2 <= ep /\ Z.pos mp * 2 ^ (ep - E2) = Q2
    /\ E2 = ec + eo + n2 /\ 52 <= n2 <= 53
    /\ 2 ^ 52 <= Q2 <= 2 ^ 53
    /\ (Q2 - 1) * 2 ^ n2 <= Z.pos mc * Z.pos mo
    /\ Z.pos mc * Z.pos mo < (Q2 + 1) * 2 ^ n2.
Proof.
  intros Hdc Hdo Hr.
  pose proof (digits_bounds mc) as Bc. rewrite Hdc in Bc.
  pose proof (digits_bounds mo) as Bo. rewrite Hdo in Bo.
  change (2 ^ (53 - 1)) with (2 ^ 52) in *.
  unfold SFmul. cbn [xorb].
  set (d := Z.pos (digits2_pos (mc * mo))).
  assert (Hprod : 2 ^ 104 <= Z.pos (mc * mo) < 2 ^ 106).
  { rewrite Pos2Z.inj_mul.
    change (2 ^ 104) with (2 ^ 52 * 2 ^ 52). change (2 ^ 106) with (2 ^ 53 * 2 ^ 53).
    split.
    - apply Z.mul_le_mono_nonneg; lia.
    - apply Z.mul_lt_mono_nonneg; lia. }
  assert (Hd : 105 <= d <= 106).
  { pose proof (digits_bounds (mc * mo)) as [Dlo Dhi]. fold d in Dlo, Dhi.
    split.
    - destruct (Z.le_gt_cases 105 d) as [H | H]; [exact H | exfalso].
      assert (2 ^ d <= 2 ^ 104) by (apply Z.pow_le_mono_r; lia). lia.
    - destruct (Z.le_gt_cases d 106) as [H | H]; [exact H | exfalso].
      assert (2 ^ 106 <= 2 ^ (d - 1)) by (apply Z.pow_le_mono_r; lia). lia. }
  destruct (binary_round_aux_normal (mc * mo) (ec + eo) loc_Exact)
    as (mp & ep & Hres & Hdp & Hep & Hval); fold d; [lia | lia | lia |].
  fold d in Hep, Hval.
  pose proof (leading_bits (mc * mo)) as Hlead. cbv zeta in Hlead. fold d in Hlead.
  specialize (Hlead ltac:(lia)).
  exists mp, ep, (ec + eo + (d - 53)), (Z.pos mp * 2 ^ (ep - (ec + eo + (d - 53)))), (d - 53).
  split; [exact Hres |]. split; [exact Hdp |]. split; [exact Hep |].
  split; [reflexivity |]. split; [reflexivity |]. split; [lia |].
  set (Q2 := Z.pos mp * 2 ^ (ep - (ec + eo + (d - 53)))) in *.
  set (pq := Z.pos (mc * mo) / 2 ^ (d - 53)) in *.
  assert (Hn : 0 < 2 ^ (d - 53)) by (apply pow2_pos; lia).
  pose proof (div_bracket (Z.pos (mc * mo)) (2 ^ (d - 53)) Hn) as [Ba Bb].
  fold pq in Ba, Bb. rewrite Pos2Z.inj_mul in Ba, Bb.
  split; [lia |].
  assert (HQ : Q2 = pq \/ Q2 = pq + 1) by exact Hval.
  set (D := 2 ^ (d - 53)) in *.
  split.
  - assert ((Q2 - 1) * D <= pq * D) by (apply Z.mul_le_mono_nonneg_r; lia). lia.
  - assert ((pq + 1) * D <= (Q2 + 1) * D) by (apply Z.mul_le_mono_nonneg_r; lia). lia.
Qed.

(** The integer core of the error analysis of [scale_to]: [Q1 / K1] is the
    rounded quotient [b / s], [Q2 / K2] the rounded product with [o], [r]
    its floor. *)
Lemma scale_arith (b s o Q1 K1 mc H Q2 N mo Go K2 r : Z) :
  0 < b < s -> 0 < o -> b * o < 2 ^ 50 ->
  0 < K1 -> (Q1 - 1) * s <= b * K1 <= (Q1 + 1) * s ->
  1 <= H -> mc * H = Q1 ->
  2 ^ 52 <= N -> (Q2 - 1) * N <= mc * mo < (Q2 + 1) * N -> 2 ^ 52 <= Q2 ->
  mo = o * Go -> mo < 2 ^ 53 -> 0 < Go ->
  0 < K2 -> K2 * (N * H) = Go * K1 ->
  r * K2 <= Q2 < (r + 1) * K2 ->
  s * r <= b * o <= s * r + s.
Proof.
  intros Hb Ho Hbo HK1 H1 HH Hc HN H2 HQ2 Hmo Hmo53 HGo HK2 HP H4.
  change (2 ^ 50) with 1125899906842624 in *.
  change (2 ^ 52) with 4503599627370496 in *.
  change (2 ^ 53) with 9007199254740992 in *.
  set (NH := N * H) in *.
  assert (HNH : 4503599627370496 <= NH).
  { subst NH. assert (N * 1 <= N * H) by (apply Z.mul_le_mono_nonneg_l; lia). lia. }
  (* X = Q1 * mo is bracketed by Q2 *)
  assert (HX : (Q2 - 1) * NH <= Q1 * mo < (Q2 + 1) * NH).
  { subst NH. rewrite <- Hc.
    replace (mc * H * mo) with (mc * mo * H) by ring.
    replace ((Q2 - 1) * (N * H)) with ((Q2 - 1) * N * H) by ring.
    replace ((Q2 + 1) * (N * H)) with ((Q2 + 1) * N * H) by ring.
    split.
    - apply Z.mul_le_mono_nonneg_r; lia.
    - apply Z.mul_lt_mono_pos_r; lia. }
  (* b o K1 Go is bracketed by s X *)
  assert (HY : s * (Q1 * mo) - s * mo <= b * o * (Go * K1) <= s * (Q1 * mo) + s * mo).
  { rewrite Hmo.
    replace (b * o * (Go * K1)) with (b * K1 * (o * Go)) by ring.
    replace (s * (Q1 * (o * Go)) - s * (o * Go)) with ((Q1 - 1) * s * (o * Go)) by ring.
    replace (s * (Q1 * (o * Go)) + s * (o * Go)) with ((Q1 + 1) * s * (o * Go)) by ring.
    assert (0 <= o * Go) by (apply Z.mul_nonneg_nonneg; lia).
    split; apply Z.mul_le_mono_nonneg_r; lia. }
  rewrite <- HP in HY.
  (* divide by NH *)
  assert (H5 : s * (Q2 - 3) < b * o * K2 < s * (Q2 + 3)).
  { assert (Hmo2 : mo < 2 * NH) by lia.
    assert (Hup : b * o * K2 * NH < s * (Q2 + 3) * NH).
    { replace (b * o * K2 * NH) with (b * o * (K2 * NH)) by ring.
      assert (s * (Q1 * mo) < s * ((Q2 + 1) * NH)) by (apply Z.mul_lt_mono_pos_l; lia).
      assert (s * mo < s * (2 * NH)) by (apply Z.mul_lt_mono_pos_l; lia).
      replace (s * (Q2 + 3) * NH) with (s * ((Q2 + 1) * NH) + s * (2 * NH)) by ring.
      lia. }
    assert (Hdn : s * (Q2 - 3) * NH < b * o * K2 * NH).
    { replace (b * o * K2 * NH) with (b * o * (K2 * NH)) by ring.
      assert (s * ((Q2 - 1) * NH) <= s * (Q1 * mo)) by (apply Z.mul_le_mono_nonneg_l; lia).
      assert (s * mo < s * (2 * NH)) by (apply Z.mul_lt_mono_pos_l; lia).
      replace (s * (Q2 - 3) * NH) with (s * ((Q2 - 1) * NH) - s * (2 * NH)) by ring.
      lia. }
    split.
    - apply (Z.mul_lt_mono_pos_r NH); lia.
    - apply (Z.mul_lt_mono_pos_r NH); lia. }
  (* K2 is large *)
  assert (HK : 3 * s < K2).
  { assert (b * o * K2 <= 1125899906842623 * K2) by (apply Z.mul_le_mono_nonneg_r; lia).
    assert (s * (4503599627370496 - 3) <= s * (Q2 - 3)) by (apply Z.mul_le_mono_nonneg_l; lia).
    lia. }
  destruct H4 as [H4a H4b].
  split.
  - destruct (Z.le_gt_cases (s * r) (b * o)) as [Hle | Hgt]; [exact Hle | exfalso].
    assert (b * o + 1 <= s * r) by lia.
    assert ((b * o + 1) * K2 <= s * r * K2) by (apply Z.mul_le_mono_nonneg_r; lia).
    assert (s * (r * K2) <= s * Q2) by (apply Z.mul_le_mono_nonneg_l; lia).
    lia.
  - destruct (Z.le_gt_cases (b * o) (s * r + s)) as [Hle | Hgt]; [exact Hle | exfalso].
    assert (s * r + s + 1 <= b * o) by lia.
    assert ((s * r + s + 1) * K2 <= b * o * K2) by (apply Z.mul_le_mono_nonneg_r; lia).
    assert (s * Q2 < s * ((r + 1) * K2)) by (apply Z.mul_lt_mono_pos_l; lia).
    lia.
Qed.

Lemma floor_normal (mp : positive) (ep E2 Q2 : Z) :
  E2 <= ep -> E2 < 0 -> Z.pos mp * 2 ^ (ep - E2) = Q2 ->
  Float.floor (S754_finite false mp ep) = Ok (Q2 / 2 ^ (- E2)).
Proof.
  intros Hle Hneg HQ. unfold Float.floor. f_equal. subst Q2.
  destruct (Z.leb_spec 0 ep) as [Hep | Hep].
  - replace (ep - E2) with (ep + - E2) by lia.
    rewrite Z.pow_add_r by lia. rewrite Z.mul_assoc.
    rewrite Z.div_mul; [reflexivity |]. pose proof (pow2_pos (- E2)). lia.
  - replace (- E2) with (- ep + (ep - E2)) by lia.
    rewrite Z.pow_add_r by lia.
    rewrite Z.div_mul_cancel_r; [reflexivity | |];
      [pose proof (pow2_pos (- ep)) | pose proof (pow2_pos (ep - E2))]; lia.
Qed.

Lemma of_int_zero : Float.of_int 0 = Ok (S754_zero false).
Proof. reflexivity. Qed.

Lemma of_int_small (n : positive) :
  Z.pos n < 2 ^ 53 ->
  exists m e,
    Float.of_int (Z.pos n) = Ok (S754_finite false m e)
    /\ Z.pos (digits2_pos m) = 53
    /\ -52 <= e <= 0
    /\ e = Z.pos (digits2_pos n) - 53
    /\ Z.pos m = Z.pos n * 2 ^ (- e).
Proof.
  intros Hn. destruct (normalize_small n Hn) as (m & e & Hnorm & Hrest).
  exists m, e. split; [| exact Hrest].
  unfold Float.of_int. rewrite Hnorm. reflexivity.
Qed.

Lemma digits_below (n : positive) (k : Z) :
  0 <= k -> Z.pos n < 2 ^ k -> Z.pos (digits2_pos n) <= k.
Proof.
  intros Hk Hn. pose proof (digits_bounds n) as [Dlo _].
  destruct (Z.le_gt_cases (Z.pos (digits2_pos n)) k) as [H | H]; [exact H | exfalso].
  assert (2 ^ k <= 2 ^ (Z.pos (digits2_pos n) - 1)) by (apply Z.pow_le_mono_r; lia).
  lia.
Qed.

Lemma digits_monotone (m n : positive) :
  Z.pos m <= Z.pos n -> Z.pos (digits2_pos m) <= Z.pos (digits2_pos n).
Proof.
  intros Hmn. pose proof (digits_bounds n) as [_ Dhi].
  apply digits_below; lia.
Qed.

(** [floor(bound / float(side) * other)] is the exact quotient
    [bound * other / side] rounded down, or one less when that quotient
    is an integer. *)
Lemma scale_to_spec (bound side other : Z) :
  0 <= bound < side -> side < 2 ^ 53 -> 0 <= other < 2 ^ 53 ->
  bound * other < 2 ^ 50 ->
  exists r,
    scale_to bound side other = Ok r
    /\ 0 <= r
    /\ side * r <= bound * other <= side * r + side.
Proof.
  intros Hb Hs Ho Hbo. unfold scale_to.
  destruct side as [| ps | ps]; [lia | | lia].
  destruct (of_int_small ps ltac:(lia)) as (ms & es & Hfs & Hds & Hes & Hes' & Hms).
  rewrite Hfs. cbn [bind_result].
  destruct bound as [| pb | pb]; [| | lia].
  - (* a bound of zero *)
    rewrite of_int_zero. cbn [bind_result Float.div Float.is_zero SFdiv xorb].
    destruct other as [| po | po]; [| | lia].
    + rewrite of_int_zero. cbn. exists 0. split; [reflexivity | lia].
    + destruct (of_int_small po ltac:(lia)) as (mo & eo & Hfo & _).
      rewrite Hfo. cbn. exists 0. split; [reflexivity | lia].
  - destruct (of_int_small pb ltac:(lia)) as (mb & eb & Hfb & Hdb & Heb & Heb' & Hmb).
    rewrite Hfb. cbn [bind_result Float.div Float.is_zero].
    assert (Hdig : Z.pos (digits2_pos pb) <= Z.pos (digits2_pos ps))
      by (apply digits_monotone; lia).
    destruct (SFdiv_normal mb ms eb es Hdb Hds ltac:(lia))
      as (mc & ec & E1 & Q1 & Hdiv & Hdc & HecE1 & HQ1 & HE1 & HQ1r & Hlo1 & Hhi1).
    rewrite Hdiv.
    destruct other as [| po | po]; [| | lia].
    + rewrite of_int_zero. cbn. exists 0. split; [reflexivity | lia].
    + destruct (of_int_small po ltac:(lia)) as (mo & eo & Hfo & Hdo & Heo & Heo' & Hmo).
      rewrite Hfo. cbn [bind_result]. unfold Float.mul.
      assert (Hdbo : Z.pos (digits2_pos pb) + Z.pos (digits2_pos po) <= 51).
      { pose proof (digits_bounds pb) as [Lb _]. pose proof (digits_bounds po) as [Lo _].
        pose proof (Pos2Z.is_pos (digits2_pos pb)). pose proof (Pos2Z.is_pos (digits2_pos po)).
        assert (Hp : 2 ^ (Z.pos (digits2_pos pb) - 1) * 2 ^ (Z.pos (digits2_pos po) - 1)
                     <= Z.pos pb * Z.pos po)
          by (apply Z.mul_le_mono_nonneg; try assumption; apply Z.pow_nonneg; lia).
        rewrite <- Z.pow_add_r in Hp by lia.
        assert (Hlt : 2 ^ (Z.pos (digits2_pos pb) - 1 + (Z.pos (digits2_pos po) - 1)) < 2 ^ 50)
          by lia.
        apply Z.pow_lt_mono_r_iff in Hlt; lia. }
      pose proof (Pos2Z.is_pos (digits2_pos ps)) as Hdspos.
      pose proof (digits_bounds mc) as Bc. rewrite Hdc in Bc.
      change (2 ^ (53 - 1)) with (2 ^ 52) in Bc.
      assert (HH1 : 0 < 2 ^ (ec - E1)) by (apply pow2_pos; lia).
      assert (Hec1 : ec <= E1 + 1).
      { destruct (Z.le_gt_cases ec (E1 + 1)) as [H | H]; [exact H | exfalso].
        assert (2 ^ 2 <= 2 ^ (ec - E1)) by (apply Z.pow_le_mono_r; lia).
        change (2 ^ 2) with 4 in *.
        assert (2 ^ 52 * 4 <= Z.pos mc * 2 ^ (ec - E1)) by (apply Z.mul_le_mono_nonneg; lia).
        change (2 ^ 52) with 4503599627370496 in *.
        change (2 ^ 53) with 9007199254740992 in *. lia. }
      destruct (SFmul_normal mc mo ec eo Hdc Hdo ltac:(lia))
        as (mp & ep & E2 & Q2 & n2 & Hmul & Hdp & HepE2 & HQ2 & HE2 & Hn2 & HQ2r & Hlo2 & Hhi2).
      rewrite Hmul.
      rewrite (floor_normal mp ep E2 Q2 HepE2 ltac:(lia) HQ2).
      exists (Q2 / 2 ^ (- E2)).
      split; [reflexivity |].
      assert (HK2 : 0 < 2 ^ (- E2)) by (apply pow2_pos; lia).
      split; [apply Z.div_pos; [change (2 ^ 52) with 4503599627370496 in HQ2r |]; lia |].
      pose proof (digits_bounds mo) as Bo. rewrite Hdo in Bo.
      assert (HK1 : 0 < 2 ^ (- E1)) by (apply pow2_pos; lia).
      assert (Hquot : (Q1 - 1) * Z.pos ps <= Z.pos pb * 2 ^ (- E1) <= (Q1 + 1) * Z.pos ps).
      { set (W := 2 ^ (E1 - (eb - es - 53) - es)).
        assert (HW : 0 < W) by (apply pow2_pos; lia).
        assert (E53 : 2 ^ (- eb) * 2 ^ 53 = 2 ^ (- E1) * W).
        { subst W. rewrite <- !Z.pow_add_r by lia. f_equal; lia. }
        assert (Es : 2 ^ (- es) * 2 ^ (E1 - (eb - es - 53)) = W).
        { subst W. rewrite <- !Z.pow_add_r by lia. f_equal; lia. }
        rewrite Hms, Hmb in Hlo1, Hhi1.
        replace (Z.pos ps * 2 ^ (- es) * 2 ^ (E1 - (eb - es - 53)))
          with (Z.pos ps * W) in Hlo1, Hhi1
          by (rewrite <- !Z.mul_assoc, Es; reflexivity).
        replace (Z.pos pb * 2 ^ (- eb) * 2 ^ 53)
          with (Z.pos pb * 2 ^ (- E1) * W) in Hlo1, Hhi1
          by (rewrite <- !Z.mul_assoc, E53; reflexivity).
        split.
        - apply (Z.mul_le_mono_pos_r _ _ W HW). lia.
        - apply Z.lt_le_incl. apply (Z.mul_lt_mono_pos_r W _ _ HW). lia. }
      assert (HN : 2 ^ 52 <= 2 ^ n2) by (apply Z.pow_le_mono_r; lia).
      assert (HGo : 0 < 2 ^ (- eo)) by (apply pow2_pos; lia).
      assert (Hpow : 2 ^ (- E2) * (2 ^ n2 * 2 ^ (ec - E1)) = 2 ^ (- eo) * 2 ^ (- E1)).
      { rewrite <- !Z.pow_add_r by lia. f_equal; lia. }
      exact (scale_arith (Z.pos pb) (Z.pos ps) (Z.pos po) Q1 (2 ^ (- E1)) (Z.pos mc)
               (2 ^ (ec - E1)) Q2 (2 ^ n2) (Z.pos mo) (2 ^ (- eo)) (2 ^ (- E2))
               (Q2 / 2 ^ (- E2))
               ltac:(lia) ltac:(lia) Hbo HK1 Hquot ltac:(lia) HQ1 HN
               (conj Hlo2 Hhi2) (proj1 HQ2r) Hmo (proj2 Bo) HGo HK2 Hpow
               (div_bracket Q2 (2 ^ (- E2)) HK2)).
Qed.

(** ** Layout *)

Lemma fit_image_within (w h W H : Z) :
  w <= W -> h <= H -> fit_image w h W H = Ok (w, h).
Proof.
  intros Hw Hh. unfold fit_image.
  assert (E1 : (H <? h) = false) by (apply Z.ltb_ge; lia).
  assert (E2 : (W <? w) = false) by (apply Z.ltb_ge; lia).
  rewrite E1. cbn. rewrite E2. cbn. rewrite E1. reflexivity.
Qed.

(** C6, as the code has it: a bound at least [max w h] on both sides
    leaves the size unchanged. Zero bounds are bounds like any other. *)
Theorem fit_image_noop (w h W H : Z) :
  Z.max w h <= W -> Z.max w h <= H -> fit_image w h W H = Ok (w, h).
Proof.
  intros Hw Hh. apply fit_image_within; lia.
Qed.

(** The no-op fit of 100 x 100 into 800 x 400. *)
Lemma fit_image_noop_witness :
  Z.max 100 100 <= 800 /\ Z.max 100 100 <= 400
  /\ fit_image 100 100 800 400 = Ok (100, 100).
Proof.
  assert (H1 : Z.max 100 100 <= 800) by (vm_compute; discriminate).
  assert (H2 : Z.max 100 100 <= 400) by (vm_compute; discriminate).
  split; [exact H1 | split; [exact H2 | exact (fit_image_noop 100 100 800 400 H1 H2)]].
Defined.

(** C6, as stated, fails: [fit(7, 5, 0, 0)] is [(0, 0)], not [(7, 5)]. *)
Lemma fit_image_zero_bounds_shrink :
  fit_image 7 5 0 0 = Ok (0, 0) /\ fit_image 7 5 0 0 <> Ok (7, 5).
Proof.
  split; [vm_compute; reflexivity | vm_compute; discriminate].
Qed.


Lemma quotient_le (a x y : Z) : 0 < a -> a * x <= a * y -> x <= y.
Proof. intros Ha H. apply (Z.mul_le_mono_pos_l x y a Ha). exact H. Qed.

(** Both corrections at once: the width is cut to [W] after the height
    was cut to [H]. *)
Lemma two_corrections_keep_aspect (w h W H w1 h2 : Z) :
  0 <= w -> 0 < h -> 0 <= W < w1 -> 0 <= H -> 0 <= h2 ->
  h * w1 <= H * w <= h * w1 + h ->
  w1 * h2 <= W * H <= w1 * h2 + w1 ->
  Z.abs (W * h - h2 * w) <= Z.max w h.
Proof.
  intros Hw Hh HW HH Hh2 [A1 A2] [B1 B2].
  assert (HHpos : 0 < H).
  { destruct (Z.eq_dec H 0) as [-> |]; [| lia].
    assert (h * w1 <= 0) by lia.
    assert (0 < h * w1) by (apply Z.mul_pos_pos; lia). lia. }
  assert (Hh2H : h2 <= H).
  { apply (quotient_le w1); [lia |].
    assert (W * H <= w1 * H) by (apply Z.mul_le_mono_nonneg_r; lia). lia. }
  (* W h <= (h2 + 1) w *)
  assert (U : W * h <= (h2 + 1) * w).
  { apply (quotient_le H); [exact HHpos |].
    assert (W * H * h <= (w1 * h2 + w1) * h) by (apply Z.mul_le_mono_nonneg_r; lia).
    assert ((h2 + 1) * (h * w1) <= (h2 + 1) * (H * w)) by (apply Z.mul_le_mono_nonneg_l; lia).
    replace (H * (W * h)) with (W * H * h) by ring.
    replace (H * ((h2 + 1) * w)) with ((h2 + 1) * (H * w)) by ring.
    replace ((w1 * h2 + w1) * h) with ((h2 + 1) * (h * w1)) in * by ring. lia. }
  (* h2 w <= (W + 1) h *)
  assert (L : h2 * w <= (W + 1) * h).
  { apply (quotient_le H); [exact HHpos |].
    assert (h2 * (H * w) <= h2 * (h * w1 + h)) by (apply Z.mul_le_mono_nonneg_l; lia).
    assert (h * (w1 * h2) <= h * (W * H)) by (apply Z.mul_le_mono_nonneg_l; lia).
    assert (h * h2 <= h * H) by (apply Z.mul_le_mono_nonneg_l; lia).
    replace (H * (h2 * w)) with (h2 * (H * w)) by ring.
    replace (H * ((W + 1) * h)) with (h * (W * H) + h * H) by ring.
    replace (h2 * (h * w1 + h)) with (h * (w1 * h2) + h * h2) in * by ring. lia. }
  lia.
Qed.

(** C7, as the code has it: for native sizes of fewer than [2^50] pixels
    (each side below [2^53]) and bounds that are not negative, the result
    fits the bounds, and its aspect ratio is
    the native one up to one pixel in one dimension,
    [|w' * h - h' * w| <= max w h]: for a portrait image [w'] is within a
    pixel of [h' * w / h], for a landscape image [h'] is within a pixel of
    [w' * h / w]. *)
Theorem fit_image_fits (w h W H : Z) :
  0 <= w < 2 ^ 53 -> 0 <= h < 2 ^ 53 -> w * h < 2 ^ 50 -> 0 <= W -> 0 <= H ->
  exists w' h',
    fit_image w h W H = Ok (w', h')
    /\ 0 <= w' <= W /\ 0 <= h' <= H
    /\ Z.abs (w' * h - h' * w) <= Z.max w h.
Proof.
  intros Hw Hh Hwh HW HH. unfold fit_image.
  destruct (Z.ltb_spec H h) as [C1 | C1].
  - assert (HHw : H * w <= w * h).
    { rewrite (Z.mul_comm w h). apply Z.mul_le_mono_nonneg_r; lia. }
    destruct (scale_to_spec H h w ltac:(lia) ltac:(lia) Hw ltac:(lia))
      as (w1 & E1 & P1 & A1 & A2).
    rewrite E1. cbn [bind_result].
    assert (Hw1 : w1 <= w).
    { apply (quotient_le h); [lia |].
      assert (H * w <= h * w) by (apply Z.mul_le_mono_nonneg_r; lia). lia. }
    destruct (Z.ltb_spec W w1) as [C2 | C2].
    + assert (HWH : W * H <= w * h).
      { apply Z.mul_le_mono_nonneg; lia. }
      destruct (scale_to_spec W w1 H ltac:(lia) ltac:(lia) ltac:(lia) ltac:(lia))
        as (h2 & E2 & P2 & B1 & B2).
      rewrite E2. cbn [bind_result].
      assert (Hh2 : h2 <= H).
      { apply (quotient_le w1); [lia |].
        assert (W * H <= w1 * H) by (apply Z.mul_le_mono_nonneg_r; lia). lia. }
      rewrite (proj2 (Z.ltb_ge H h2) Hh2). cbn [bind_result].
      exists W, h2. split; [reflexivity |]. split; [lia |]. split; [lia |].
      apply (two_corrections_keep_aspect w h W H w1 h2); lia.
    + cbn [bind_result]. rewrite Z.ltb_irrefl. cbn [bind_result].
      exists w1, H. split; [reflexivity |]. split; [lia |]. split; [lia |].
      replace (H * w) with (H * w) in * by reflexivity. lia.
  - cbn [bind_result].
    destruct (Z.ltb_spec W w) as [C2 | C2].
    + assert (HWh : W * h <= w * h) by (apply Z.mul_le_mono_nonneg_r; lia).
      destruct (scale_to_spec W w h ltac:(lia) ltac:(lia) Hh ltac:(lia))
        as (h2 & E2 & P2 & B1 & B2).
      rewrite E2. cbn [bind_result].
      assert (Hh2 : h2 <= h).
      { apply (quotient_le w); [lia |].
        assert (W * h <= w * h) by (apply Z.mul_le_mono_nonneg_r; lia). lia. }
      rewrite (proj2 (Z.ltb_ge H h2) ltac:(lia)). cbn [bind_result].
      exists W, h2. split; [reflexivity |]. split; [lia |]. split; [lia |].
      replace (h2 * w) with (w * h2) by ring. lia.
    + cbn [bind_result]. rewrite (proj2 (Z.ltb_ge H h) C1). cbn [bind_result].
      exists w, h. split; [reflexivity |]. split; [lia |]. split; [lia |].
      replace (w * h - h * w) with 0 by ring. lia.
Qed.

(** 4000 x 2000 into 800 x 400. *)
Lemma fit_image_fits_witness :
  exists w' h',
    fit_image 4000 2000 800 400 = Ok (w', h')
    /\ 0 <= w' <= 800 /\ 0 <= h' <= 400
    /\ Z.abs (w' * 2000 - h' * 4000) <= Z.max 4000 2000.
Proof.
  apply (fit_image_fits 4000 2000 800 400); lia.
Defined.

(** C7, as stated, fails: beyond [2^53] the conversions to [float] round,
    and [fit] returns a width above the bound. And the tolerance of one
    pixel is in one dimension only: 10 x 1000 into 5 x 999 gives 5 x 555,
    whose width is within a pixel of the native ratio (5.55) and whose
    height is 55 pixels off it (500). *)
Lemma fit_image_exceeds_bound :
  (fit_image 9007199254740996 9007199254740995 9007199254740995 9007199254740995
     = Ok (9007199254740996, 9007199254740995)
   /\ ~ (9007199254740996 <= 9007199254740995))
  /\ (fit_image 10 1000 5 999 = Ok (5, 555)
      /\ Z.abs (5 * 1000 - 555 * 10) <= 1000
      /\ ~ (Z.abs (555 * 10 - 5 * 1000) <= 10)).
Proof.
  split; (split; [vm_compute; reflexivity | lia]).
Qed.

(** C2: on the terminal of 50 rows and 100 columns, 1000 x 800 pixels, an
    image of 2000 x 1000 pixels needs 200 columns. The re-fit gives
    1000 x 500, which needs 32 rows and leaves an offset of 4; the command
    receives the rows and the offset of the height before the re-fit,
    63 and 8. *)
Theorem set_cursor_ignores_refit :
  let w := Run.terminal Run.geometry None [] [] in
  fst (set_cursor [] 2000 1000 w)
    = Ret [("c", PInt 100); ("r", PInt 63); ("Y", PInt 8)]%string
  /\ stdout (snd (set_cursor [] 2000 1000 w)) = []
  /\ fit_image 2000 1000 1000 1000 = Ok (1000, 500)
  /\ bind_result (Float.int_truediv 500 16) Float.ceil = Ok 32
  /\ 500 mod 16 = 4
  /\ bind_result (Float.int_truediv 1000 16) Float.ceil = Ok 63
  /\ 1000 mod 16 = 8.
Proof.
  vm_compute. repeat split; reflexivity.
Qed.

(** ** base64 *)

Lemma byte_to_Z_range (x : byte) : 0 <= byte_to_Z x < 256.
Proof.
  unfold byte_to_Z. pose proof (Byte.to_N_bounded x). lia.
Qed.

Lemma byte_of_to_Z (x : byte) : byte_of_Z (byte_to_Z x) = x.
Proof.
  unfold byte_of_Z, byte_to_Z. rewrite N2Z.id, Byte.of_to_N. reflexivity.
Qed.

Lemma sextet_table :
  forallb
    (fun i =>
       match Base64.dec6 (Base64.enc6 (Z.of_nat i)) with
       | Some n => (n =? Z.of_nat i) && negb (Byte.eqb (Base64.enc6 (Z.of_nat i)) Base64.pad)
       | None => false
       end)
    (seq 0 64) = true.
Proof. vm_compute. reflexivity. Qed.

Lemma dec6_enc6 (n : Z) :
  0 <= n < 64 ->
  Base64.dec6 (Base64.enc6 n) = Some n
  /\ Byte.eqb (Base64.enc6 n) Base64.pad = false.
Proof.
  intros Hn.
  pose proof (proj1 (forallb_forall _ _) sextet_table (Z.to_nat n)) as H.
  cbv beta in H. rewrite Z2Nat.id in H by lia.
  assert (Hin : In (Z.to_nat n) (seq 0 64)) by (apply in_seq; lia).
  specialize (H Hin).
  destruct (Base64.dec6 (Base64.enc6 n)) as [m |]; [| discriminate].
  apply andb_prop in H as [H1 H2].
  apply Z.eqb_eq in H1. apply negb_true_iff in H2. subst m. split; [reflexivity | exact H2].
Qed.

(** Lists taken three elements at a time. *)
Lemma list_ind3 {A} (P : list A -> Prop) :
  P [] ->
  (forall x, P [x]) ->
  (forall x y, P [x; y]) ->
  (forall x y z l, P l -> P (x :: y :: z :: l)) ->
  forall l, P l.
Proof.
  intros H0 H1 H2 H3.
  assert (Hall : forall l, P l /\ (forall x, P (x :: l)) /\ (forall x y, P (x :: y :: l))).
  { induction l as [| a l [IH0 [IH1 IH2]]].
    - split; [exact H0 | split; [exact H1 | exact H2]].
    - split; [apply IH1 | split; [intros x; apply IH2 | intros x y; apply H3; exact IH0]]. }
  intros l. apply (Hall l).
Qed.

Lemma group3_first (x y z : Z) :
  0 <= x < 256 -> 0 <= y < 256 -> 0 <= z < 256 ->
  let n := x * 65536 + y * 256 + z in
  Base64.sextets (n / 262144) (n / 4096 mod 64) (n / 64 mod 64) (n mod 64) = n
  /\ 0 <= n / 262144 < 64
  /\ n / 65536 = x /\ n / 256 mod 256 = y /\ n mod 256 = z.
Proof.
  intros Hx Hy Hz n. unfold Base64.sextets. subst n.
  repeat split; Z.div_mod_to_equations; lia.
Qed.

Lemma mod64_range (n : Z) : 0 <= n mod 64 < 64.
Proof. apply Z.mod_pos_bound. lia. Qed.

(** Decoding undoes encoding. *)
Lemma base64_decode_encode (l : bytes) :
  Base64.decode (Base64.encode l) = Some l.
Proof.
  induction l as [| x | x y | x y z l IH] using list_ind3.
  - reflexivity.
  - pose proof (byte_to_Z_range x) as Hx.
    destruct (group3_first (byte_to_Z x) 0 0 Hx ltac:(lia) ltac:(lia))
      as (Hs & H0 & Hb0 & _ & _).
    cbv zeta in *. rewrite !Z.add_0_r in *.
    cbn [Base64.encode Base64.decode].
    destruct (dec6_enc6 _ H0) as [-> _].
    destruct (dec6_enc6 _ (mod64_range (byte_to_Z x * 65536 / 4096))) as [-> _].
    replace (Byte.eqb Base64.pad Base64.pad) with true by reflexivity.
    assert (Hz : Base64.sextets (byte_to_Z x * 65536 / 262144)
                   (byte_to_Z x * 65536 / 4096 mod 64) 0 0 = byte_to_Z x * 65536).
    { unfold Base64.sextets. Z.div_mod_to_equations. lia. }
    rewrite Hz, Hb0, byte_of_to_Z. reflexivity.
  - pose proof (byte_to_Z_range x) as Hx. pose proof (byte_to_Z_range y) as Hy.
    destruct (group3_first (byte_to_Z x) (byte_to_Z y) 0 Hx Hy ltac:(lia))
      as (Hs & H0 & Hb0 & Hb1 & _).
    cbv zeta in *. rewrite !Z.add_0_r in *.
    cbn [Base64.encode Base64.decode].
    set (n := byte_to_Z x * 65536 + byte_to_Z y * 256) in *.
    destruct (dec6_enc6 _ H0) as [-> _].
    destruct (dec6_enc6 _ (mod64_range (n / 4096))) as [-> _].
    destruct (dec6_enc6 _ (mod64_range (n / 64))) as [-> ->].
    replace (Byte.eqb Base64.pad Base64.pad) with true by reflexivity.
    assert (Hz : Base64.sextets (n / 262144) (n / 4096 mod 64) (n / 64 mod 64) 0 = n).
    { unfold Base64.sextets. subst n. Z.div_mod_to_equations. lia. }
    rewrite Hz, Hb0, Hb1, !byte_of_to_Z. reflexivity.
  - pose proof (byte_to_Z_range x) as Hx. pose proof (byte_to_Z_range y) as Hy.
    pose proof (byte_to_Z_range z) as Hz.
    destruct (group3_first (byte_to_Z x) (byte_to_Z y) (byte_to_Z z) Hx Hy Hz)
      as (Hs & H0 & Hb0 & Hb1 & Hb2).
    cbv zeta in *.
    cbn [Base64.encode Base64.decode].
    set (n := byte_to_Z x * 65536 + byte_to_Z y * 256 + byte_to_Z z) in *.
    destruct (dec6_enc6 _ H0) as [-> _].
    destruct (dec6_enc6 _ (mod64_range (n / 4096))) as [-> _].
    destruct (dec6_enc6 _ (mod64_range (n / 64))) as [-> _].
    destruct (dec6_enc6 _ (mod64_range n)) as [-> ->].
    rewrite IH, Hs, Hb0, Hb1, Hb2, !byte_of_to_Z. reflexivity.
Qed.

Lemma base64_encode_nonempty (l : bytes) :
  l <> [] -> Base64.encode l <> [].
Proof.
  destruct l as [| x [| y [| z l]]]; [congruence | | |]; intros _; discriminate.
Qed.

(** ** Transport *)

Lemma is_ascii_append (s t : string) :
  is_ascii (String.append s t) = is_ascii s && is_ascii t.
Proof.
  induction s as [| c s IH]; [reflexivity |].
  change (String.append (String c s) t) with (String c (String.append s t)).
  cbn [is_ascii]. rewrite IH. apply andb_assoc.
Qed.

Lemma is_ascii_string_of_uint (d : Decimal.uint) :
  is_ascii (NilEmpty.string_of_uint d) = true.
Proof.
  induction d; cbn; try reflexivity; exact IHd.
Qed.

Lemma is_ascii_str_of_Z (n : Z) : is_ascii (str_of_Z n) = true.
Proof.
  unfold str_of_Z, NilZero.string_of_int, NilZero.string_of_uint.
  destruct (Z.to_int n) as [d | d]; destruct d; cbn; try reflexivity;
    apply is_ascii_string_of_uint.
Qed.

Lemma is_ascii_format_val (v : pyval) :
  is_ascii (format_val v) = match v with PInt _ => true | PStr s => is_ascii s end.
Proof.
  destruct v; cbn; [apply is_ascii_str_of_Z | reflexivity].
Qed.

Lemma is_ascii_join_comma (parts : list string) :
  forallb is_ascii parts = true -> is_ascii (join "," parts) = true.
Proof.
  induction parts as [| p parts IH]; cbn [join forallb]; [reflexivity |].
  intros H. apply andb_prop in H as [Hp Hrest].
  destruct parts as [| q parts]; [exact Hp |].
  rewrite !is_ascii_append, Hp, (IH Hrest). reflexivity.
Qed.

Lemma wire_ascii_encodes (cmd : dict) :
  wire_ascii cmd = true ->
  encode_ascii (join "," (map format_item cmd))
    = Ok (list_byte_of_string (join "," (map format_item cmd))).
Proof.
  intros H. unfold encode_ascii. rewrite is_ascii_join_comma; [reflexivity |].
  unfold wire_ascii in H. clear -H.
  induction cmd as [| kv cmd IH]; [reflexivity |].
  cbn [map forallb] in *. apply andb_prop in H as [H1 H2].
  rewrite H1, (IH H2). reflexivity.
Qed.

Lemma wire_ascii_dict_set (k : string) (v : pyval) (cmd : dict) :
  is_ascii (format_item (k, v)) = true ->
  wire_ascii cmd = true ->
  wire_ascii (dict_set k v cmd) = true.
Proof.
  intros Hkv. unfold wire_ascii.
  induction cmd as [| [k' v'] cmd IH]; cbn [dict_set forallb]; intros H.
  - rewrite Hkv. reflexivity.
  - apply andb_prop in H as [H1 H2].
    destruct (String.eqb k k'); cbn [forallb].
    + rewrite Hkv, H2. reflexivity.
    + rewrite H1, (IH H2). reflexivity.
Qed.

Lemma dict_get_set_eq (k : string) (v : pyval) (cmd : dict) :
  dict_get k (dict_set k v cmd) = Some v.
Proof.
  induction cmd as [| [k' v'] cmd IH]; cbn.
  - rewrite String.eqb_refl. reflexivity.
  - destruct (String.eqb k k') eqn:Hk; cbn.
    + rewrite String.eqb_refl. reflexivity.
    + rewrite Hk. exact IH.
Qed.

Lemma dict_get_set_ne (k k' : string) (v : pyval) (cmd : dict) :
  String.eqb k k' = false ->
  dict_get k (dict_set k' v cmd) = dict_get k cmd.
Proof.
  intros Hne. induction cmd as [| [k0 v0] cmd IH]; cbn.
  - rewrite Hne. reflexivity.
  - destruct (String.eqb k' k0) eqn:Hk; cbn.
    + apply String.eqb_eq in Hk. subst k0. rewrite Hne. reflexivity.
    + rewrite IH. reflexivity.
Qed.

(** What a frame is on the wire. *)
Lemma stdout_write_ok (bs : bytes) (w : world) :
  stdout_credit w = None ->
  stdout_write bs w = (Ret tt, set_stdout (stdout w ++ bs) None w).
Proof.
  intros H. unfold stdout_write. rewrite H. reflexivity.
Qed.

Lemma stdout_flush_ok (w : world) :
  stdout_credit w = None ->
  stdout_flush w = (Ret tt, set_stdout (stdout w ++ []) None w).
Proof. apply stdout_write_ok. Qed.

Lemma write_gr_cmd_ok (cmd : dict) (payload : bytes) (w : world) :
  stdout_credit w = None ->
  wire_ascii cmd = true ->
  exists out,
    write_gr_cmd cmd payload w
    = (Ret tt,
       set_frames (frames w ++ [(cmd, payload)])
         (set_stdout (stdout w ++ out) None w)).
Proof.
  intros Hc Ha. unfold write_gr_cmd.
  rewrite (wire_ascii_encodes cmd Ha).
  set (enc := list_byte_of_string _).
  exists ([ESC; "_"%byte; "G"%byte] ++ enc ++ [";"%byte] ++ payload ++ [ESC; "\"%byte]).
  destruct w; cbn in Hc; subst.
  unfold bind, stdout_flush, stdout_write, lift, ret, log_frame, modify,
    set_frames, set_stdout.
  cbn. rewrite app_nil_r, <- !app_assoc. reflexivity.
Qed.

Lemma nonempty_false {A} (l : list A) : nonempty l = false <-> l = [].
Proof. destruct l; cbn; split; congruence. Qed.

Lemma nonempty_true {A} (l : list A) : nonempty l = true <-> l <> [].
Proof. destruct l; cbn; split; congruence. Qed.

Lemma chunk_size_pos : (0 < chunk_size)%nat.
Proof. unfold chunk_size. apply Nat.lt_0_succ. Qed.

Lemma write_chunks_ok (fuel : nat) :
  forall (cmd : dict) (data : bytes) (w : world),
    (length data <= fuel)%nat ->
    stdout_credit w = None ->
    wire_ascii cmd = true ->
    exists out,
      write_chunks fuel cmd data w
      = (Ret (if nonempty data then [] else cmd),
         set_frames (frames w ++ chunk_frames fuel cmd data)
           (set_stdout (stdout w ++ out) None w)).
Proof.
  induction fuel as [| fuel IH]; intros cmd data w Hlen Hc Ha.
  - destruct data; [| cbn in Hlen; lia]. exists []. cbn.
    destruct w; cbn in Hc; subst. unfold ret, set_frames, set_stdout. cbn.
    rewrite !app_nil_r. reflexivity.
  - cbn [write_chunks chunk_frames].
    destruct (nonempty data) eqn:Hne.
    + set (rest := skipn chunk_size data).
      set (cmd1 := dict_set "m" (PInt (py_bool_Z (nonempty rest))) cmd).
      assert (Ha1 : wire_ascii cmd1 = true).
      { apply wire_ascii_dict_set; [| exact Ha].
        unfold format_item. cbn [fst snd]. rewrite !is_ascii_append.
        rewrite is_ascii_format_val. reflexivity. }
      destruct (write_gr_cmd_ok cmd1 (firstn chunk_size data) w Hc Ha1) as [out1 Hw].
      erewrite bind_Ret by exact Hw.
      assert (Hlen' : (length rest <= fuel)%nat).
      { subst rest. rewrite length_skipn.
        pose proof chunk_size_pos.
        destruct data; [discriminate | cbn [length] in *; lia]. }
      edestruct (IH [] rest
                   (set_frames (frames w ++ [(cmd1, firstn chunk_size data)])
                      (set_stdout (stdout w ++ out1) None w)) Hlen')
        as [out2 Hrest]; [reflexivity | reflexivity |].
      exists (out1 ++ out2). etransitivity; [exact Hrest |].
      assert (Hret : (if nonempty rest then [] else []) = ([] : dict))
        by (destruct (nonempty rest); reflexivity).
      rewrite Hret. destruct w; cbn in Hc; subst.
      unfold set_frames, set_stdout. cbn. rewrite <- !app_assoc. reflexivity.
    + exists []. destruct w; cbn in Hc; subst. unfold ret, set_frames, set_stdout. cbn.
      rewrite !app_nil_r. reflexivity.
Qed.

Lemma chunk_frames_concat (fuel : nat) :
  forall (cmd : dict) (data : bytes),
    (length data <= fuel)%nat ->
    concat (map snd (chunk_frames fuel cmd data)) = data.
Proof.
  induction fuel as [| fuel IH]; intros cmd data Hlen.
  - destruct data; [reflexivity | cbn in Hlen; lia].
  - cbn [chunk_frames]. destruct (nonempty data) eqn:Hne.
    + cbn [map snd concat]. rewrite IH.
      * apply firstn_skipn.
      * rewrite length_skipn. pose proof chunk_size_pos.
        destruct data; [discriminate | cbn [length] in *; lia].
    + apply nonempty_false in Hne. subst. reflexivity.
Qed.

(** All frames but the last are full and say [m=1]; the last is not empty
    and says [m=0]. *)
Lemma chunk_frames_shape (fuel : nat) :
  forall (cmd : dict) (data : bytes),
    (length data <= fuel)%nat ->
    data <> [] ->
    exists init last,
      chunk_frames fuel cmd data = init ++ [last]
      /\ Forall (fun fr => length (snd fr) = chunk_size
                           /\ dict_get "m" (fst fr) = Some (PInt 1)) init
      /\ (0 < length (snd last) <= chunk_size)%nat
      /\ dict_get "m" (fst last) = Some (PInt 0).
Proof.
  induction fuel as [| fuel IH]; intros cmd data Hlen Hne.
  - destruct data; [congruence | cbn in Hlen; lia].
  - cbn [chunk_frames].
    rewrite (proj2 (nonempty_true data) Hne).
    destruct (nonempty (skipn chunk_size data)) eqn:Hrest.
    + apply nonempty_true in Hrest.
      assert (Hlen' : (length (skipn chunk_size data) <= fuel)%nat).
      { rewrite length_skipn. pose proof chunk_size_pos.
        destruct data; [congruence | cbn [length] in *; lia]. }
      destruct (IH [] (skipn chunk_size data) Hlen' Hrest) as (init & last & Heq & Hinit & Hlast & Hm).
      exists ((dict_set "m" (PInt 1) cmd, firstn chunk_size data) :: init), last.
      rewrite Heq. split; [reflexivity |]. split; [| split; assumption].
      constructor; [| exact Hinit]. cbn [fst snd]. split.
      * rewrite length_firstn.
        assert (length (skipn chunk_size data) <> 0)%nat
          by (intros H0; apply length_zero_iff_nil in H0; congruence).
        rewrite length_skipn in H. lia.
      * apply dict_get_set_eq.
    + apply nonempty_false in Hrest. rewrite Hrest.
      destruct fuel; cbn [chunk_frames nonempty];
        (exists [], (dict_set "m" (PInt 0) cmd, firstn chunk_size data);
         split; [reflexivity |]; split; [constructor |]; cbn [fst snd]; split;
         [ rewrite length_firstn;
           assert (length data <> 0)%nat
             by (intros H0; apply length_zero_iff_nil in H0; congruence);
           pose proof chunk_size_pos; lia
         | apply dict_get_set_eq ]).
Qed.

Lemma write_chunked_unfold (E : env) (mode : string) (cmd : dict) (data : bytes) :
  write_chunked E mode cmd data
  = write_chunks (length (encoded_payload E mode data))
      (if negb (String.eqb mode "PNG") then dict_set "o" (PStr "z") cmd else cmd)
      (encoded_payload E mode data).
Proof.
  unfold write_chunked, encoded_payload.
  destruct (negb (String.eqb mode "PNG")); reflexivity.
Qed.

Lemma write_chunked_ok (E : env) (mode : string) (cmd : dict) (data : bytes) (w : world) :
  stdout_credit w = None ->
  wire_ascii cmd = true ->
  exists final w',
    write_chunked E mode cmd data w = (Ret final, w')
    /\ frames w'
       = frames w
         ++ chunk_frames (length (encoded_payload E mode data))
              (if negb (String.eqb mode "PNG") then dict_set "o" (PStr "z") cmd else cmd)
              (encoded_payload E mode data)
    /\ (encoded_payload E mode data <> [] -> final = []).
Proof.
  intros Hc Ha. rewrite write_chunked_unfold.
  set (cmd' := if negb (String.eqb mode "PNG") then _ else _).
  assert (Ha' : wire_ascii cmd' = true).
  { subst cmd'. destruct (negb (String.eqb mode "PNG")); [| exact Ha].
    apply wire_ascii_dict_set; [reflexivity | exact Ha]. }
  destruct (write_chunks_ok _ cmd' (encoded_payload E mode data) w (le_n _) Hc Ha')
    as [out Hrun].
  eexists; eexists. split; [exact Hrun |]. split.
  - destruct w; reflexivity.
  - intros Hne. apply nonempty_true in Hne. rewrite Hne. reflexivity.
Qed.

(** The bytes and the frames of a transmission. *)
Lemma write_gr_cmd_exact (cmd : dict) (payload : bytes) (w : world) :
  stdout_credit w = None ->
  wire_ascii cmd = true ->
  write_gr_cmd cmd payload w
  = (Ret tt,
     set_frames (frames w ++ [(cmd, payload)])
       (set_stdout (stdout w ++ frame_bytes (cmd, payload)) None w)).
Proof.
  intros Hc Ha. unfold write_gr_cmd, frame_bytes. cbn [fst snd].
  rewrite (wire_ascii_encodes cmd Ha).
  set (enc := list_byte_of_string _).
  destruct w; cbn in Hc; subst.
  unfold bind, stdout_flush, stdout_write, lift, ret, log_frame, modify,
    set_frames, set_stdout.
  cbn. rewrite app_nil_r, <- !app_assoc. reflexivity.
Qed.

Lemma write_chunks_exact (fuel : nat) :
  forall (cmd : dict) (data : bytes) (w : world),
    (length data <= fuel)%nat ->
    stdout_credit w = None ->
    wire_ascii cmd = true ->
    write_chunks fuel cmd data w
    = (Ret (if nonempty data then [] else cmd),
       set_frames (frames w ++ chunk_frames fuel cmd data)
         (set_stdout (stdout w ++ concat (map frame_bytes (chunk_frames fuel cmd data)))
            None w)).
Proof.
  induction fuel as [| fuel IH]; intros cmd data w Hlen Hc Ha.
  - destruct data; [| cbn in Hlen; lia]. cbn.
    destruct w; cbn in Hc; subst. unfold ret, set_frames, set_stdout. cbn.
    rewrite !app_nil_r. reflexivity.
  - cbn [write_chunks chunk_frames].
    destruct (nonempty data) eqn:Hne.
    + set (rest := skipn chunk_size data).
      set (cmd1 := dict_set "m" (PInt (py_bool_Z (nonempty rest))) cmd).
      assert (Ha1 : wire_ascii cmd1 = true).
      { apply wire_ascii_dict_set; [| exact Ha].
        unfold format_item. cbn [fst snd]. rewrite !is_ascii_append.
        rewrite is_ascii_format_val. reflexivity. }
      erewrite bind_Ret by (apply write_gr_cmd_exact; [exact Hc | exact Ha1]).
      assert (Hlen' : (length rest <= fuel)%nat).
      { subst rest. rewrite length_skipn.
        pose proof chunk_size_pos.
        destruct data; [discriminate | cbn [length] in *; lia]. }
      pose proof (IH [] rest
                    (set_frames (frames w ++ [(cmd1, firstn chunk_size data)])
                       (set_stdout (stdout w ++ frame_bytes (cmd1, firstn chunk_size data))
                          None w))
                    Hlen' eq_refl eq_refl) as Hrest.
      etransitivity; [exact Hrest |].
      assert (Hret : (if nonempty rest then [] else []) = ([] : dict))
        by (destruct (nonempty rest); reflexivity).
      rewrite Hret. destruct w; cbn in Hc; subst.
      unfold set_frames, set_stdout. cbn [frames stdout map concat].
      rewrite <- !app_assoc. reflexivity.
    + destruct w; cbn in Hc; subst. unfold ret, set_frames, set_stdout. cbn.
      rewrite !app_nil_r. reflexivity.
Qed.

(** The command of a transmission after [write_chunked] has put the
    compression flag in. *)
Lemma wire_ascii_flagged (mode : string) (cmd : dict) :
  wire_ascii cmd = true ->
  wire_ascii (if negb (String.eqb mode "PNG") then dict_set "o" (PStr "z") cmd else cmd)
  = true.
Proof.
  intros Ha. destruct (negb (String.eqb mode "PNG")); [| exact Ha].
  apply wire_ascii_dict_set; [reflexivity | exact Ha].
Qed.

Lemma write_chunked_exact (E : env) (mode : string) (cmd : dict) (data : bytes) (w : world) :
  stdout_credit w = None ->
  wire_ascii cmd = true ->
  let text := encoded_payload E mode data in
  let cmd' := if negb (String.eqb mode "PNG") then dict_set "o" (PStr "z") cmd else cmd in
  let sent := chunk_frames (length text) cmd' text in
  write_chunked E mode cmd data w
  = (Ret (if nonempty text then [] else cmd'),
     set_frames (frames w ++ sent)
       (set_stdout (stdout w ++ concat (map frame_bytes sent)) None w)).
Proof.
  intros Hc Ha text cmd' sent. rewrite write_chunked_unfold.
  apply write_chunks_exact; [apply le_n | exact Hc | apply wire_ascii_flagged; exact Ha].
Qed.

(** C4, as the code has it: when the base64 text is not empty, standard
    output receives one frame per segment and nothing else; the frames
    carry the text in order, every frame but the last holds exactly 4096
    bytes and says [m=1], the last holds between 1 and 4096 and says
    [m=0]. *)
Theorem write_chunked_frames (E : env) (mode : string) (cmd : dict)
    (data : bytes) (w : world) :
  stdout_credit w = None ->
  wire_ascii cmd = true ->
  encoded_payload E mode data <> [] ->
  exists w' init last,
    write_chunked E mode cmd data w = (Ret [], w')
    /\ frames w' = frames w ++ init ++ [last]
    /\ stdout w' = stdout w ++ concat (map frame_bytes (init ++ [last]))
    /\ Forall (fun fr => length (snd fr) = chunk_size
                         /\ dict_get "m" (fst fr) = Some (PInt 1)) init
    /\ (0 < length (snd last) <= chunk_size)%nat
    /\ dict_get "m" (fst last) = Some (PInt 0)
    /\ concat (map snd (init ++ [last])) = encoded_payload E mode data.
Proof.
  intros Hc Ha Hne.
  pose proof (write_chunked_exact E mode cmd data w Hc Ha) as Hrun.
  cbv zeta in Hrun. rewrite (proj2 (nonempty_true _) Hne) in Hrun.
  set (cmd' := if negb (String.eqb mode "PNG") then _ else _) in Hrun.
  destruct (chunk_frames_shape _ cmd' _ (le_n _) Hne) as (init & last & Heq & Hinit & Hlast & Hm).
  rewrite Heq in Hrun.
  eexists; exists init, last. split; [exact Hrun |].
  split; [reflexivity |]. split; [reflexivity |].
  split; [exact Hinit |]. split; [exact Hlast |]. split; [exact Hm |].
  transitivity (concat (map snd (chunk_frames (length (encoded_payload E mode data))
                                   cmd' (encoded_payload E mode data)))).
  - rewrite Heq. reflexivity.
  - apply chunk_frames_concat. apply le_n.
Qed.

(** A pre-encoded payload of 3100 bytes on a working terminal: 4136
    bytes of base64 text, two frames. *)
Lemma write_chunked_frames_witness :
  exists w' init last,
    write_chunked (Run.library false) "PNG" [("a", PStr "T")]%string (repeat x00 3100)
      (Run.terminal Run.geometry None [] []) = (Ret [], w')
    /\ frames w' = [] ++ init ++ [last]
    /\ stdout w' = [] ++ concat (map frame_bytes (init ++ [last]))
    /\ Forall (fun fr => length (snd fr) = chunk_size
                         /\ dict_get "m" (fst fr) = Some (PInt 1)) init
    /\ (0 < length (snd last) <= chunk_size)%nat
    /\ dict_get "m" (fst last) = Some (PInt 0)
    /\ concat (map snd (init ++ [last]))
       = encoded_payload (Run.library false) "PNG" (repeat x00 3100).
Proof.
  apply (write_chunked_frames (Run.library false) "PNG" [("a", PStr "T")]%string
           (repeat x00 3100) (Run.terminal Run.geometry None [] []));
    [reflexivity | reflexivity | vm_compute; discriminate].
Defined.

(** C4, as stated, fails: an empty pre-encoded payload has an empty base64
    text, the loop is not entered and no frame is written, so none says
    [m=0]. Nor is a frame written when standard output refuses the write,
    or when the command cannot be encoded as ASCII. *)
Lemma write_chunked_empty_png_writes_nothing :
  (let run := write_chunked (Run.library false) "PNG" [("a", PStr "T")]%string []
                (Run.terminal Run.geometry None [] []) in
   fst run = Ret [("a", PStr "T")]%string
   /\ frames (snd run) = []
   /\ stdout (snd run) = []
   /\ ~ (exists fr, In fr (frames (snd run))
                    /\ dict_get "m" (fst fr) = Some (PInt 0)))
  /\ (let run := write_chunked (Run.library false) "PNG" [("a", PStr "T")]%string
                   (b "abcd") (Run.terminal Run.geometry (Some O) [] []) in
      fst run = Exc OSError /\ frames (snd run) = [])
  /\ (let run := write_chunked (Run.library false) "PNG" Run.accented
                   (b "abcd") (Run.terminal Run.geometry None [] []) in
      fst run = Exc UnicodeEncodeError /\ frames (snd run) = []).
Proof.
  vm_compute. repeat split; try reflexivity.
  intros (fr & Hin & _). exact Hin.
Qed.

Lemma compressed_chunk_frames_nil (fuel : nat) :
  forall data : bytes, compressed (chunk_frames fuel [] data) = false.
Proof.
  unfold compressed.
  induction fuel as [| fuel IH]; intros data; cbn [chunk_frames].
  - destruct (nonempty data); reflexivity.
  - destruct (nonempty data); [| reflexivity].
    cbn [existsb]. rewrite IH. reflexivity.
Qed.

Lemma compressed_chunk_frames (fuel : nat) (cmd : dict) (data : bytes) :
  (length data <= fuel)%nat ->
  data <> [] ->
  compressed (chunk_frames fuel cmd data)
  = match dict_get "o" cmd with
    | Some (PStr s) => String.eqb s "z"
    | _ => false
    end.
Proof.
  intros Hlen Hne. destruct fuel as [| fuel].
  - destruct data; [congruence | cbn in Hlen; lia].
  - cbn [chunk_frames]. rewrite (proj2 (nonempty_true data) Hne).
    unfold compressed. cbn [existsb].
    fold (compressed (chunk_frames fuel [] (skipn chunk_size data))).
    rewrite compressed_chunk_frames_nil, orb_false_r.
    unfold carries_o_z. cbn [fst]. rewrite dict_get_set_ne by reflexivity.
    reflexivity.
Qed.

(** C5, as the code has it: standard output receives the frames of the
    transmission and nothing else; their payloads, joined in order,
    base64-decoded, and inflated when a frame carries [o=z], are the
    payload [write_chunked] was given; a frame carries [o=z] exactly when
    the mode is not PNG. [decompress] is the inverse of [zlib.compress],
    whose output is never empty; in PNG mode the command does not come
    with an [o=z] of its own. *)
Theorem write_chunked_reassembles (E : env) (decompress : bytes -> option bytes)
    (mode : string) (cmd : dict) (data : bytes) (w : world) :
  (forall d, decompress (zlib_compress E d) = Some d) ->
  (forall d, zlib_compress E d <> []) ->
  stdout_credit w = None ->
  wire_ascii cmd = true ->
  (mode = "PNG"%string -> dict_get "o" cmd <> Some (PStr "z")) ->
  exists final w' sent,
    write_chunked E mode cmd data w = (Ret final, w')
    /\ frames w' = frames w ++ sent
    /\ stdout w' = stdout w ++ concat (map frame_bytes sent)
    /\ compressed sent = negb (String.eqb mode "PNG")
    /\ reassemble decompress sent = Some data.
Proof.
  intros Hinv Hnz Hc Ha Ho.
  rewrite (write_chunked_exact E mode cmd data w Hc Ha).
  eexists; eexists; eexists. split; [reflexivity |].
  split; [reflexivity |]. split; [reflexivity |].
  unfold reassemble.
  rewrite (chunk_frames_concat _ _ _ (le_n _)).
  unfold encoded_payload, standard_b64encode.
  rewrite base64_decode_encode.
  destruct (String.eqb mode "PNG") eqn:Hmode; cbn [negb].
  - assert (Hflag : compressed (chunk_frames (length (Base64.encode data)) cmd
                                  (Base64.encode data)) = false).
    { destruct (Base64.encode data) as [| c text] eqn:Ht; [reflexivity |].
      rewrite compressed_chunk_frames; [| apply le_n | discriminate].
      apply String.eqb_eq in Hmode. specialize (Ho Hmode).
      destruct (dict_get "o" cmd) as [[n | s] |]; try reflexivity.
      destruct (String.eqb s "z") eqn:Hs; [| reflexivity].
      apply String.eqb_eq in Hs. subst s. congruence. }
    rewrite Hflag. split; reflexivity.
  - assert (Hflag : compressed
                      (chunk_frames (length (Base64.encode (zlib_compress E data)))
                         (dict_set "o" (PStr "z") cmd)
                         (Base64.encode (zlib_compress E data))) = true).
    { rewrite compressed_chunk_frames.
      - rewrite dict_get_set_eq. reflexivity.
      - apply le_n.
      - apply base64_encode_nonempty, Hnz. }
    rewrite Hflag. split; [reflexivity | apply Hinv].
Qed.

(** An RGB payload of 3100 bytes, with a codec that stores the data
    behind a header of two bytes: 4136 bytes of base64 text, two
    frames. *)
Lemma write_chunked_reassembles_witness :
  exists final w' sent,
    write_chunked (Run.library false) "RGB" [("a", PStr "T")]%string (repeat x00 3100)
      (Run.terminal Run.geometry None [] []) = (Ret final, w')
    /\ frames w' = [] ++ sent
    /\ stdout w' = [] ++ concat (map frame_bytes sent)
    /\ compressed sent = negb (String.eqb "RGB" "PNG")
    /\ reassemble Run.unstored sent = Some (repeat x00 3100).
Proof.
  apply (write_chunked_reassembles (Run.library false) Run.unstored "RGB"
           [("a", PStr "T")]%string (repeat x00 3100)
           (Run.terminal Run.geometry None [] []));
    [ intros d; reflexivity | intros d; discriminate
    | reflexivity | reflexivity | discriminate ].
Defined.

(** C5, as stated, fails for a command that already says [o=z] when the
    mode is PNG: the flag goes out with the frame although nothing was
    compressed, and the receiver that inflates what it decodes does not
    get the payload back. With the codec of [Run] it gets [cd] for
    [abcd]. *)
Lemma write_chunked_flagged_png_not_reassembled :
  let run := write_chunked (Run.library false) "PNG"
               [("a", PStr "T"); ("o", PStr "z")]%string (b "abcd")
               (Run.terminal Run.geometry None [] []) in
  fst run = Ret []
  /\ stdout (snd run) = concat (map frame_bytes (frames (snd run)))
  /\ compressed (frames (snd run)) = true
  /\ Base64.decode (concat (map snd (frames (snd run)))) = Some (b "abcd")
  /\ reassemble Run.unstored (frames (snd run)) = Some (b "cd")
  /\ reassemble Run.unstored (frames (snd run)) <> Some (b "abcd").
Proof.
  vm_compute. repeat split; try reflexivity. discriminate.
Qed.

(** ** Negotiation *)

(** The loop test fails as soon as one of the two ids is in the table. *)
Lemma keep_polling_needs_both_unresolved now start wait_for (responses : gmap Z bool) :
  keep_polling now start wait_for responses = true ->
  responses !! 1 = None /\ responses !! 2 = None.
Proof.
  unfold keep_polling, has_key. intros H.
  apply andb_prop in H as [H H2]. apply andb_prop in H as [_ H1].
  destruct (responses !! 1); [discriminate |].
  destruct (responses !! 2); [discriminate |]. split; reflexivity.
Qed.

Lemma poll_stops_on_one_answer (E : env) fuel start wait_for received
    (responses : gmap Z bool) w lag rest :
  clock w = lag :: rest ->
  is_Some (responses !! 1) \/ is_Some (responses !! 2) ->
  poll E (S fuel) start wait_for received responses w
    = (Ret responses, set_clock rest (set_now (now w + lag) w)).
Proof.
  intros Hc Hr. cbn [poll]. unfold bind, monotonic. rewrite Hc.
  assert (Hk : forall t, keep_polling t start wait_for responses = false).
  { intros t. destruct (keep_polling t start wait_for responses) eqn:Hk; [| reflexivity].
    apply keep_polling_needs_both_unresolved in Hk as [H1 H2].
    destruct Hr as [[v Hv] | [v Hv]]; congruence. }
  rewrite Hk. reflexivity.
Qed.

(** C1: the terminal answers both probes with OK, the second answer a
    quarter of a second after the first. The loop ends at the test that
    follows the first answer, a twentieth of a second into a wait of ten:
    the second answer is never read and [has_files] is false. Delivered
    by one read, the same bytes give true. *)
Theorem detect_support_stops_at_first_answer :
  let run := detect_support (Run.library false) 10 Run.answers_apart in
  fst run = Ret true
  /\ has_files (snd run) = Some false
  /\ stdin_events (snd run) = [Idle; Idle; Data 50000000 (Run.response "2" "OK")]
  /\ float_lt_int (Float.sub (Run.seconds (now (snd run))) (Run.seconds 20000)) 10 = true
  /\ now (snd run) = 50060000%N
  /\ clock (snd run) = [20000%N]
  /\ has_files (snd (detect_support (Run.library false) 10 Run.answers_together))
     = Some true.
Proof.
  vm_compute. repeat split; reflexivity.
Qed.

(** *** The deadline and the restoration of the terminal *)

Lemma monotonic_credit (E : env) (w w' : world) (r : outcome Float.float) :
  monotonic E w = (r, w') ->
  stdout_credit w' = stdout_credit w /\ (stdin_isatty w' = stdin_isatty w).
Proof.
  unfold monotonic. destruct (clock w); intros H; inversion H; split; reflexivity.
Qed.

Lemma select_credit (timeout : Float.float) (w w' : world) (r : outcome stdin_event) :
  select timeout w = (r, w') ->
  stdout_credit w' = stdout_credit w /\ (stdin_isatty w' = true -> stdin_isatty w = true).
Proof.
  unfold select. destruct (stdin_events w) as [| [| after [| c d] |] rest];
    intros H; inversion H; split; try reflexivity; cbn; congruence.
Qed.

Lemma poll_credit (E : env) (fuel : nat) :
  forall start wait_for received (responses : gmap Z bool) w r w',
    poll E fuel start wait_for received responses w = (r, w') ->
    stdout_credit w' = stdout_credit w
    /\ (stdin_isatty w' = true -> stdin_isatty w = true).
Proof.
  induction fuel as [| fuel IH]; intros start wait_for received responses w r w' H.
  - inversion H. split; [reflexivity | tauto].
  - cbn [poll] in H. unfold bind in H.
    destruct (monotonic E w) as [[now | e |] w1] eqn:Hm;
      pose proof (monotonic_credit _ _ _ _ Hm) as [Hc1 Ht1];
      [| inversion H; subst; split; congruence | inversion H; subst; split; congruence].
    destruct (keep_polling now start wait_for responses).
    + destruct (select poll_timeout w1) as [[ev | e |] w2] eqn:Hs;
        pose proof (select_credit _ _ _ _ Hs) as [Hc2 Ht2];
        [| inversion H; subst; split; [congruence | intros Ht; rewrite <- Ht1; auto]
         | inversion H; subst; split; [congruence | intros Ht; rewrite <- Ht1; auto]].
      destruct ev as [| after d |].
      * apply IH in H as [Hc Ht]. split; [congruence | intros Ht'; rewrite <- Ht1; auto].
      * destruct (read d received responses) as [received' responses'].
        apply IH in H as [Hc Ht]. split; [congruence | intros Ht'; rewrite <- Ht1; auto].
      * inversion H; subst. split; [congruence | intros Ht; rewrite <- Ht1; auto].
    + inversion H; subst. split; congruence.
Qed.

Lemma negotiate_credit (E : env) (wait_for : Z) (w w' : world)
    (r : outcome (gmap Z bool)) :
  stdout_credit w = None ->
  negotiate E wait_for w = (r, w') ->
  stdout_credit w' = None /\ (stdin_isatty w' = true -> stdin_isatty w = true).
Proof.
  intros Hc. unfold negotiate. unfold bind at 1.
  destruct (monotonic E w) as [[start | e |] w1] eqn:Hm;
    pose proof (monotonic_credit _ _ _ _ Hm) as [Hc1 Ht1];
    [| intros H; inversion H; subst; split; congruence
     | intros H; inversion H; subst; split; congruence].
  unfold bind at 1. unfold NamedTemporaryFile.
  destruct (tmp_name E) as [name |];
    [| unfold raise; intros H; inversion H; subst; split; congruence].
  unfold ret.
  assert (Hc1' : stdout_credit w1 = None) by congruence.
  destruct (write_gr_cmd_ok probe_1 (standard_b64encode (b "abcd")) w1 Hc1' eq_refl)
    as [out1 Hw1].
  erewrite bind_Ret by exact Hw1.
  match goal with
  | |- context [write_gr_cmd probe_2 ?p] =>
      edestruct (write_gr_cmd_ok probe_2 p) as [out2 Hw2];
      [| reflexivity | erewrite bind_Ret by exact Hw2]; [reflexivity |]
  end.
  erewrite bind_Ret by reflexivity.
  intros H. apply poll_credit in H as [H Ht]. rewrite H. split; [reflexivity |].
  intros Ht'. rewrite <- Ht1. apply Ht in Ht'. exact Ht'.
Qed.

(** The [finally] block on a working standard output: the terminal is
    restored while it is there; once it has hung up [tcsetattr] raises
    and the status flags are left as they are. *)
Lemma restore_terminal_exact (old : termios) (oldfl : Z) (w : world) :
  stdout_credit w = None ->
  restore_terminal old oldfl w
  = if stdin_isatty w then
      (Ret tt,
       set_stdin_fl oldfl
         (set_stdin_attr old
            (set_stdout (stdout w ++ [ESC; "["%byte; "J"%byte]) None w)))
    else
      (Exc TermiosError, set_stdout (stdout w ++ [ESC; "["%byte; "J"%byte]) None w).
Proof.
  intros Hc. unfold restore_terminal.
  erewrite bind_Ret by (apply stdout_write_ok; exact Hc).
  erewrite bind_Ret by (apply stdout_flush_ok; reflexivity).
  unfold tcsetattr, fcntl_F_SETFL, bind, get, modify, raise.
  destruct w as [? ? ? ? ? tty ? ? ? ? ? ? ? ? ? ?]; cbn in Hc; subst.
  unfold set_stdin_fl, set_stdin_attr, set_stdout. cbn.
  rewrite app_nil_r. destruct tty; reflexivity.
Qed.

Lemma tcgetattr_ok (w : world) :
  stdin_isatty w = true -> tcgetattr w = (Ret (stdin_attr w), w).
Proof. intros Ht. unfold tcgetattr, bind, get. rewrite Ht. reflexivity. Qed.

Lemma tcsetattr_ok (mode : termios) (w : world) :
  stdin_isatty w = true -> tcsetattr mode w = (Ret tt, set_stdin_attr mode w).
Proof. intros Ht. unfold tcsetattr, bind, get, modify. rewrite Ht. reflexivity. Qed.

Lemma detect_support_enters (E : env) (wait_for : Z) (w : world) :
  stdout_credit w = None ->
  stdin_isatty w = true ->
  detect_support E wait_for w
  = bind (try_finally (negotiate E wait_for)
            (restore_terminal (stdin_attr w) (stdin_fl w)))
      (fun responses =>
         bind (modify (set_has_files
                         (Some (match responses !! 2 with Some v => v | None => false end))))
           (fun _ => ret (match responses !! 1 with Some v => v | None => false end)))
      (entered wait_for w).
Proof.
  intros Hc Ht. unfold detect_support.
  erewrite bind_Ret by (apply tcgetattr_ok; exact Ht).
  do 2 step.
  erewrite bind_Ret by (apply stdout_write_ok; exact Hc).
  erewrite bind_Ret by (apply stdout_flush_ok; reflexivity).
  unfold setraw.
  erewrite bind_Ret
    by (erewrite bind_Ret by (apply tcgetattr_ok; exact Ht);
        apply tcsetattr_ok; exact Ht).
  destruct w; cbn in Hc; subst. unfold entered. cbn.
  rewrite app_nil_r. reflexivity.
Qed.

(** Called on anything but a terminal, [detect_support] raises at its
    first statement. *)
Lemma detect_support_not_a_terminal (E : env) (wait_for : Z) (w : world) :
  stdin_isatty w = false ->
  detect_support E wait_for w = (Exc TermiosError, w).
Proof.
  intros Ht. unfold detect_support, tcgetattr, bind, get, raise. rewrite Ht. reflexivity.
Qed.

(** Whatever happens inside the [try], if writing to standard output does
    not fail and the terminal is still there at the end, it is as it
    was. *)
Lemma detect_support_restores (E : env) (wait_for : Z) (w w' : world)
    (r : outcome bool) :
  stdout_credit w = None ->
  detect_support E wait_for w = (r, w') ->
  r <> Starved ->
  stdin_isatty w' = true ->
  stdin_attr w' = stdin_attr w /\ stdin_fl w' = stdin_fl w.
Proof.
  intros Hc Hrun Hr Hthere.
  destruct (stdin_isatty w) eqn:Ht;
    [| rewrite (detect_support_not_a_terminal E wait_for w Ht) in Hrun;
       inversion Hrun; subst; split; reflexivity].
  rewrite (detect_support_enters E wait_for w Hc Ht) in Hrun.
  unfold bind at 1 in Hrun. unfold try_finally in Hrun.
  destruct (negotiate E wait_for (entered wait_for w)) as [body w1] eqn:Hbody.
  assert (Hc1 : stdout_credit w1 = None).
  { eapply negotiate_credit; [| exact Hbody]. reflexivity. }
  pose proof (restore_terminal_exact (stdin_attr w) (stdin_fl w) w1 Hc1) as Hclean.
  destruct (stdin_isatty w1) eqn:Ht1.
  - destruct body as [responses | e |].
    + rewrite Hclean in Hrun. unfold bind, modify, ret in Hrun.
      inversion Hrun; subst. split; reflexivity.
    + rewrite Hclean in Hrun. inversion Hrun; subst. split; reflexivity.
    + inversion Hrun; subst. congruence.
  - destruct body as [responses | e |].
    + rewrite Hclean in Hrun. inversion Hrun; subst. cbn in Hthere. congruence.
    + rewrite Hclean in Hrun. inversion Hrun; subst. cbn in Hthere. congruence.
    + inversion Hrun; subst. congruence.
Qed.

Lemma keep_polling_empty (now start : Float.float) (wait_for : Z) :
  keep_polling now start wait_for ∅ = before_deadline start wait_for now.
Proof.
  unfold keep_polling, before_deadline, has_key.
  rewrite !lookup_empty. cbn [negb]. rewrite !andb_true_r. reflexivity.
Qed.

(** The comparison does not round the integer: [2.0 ** 53 < 2 ** 53 + 1]
    holds, although the float nearest to [2 ** 53 + 1] is [2.0 ** 53]. *)
Lemma float_lt_int_does_not_round :
  let x := binary_normalize Float.prec Float.emax (2 ^ 53) 0 false in
  float_lt_int x (2 ^ 53 + 1) = true
  /\ float_lt_int x (2 ^ 53) = false
  /\ binary_normalize Float.prec Float.emax (2 ^ 53 + 1) 0 false = x.
Proof. vm_compute. repeat split; reflexivity. Qed.

(** Projections of a world built with the setters. *)
Ltac world_simpl :=
  cbn [tty_winsize screen_size_ans stdout stdout_credit stdout_isatty stdin_isatty
       stdin_attr stdin_fl now clock stdin_events has_files decoded stderr sigwinch
       frames set_screen_size_ans set_stdout set_stdin_isatty set_stdin_attr
       set_stdin_fl set_now set_clock set_stdin_events set_has_files set_decoded
       set_stderr set_sigwinch set_frames entered].

(** The wait of a call of [select] in the loop is a tenth of a second,
    and no call takes longer. *)
Lemma poll_wait_ns : poll_wait = 100000000%N.
Proof. vm_compute. reflexivity. Qed.

Lemma took_at_most (wait : N) (ev : stdin_event) : (took wait ev <= wait)%N.
Proof. destruct ev; cbn [took]; lia. Qed.

(** A call of [select] that does not find the terminal gone. *)
Lemma select_answers (timeout : Float.float) (w : world) (ev : stdin_event)
    (rest : list stdin_event) :
  stdin_events w = ev :: rest ->
  (forall after, ev <> Data after []) ->
  select timeout w
  = (Ret ev, set_stdin_events rest (set_now (now w + took (select_wait timeout) ev) w)).
Proof.
  intros Hevs Hev. unfold select. rewrite Hevs.
  destruct ev as [| after [| c d] |]; try reflexivity.
  exfalso. apply (Hev after). reflexivity.
Qed.

(** Turns of the loop during which nothing is learnt. *)
Lemma poll_quiet_prefix (E : env) (start : Float.float) (wait_for : Z)
    (later : list N) (revs : list stdin_event) :
  forall (lags : list N) (evs : list stdin_event) (received : bytes)
         (w : world) (fuel : nat),
    clock w = lags ++ later ->
    stdin_events w = evs ++ revs ->
    length evs = length lags ->
    Forall (fun t => before_deadline start wait_for (clock_seconds E t) = true)
      (test_times (now w) lags evs) ->
    quiet received evs ->
    poll E (length lags + fuel) start wait_for received ∅ w
    = poll E fuel start wait_for (received ++ delivered evs) ∅
        (set_stdin_events revs
           (set_clock later (set_now (time_after (now w) lags evs) w))).
Proof.
  induction lags as [| lag lags IH];
    intros evs received w fuel Hclock Hevs Hlen Hearly Hq.
  - destruct evs; [| discriminate]. cbn [length Nat.add delivered time_after].
    rewrite app_nil_r. destruct w; cbn in *; subst. reflexivity.
  - destruct evs as [| ev evs]; [discriminate |].
    cbn [test_times] in Hearly.
    inversion Hearly as [| ? ? Ht Hearly']; subst.
    cbn [length Nat.add poll]. unfold bind at 1. unfold monotonic. rewrite Hclock. cbn [app].
    rewrite keep_polling_empty, Ht.
    assert (Hquiet : forall after, ev <> Data after []).
    { intros after ->. cbn [quiet] in Hq. destruct Hq as [Hd _]. congruence. }
    erewrite bind_Ret
      by (apply select_answers; [cbn [stdin_events set_clock set_now]; exact Hevs | exact Hquiet]).
    fold poll_wait. cbn [now set_clock set_now].
    assert (Hstep : forall received',
               quiet received' evs ->
               poll E (length lags + fuel) start wait_for received' ∅
                 (set_stdin_events (evs ++ revs)
                    (set_now (now w + lag + took poll_wait ev)
                       (set_clock (lags ++ later) (set_now (now w + lag) w))))
               = poll E fuel start wait_for (received' ++ delivered evs) ∅
                   (set_stdin_events revs
                      (set_clock later
                         (set_now (time_after (now w) (lag :: lags) (ev :: evs)) w)))).
    { intros received' Hq'.
      rewrite (IH evs received' _ fuel);
        [ destruct w; reflexivity | reflexivity | reflexivity | cbn in Hlen; lia
        | exact Hearly' | exact Hq' ]. }
    destruct ev as [| after d |]; cbn [quiet delivered] in Hq |- *.
    + apply Hstep. exact Hq.
    + destruct Hq as (Hd & Hparse & Hq). unfold read.
      rewrite (proj2 (nonempty_true d) Hd). rewrite Hparse.
      rewrite app_assoc. apply Hstep. exact Hq.
    + contradiction.
Qed.

(** The test that finds the wait over. *)
Lemma poll_deadline (E : env) (start : Float.float) (wait_for : Z) (received : bytes)
    (w : world) (lag : N) (rest : list N) (fuel : nat) :
  clock w = lag :: rest ->
  before_deadline start wait_for (clock_seconds E (now w + lag)) = false ->
  poll E (S fuel) start wait_for received ∅ w
  = (Ret ∅, set_clock rest (set_now (now w + lag) w)).
Proof.
  intros Hclock Hlate. cbn [poll]. unfold bind, monotonic. rewrite Hclock.
  rewrite keep_polling_empty, Hlate. reflexivity.
Qed.

(** The last call of [select] returns at most one wait after a test of
    the loop. *)
Lemma time_after_bound (lags : list N) :
  forall (t : N) (evs : list stdin_event),
    length evs = length lags ->
    time_after t lags evs = t
    \/ exists prev, In prev (test_times t lags evs)
                    /\ (time_after t lags evs <= prev + poll_wait)%N.
Proof.
  induction lags as [| lag lags IH]; intros t evs Hlen.
  - left. reflexivity.
  - destruct evs as [| ev evs]; [discriminate |]. right.
    cbn [time_after test_times].
    destruct (IH (t + lag + took poll_wait ev)%N evs ltac:(cbn in Hlen; lia))
      as [Heq | (prev & Hin & Hle)].
    + exists (t + lag)%N. split; [left; reflexivity |].
      rewrite Heq. pose proof (took_at_most poll_wait ev). lia.
    + exists prev. split; [right; exact Hin | exact Hle].
Qed.

(** The try block of a call on a working standard output, up to the
    loop. *)
Lemma negotiate_starts (E : env) (wait_for : Z) (w : world) (name : bytes)
    (lag0 : N) (lags : list N) :
  stdout_credit w = None ->
  tmp_name E = Some name ->
  clock w = lag0 :: lags ->
  negotiate E wait_for w
  = poll E (S (length lags)) (clock_seconds E (now w + lag0)) wait_for [] ∅
      (set_frames (frames w ++ [(probe_1, standard_b64encode (b "abcd"));
                                (probe_2, standard_b64encode name)])
         (set_stdout (stdout w
                        ++ frame_bytes (probe_1, standard_b64encode (b "abcd"))
                        ++ frame_bytes (probe_2, standard_b64encode name)) None
            (set_clock lags (set_now (now w + lag0) w)))).
Proof.
  intros Hc Htmp Hclock. unfold negotiate.
  erewrite bind_Ret by (unfold monotonic; rewrite Hclock; reflexivity).
  unfold NamedTemporaryFile. rewrite Htmp.
  erewrite bind_Ret by reflexivity.
  erewrite bind_Ret by (apply write_gr_cmd_exact; [exact Hc | reflexivity]).
  erewrite bind_Ret by (apply write_gr_cmd_exact; reflexivity).
  erewrite bind_Ret by reflexivity.
  destruct w; cbn in Hc |- *; subst. cbn. rewrite <- !app_assoc. reflexivity.
Qed.


Lemma Forall_forallb {A} (f : A -> bool) (l : list A) :
  forallb f l = true -> Forall (fun x => f x = true) l.
Proof.
  intros H. apply List.Forall_forall. intros x Hx.
  exact (proj1 (forallb_forall f l) H x Hx).
Qed.



(** ** Driver *)

(** [screen_size()] answers with the reported geometry and changes the
    cache only. *)
Lemma screen_size_reported (w : world) (sz : Size.t) :
  reported_size w = Some sz ->
  exists w',
    screen_size false w = (Ret sz, w')
    /\ stdout w' = stdout w /\ frames w' = frames w
    /\ decoded w' = decoded w /\ stdin_attr w' = stdin_attr w
    /\ stdin_fl w' = stdin_fl w /\ clock w' = clock w
    /\ stdin_events w' = stdin_events w.
Proof.
  unfold reported_size, screen_size. intros H. step.
  destruct (screen_size_ans w) as [cached |] eqn:Hc.
  - inversion H; subst cached. exists w. repeat split; reflexivity.
  - exists (set_screen_size_ans (Some sz) w). split.
    + unfold bind, ioctl_TIOCGWINSZ. rewrite H. reflexivity.
    + repeat split; reflexivity.
Qed.

(** C8, as the code has it: on a terminal (both streams), a reported
    pixel width of zero ends [main] with the size error before the
    arguments are parsed: nothing is written, no probe is sent, the
    terminal is not touched, no image is opened. *)
Theorem main_fails_fast_on_zero_pixel_width (E : env) (args : list string)
    (w : world) (sz : Size.t) :
  stdout_isatty w = true ->
  stdin_isatty w = true ->
  reported_size w = Some sz ->
  Size.width sz = 0 ->
  exists w',
    main E args w = (Exc size_unsupported, w')
    /\ stdout w' = stdout w /\ frames w' = frames w
    /\ decoded w' = decoded w /\ stdin_attr w' = stdin_attr w
    /\ stdin_fl w' = stdin_fl w /\ clock w' = clock w
    /\ stdin_events w' = stdin_events w.
Proof.
  intros Hout Hin Hsz Hw0.
  destruct (screen_size_reported
              (set_sigwinch (Some (Lambda 0 true)) w) sz Hsz)
    as (w' & Hss & Hsame).
  exists w'. split.
  - unfold main. do 3 step.
    cbn [stdout_isatty stdin_isatty set_sigwinch]. rewrite Hout, Hin. cbn [negb orb].
    erewrite bind_Ret by exact Hss.
    rewrite Hw0. reflexivity.
  - destruct Hsame as (H1 & H2 & H3 & H4 & H5 & H6 & H7).
    repeat split; assumption.
Qed.

(** A terminal of 50 x 100 cells that reports no pixel size. *)
Lemma main_fails_fast_on_zero_pixel_width_witness :
  exists w',
    main (Run.library false) ["icat"; "x.png"]%string
         (Run.terminal (Size.Make 50 100 0 0) None [] [])
      = (Exc size_unsupported, w')
    /\ stdout w' = [] /\ frames w' = [] /\ decoded w' = [].
Proof.
  destruct (main_fails_fast_on_zero_pixel_width (Run.library false)
              ["icat"; "x.png"]%string
              (Run.terminal (Size.Make 50 100 0 0) None [] [])
              (Size.Make 50 100 0 0) eq_refl eq_refl eq_refl eq_refl)
    as (w' & Hrun & Ho & Hf & Hd & _).
  exists w'. repeat split; assumption.
Defined.

(** C8, as stated, fails: with a pixel height of zero and a pixel width
    of 1000, [main] negotiates, opens [x.png] and transmits it. And with
    no pixel width but standard input from a pipe, the error is the one
    about the terminal. *)
Lemma main_runs_on_zero_pixel_height :
  (let run := main (Run.library false) ["icat"; "x.png"]%string Run.no_pixel_height in
   reported_size (snd run) = Some (Size.Make 50 100 1000 0)
   /\ fst run = Ret tt
   /\ fst run <> Exc size_unsupported
   /\ decoded (snd run) = ["x.png"%string]
   /\ length (frames (snd run)) = 3%nat)
  /\ (let run := main (Run.library false) ["icat"; "x.png"]%string Run.piped_input in
      reported_size Run.piped_input = Some (Size.Make 50 100 0 0)
      /\ fst run
         = Exc (SystemExit "Must be run in a terminal, stdout is currently not a terminal")
      /\ fst run <> Exc size_unsupported).
Proof.
  vm_compute. repeat split; try reflexivity; discriminate.
Qed.

(** C9: [pics] holds [a.png] and [b.png]. The scan finds both; the decoder
    is handed [pics] for each, and never a file. With the decoder that
    refuses a directory the first call fails and ends the scan of [pics]. *)
Theorem main_decodes_directory_root :
  scan (Run.library true) "pics"
    = [("pics/a.png", "image/png"); ("pics/b.png", "image/png")]%string
  /\ decoded (snd (main (Run.library true) ["icat"; "pics"]%string Run.supporting))
     = ["pics"; "pics"]%string
  /\ decoded (snd (main (Run.library false) ["icat"; "pics"]%string Run.supporting))
     = ["pics"%string]
  /\ fst (main (Run.library false) ["icat"; "pics"]%string Run.supporting)
     = Exc (SystemExitCode 1)
  /\ stderr (snd (main (Run.library false) ["icat"; "pics"]%string Run.supporting))
     = ["Failed to open: pics with error: cannot identify image file"%string].
Proof.
  vm_compute. repeat split; reflexivity.
Qed.

(** *** Which paths reach the decoder *)

Lemma keeps_ret {A} (a : A) : keeps_decoded (ret a).
Proof. intros w r w' H. inversion H. reflexivity. Qed.

Lemma keeps_raise {A} (e : exn) : keeps_decoded (@raise A e).
Proof. intros w r w' H. inversion H. reflexivity. Qed.

Lemma keeps_lift {A} (x : result A) : keeps_decoded (lift x).
Proof. destruct x; [apply keeps_ret | apply keeps_raise]. Qed.

Lemma keeps_get {A} (f : world -> A) : keeps_decoded (get f).
Proof. intros w r w' H. inversion H. reflexivity. Qed.

Lemma keeps_modify (f : world -> world) :
  (forall w, decoded (f w) = decoded w) -> keeps_decoded (modify f).
Proof. intros Hf w r w' H. inversion H. apply Hf. Qed.

Lemma keeps_bind {A B} (m : M A) (k : A -> M B) :
  keeps_decoded m -> (forall a, keeps_decoded (k a)) -> keeps_decoded (bind m k).
Proof.
  intros Hm Hk w r w' H. unfold bind in H.
  destruct (m w) as [[a | e |] w1] eqn:E1.
  - rewrite (Hk a _ _ _ H). exact (Hm _ _ _ E1).
  - inversion H; subst. exact (Hm _ _ _ E1).
  - inversion H; subst. exact (Hm _ _ _ E1).
Qed.

Lemma keeps_try_finally {A} (body : M A) (cleanup : M unit) :
  keeps_decoded body -> keeps_decoded cleanup -> keeps_decoded (try_finally body cleanup).
Proof.
  intros Hb Hc w r w' H. unfold try_finally in H.
  destruct (body w) as [rb w1] eqn:E1. pose proof (Hb _ _ _ E1) as H1.
  destruct rb as [a | e |]; [| | inversion H; subst; exact H1];
    (destruct (cleanup w1) as [[u | e' |] w2] eqn:E2;
     pose proof (Hc _ _ _ E2) as H2; inversion H; subst; congruence).
Qed.

Lemma keeps_stdout_write (bs : bytes) : keeps_decoded (stdout_write bs).
Proof.
  intros w r w' H. unfold stdout_write in H.
  destruct (stdout_credit w) as [[| n] |]; inversion H; reflexivity.
Qed.

Ltac keeps :=
  repeat first
    [ apply keeps_ret | apply keeps_raise | apply keeps_lift | apply keeps_get
    | apply keeps_stdout_write
    | apply keeps_modify; intros; reflexivity
    | apply keeps_bind; [| intros ?]
    | apply keeps_try_finally ].

Lemma keeps_write_gr_cmd (cmd : dict) (payload : bytes) :
  keeps_decoded (write_gr_cmd cmd payload).
Proof. unfold write_gr_cmd, stdout_flush, log_frame. keeps. Qed.

Lemma keeps_write_chunks (fuel : nat) :
  forall cmd data, keeps_decoded (write_chunks fuel cmd data).
Proof.
  induction fuel as [| fuel IH]; intros cmd data; cbn [write_chunks];
    destruct (nonempty data); try apply keeps_ret.
  - intros w r w' H. inversion H. reflexivity.
  - apply keeps_bind; [apply keeps_write_gr_cmd | intros _; apply IH].
Qed.

Lemma keeps_write_chunked (E : env) (mode : string) (cmd : dict) (data : bytes) :
  keeps_decoded (write_chunked E mode cmd data).
Proof.
  unfold write_chunked. destruct (negb (String.eqb mode "PNG")); apply keeps_write_chunks.
Qed.

Lemma keeps_screen_size (refresh : bool) : keeps_decoded (screen_size refresh).
Proof.
  unfold screen_size. apply keeps_bind; [apply keeps_get | intros ans].
  assert (Hio : keeps_decoded ioctl_TIOCGWINSZ).
  { intros w r w' H. unfold ioctl_TIOCGWINSZ in H.
    destruct (tty_winsize w); inversion H; reflexivity. }
  destruct refresh, ans; keeps; exact Hio.
Qed.

Lemma keeps_set_cursor (cmd : dict) (width height : Z) :
  keeps_decoded (set_cursor cmd width height).
Proof.
  unfold set_cursor.
  apply keeps_bind; [apply keeps_screen_size | intros ss].
  apply keeps_bind; [apply keeps_lift | intros cw].
  apply keeps_bind; [apply keeps_lift | intros cells].
  destruct (Size.cols ss <? cells).
  - keeps.
  - apply keeps_bind; [| intros _; apply keeps_ret].
    destruct (_ =? 0); keeps.
Qed.

Lemma keeps_show (E : env) (data : bytes) (mode : string) (width height : Z) :
  keeps_decoded (show E data mode width height).
Proof.
  unfold show.
  apply keeps_bind; [apply keeps_lift | intros cmd].
  apply keeps_bind; [apply keeps_set_cursor | intros cmd'].
  apply keeps_bind; [apply keeps_write_chunked | intros _; apply keeps_ret].
Qed.

Lemma keeps_tcgetattr : keeps_decoded tcgetattr.
Proof.
  unfold tcgetattr. apply keeps_bind; [apply keeps_get | intros [|]; keeps].
Qed.

Lemma keeps_tcsetattr (mode : termios) : keeps_decoded (tcsetattr mode).
Proof.
  unfold tcsetattr. apply keeps_bind; [apply keeps_get | intros [|]; keeps].
Qed.

Lemma keeps_monotonic (E : env) : keeps_decoded (monotonic E).
Proof.
  intros w r w' H. unfold monotonic in H. destruct (clock w); inversion H; reflexivity.
Qed.

Lemma keeps_select (timeout : Float.float) : keeps_decoded (select timeout).
Proof.
  intros w r w' H. unfold select in H.
  destruct (stdin_events w) as [| [| after [| c d] |] rest]; inversion H; reflexivity.
Qed.

Lemma keeps_poll (E : env) (fuel : nat) :
  forall start wait_for received (responses : gmap Z bool),
    keeps_decoded (poll E fuel start wait_for received responses).
Proof.
  induction fuel as [| fuel IH]; intros start wait_for received responses; cbn [poll].
  - intros w r w' H. inversion H. reflexivity.
  - apply keeps_bind; [apply keeps_monotonic |].
    intros now. destruct (keep_polling now start wait_for responses); [| apply keeps_ret].
    apply keeps_bind; [apply keeps_select |].
    intros [| after d |]; [apply IH | | apply keeps_raise].
    destruct (read d received responses). apply IH.
Qed.

Lemma keeps_detect_support (E : env) (wait_for : Z) :
  keeps_decoded (detect_support E wait_for).
Proof.
  unfold detect_support, fcntl_F_GETFL, fcntl_F_SETFL, setraw, stdout_flush.
  apply keeps_bind; [apply keeps_tcgetattr | intros old].
  apply keeps_bind; [apply keeps_get | intros oldfl].
  do 3 (apply keeps_bind; [keeps | intros _]).
  apply keeps_bind.
  { apply keeps_bind; [apply keeps_tcgetattr | intros mode; apply keeps_tcsetattr]. }
  intros _.
  apply keeps_bind; [| intros responses; keeps].
  apply keeps_try_finally.
  - unfold negotiate, NamedTemporaryFile.
    apply keeps_bind; [apply keeps_monotonic |].
    intros start. apply keeps_bind; [destruct (tmp_name E); keeps | intros name].
    do 2 (apply keeps_bind; [apply keeps_write_gr_cmd | intros _]).
    apply keeps_bind; [apply keeps_get | intros turns]. apply keeps_poll.
  - unfold restore_terminal, stdout_flush, fcntl_F_SETFL.
    do 2 (apply keeps_bind; [keeps | intros _]).
    apply keeps_bind; [apply keeps_tcsetattr | intros _; keeps].
Qed.

Lemma decodes_only_keeps {A} (paths : list string) (m : M A) :
  keeps_decoded m -> decodes_only paths m.
Proof.
  intros Hm w r w' H. exists []. rewrite app_nil_r. split; [exact (Hm _ _ _ H) | constructor].
Qed.

Lemma decodes_only_bind {A B} (paths : list string) (m : M A) (k : A -> M B) :
  decodes_only paths m -> (forall a, decodes_only paths (k a)) ->
  decodes_only paths (bind m k).
Proof.
  intros Hm Hk w r w' H. unfold bind in H.
  destruct (m w) as [[a | e |] w1] eqn:E1; destruct (Hm _ _ _ E1) as (l1 & D1 & F1).
  - destruct (Hk a _ _ _ H) as (l2 & D2 & F2).
    exists (l1 ++ l2). rewrite D2, D1, app_assoc. split; [reflexivity |].
    apply Forall_app. split; assumption.
  - inversion H; subst. exists l1. split; assumption.
  - inversion H; subst. exists l1. split; assumption.
Qed.

Lemma decodes_only_weaken {A} (paths paths' : list string) (m : M A) :
  (forall p, In p paths -> In p paths') -> decodes_only paths m -> decodes_only paths' m.
Proof.
  intros Hsub Hm w r w' H. destruct (Hm _ _ _ H) as (l & D & F).
  exists l. split; [exact D |]. revert F. apply List.Forall_impl. exact Hsub.
Qed.

Lemma decodes_only_note (path : string) : decodes_only [path] (note_decoded path).
Proof.
  intros w r w' H. inversion H. exists [path]. split; [reflexivity |].
  constructor; [left; reflexivity | constructor].
Qed.

(** [process(path, mt)] hands [path], and nothing else, to the decoder. *)
Lemma process_decodes_its_path (E : env) (path mt : string) :
  decodes_only [path] (process E path mt).
Proof.
  unfold process. apply decodes_only_bind.
  - destruct (String.eqb mt "image/svg+xml").
    + apply decodes_only_bind; [| intros data; apply decodes_only_keeps, keeps_ret].
      unfold convert_svg. apply decodes_only_bind; [apply decodes_only_note | intros _].
      apply decodes_only_keeps. destruct (rsvg_convert E path); keeps.
    + destruct (negb (pil_installed E)); [apply decodes_only_keeps, keeps_raise |].
      apply decodes_only_bind; [apply decodes_only_note | intros _].
      apply decodes_only_keeps. destruct (image_open E path); keeps.
  - intros [[[data mode] width] height].
    apply decodes_only_keeps.
    apply keeps_bind; [apply keeps_show | intros _; apply keeps_stdout_write].
Qed.

Lemma for_each_decodes_only {A} (paths : list string) (l : list A) (body : A -> M unit) :
  (forall x, decodes_only paths (body x)) -> decodes_only paths (for_each l body).
Proof.
  intros Hb. induction l as [| x l IH]; cbn [for_each].
  - apply decodes_only_keeps, keeps_ret.
  - apply decodes_only_bind; [apply Hb | intros _; exact IH].
Qed.

(** An item, file or directory, brings only itself to the decoder: the
    files found in a directory never get there. *)
Lemma process_item_decodes_the_item (E : env) (item : string)
    (errors : list (string * string)) :
  decodes_only [item] (process_item E item errors).
Proof.
  unfold process_item, try_except_OpenFailed. intros w r w' H.
  match type of H with
  | context [bind ?m ?k] => set (body := bind m k) in H
  end.
  assert (Hbody : decodes_only [item] body).
  { subst body. apply decodes_only_bind; [| intros _; apply decodes_only_keeps, keeps_ret].
    destruct (isdir E item).
    - apply for_each_decodes_only. intros [x mt]. apply process_decodes_its_path.
    - apply process_decodes_its_path. }
  destruct (body w) as [rb w1] eqn:E1. destruct (Hbody _ _ _ E1) as (l & D & F).
  destruct rb as [a | e |]; [| destruct e |];
    inversion H; subst; exists l; split; assumption.
Qed.

Lemma process_items_decodes_items (E : env) (items : list string) :
  forall errors, decodes_only items (process_items E items errors).
Proof.
  induction items as [| item items IH]; intros errors; cbn [process_items].
  - apply decodes_only_keeps, keeps_ret.
  - apply decodes_only_bind.
    + eapply decodes_only_weaken; [| apply process_item_decodes_the_item].
      intros p [<- | []]. left. reflexivity.
    + intros errors'. eapply decodes_only_weaken; [| apply IH].
      intros p Hp. right. exact Hp.
Qed.

(** X30. Whatever the directories hold, [main] hands the decoder nothing but
    the items of the command line. *)
Lemma main_decodes_only_items (E : env) (args items : list string) :
  parse_args E (tl args) = Ok items ->
  decodes_only items (main E args).
Proof.
  intros Hargs. unfold main.
  apply decodes_only_bind; [apply decodes_only_keeps; keeps | intros _].
  apply decodes_only_bind; [apply decodes_only_keeps, keeps_get | intros out_tty].
  apply decodes_only_bind; [apply decodes_only_keeps, keeps_get | intros in_tty].
  destruct (negb out_tty || negb in_tty); [apply decodes_only_keeps, keeps_raise |].
  apply decodes_only_bind; [apply decodes_only_keeps, keeps_screen_size | intros ss].
  destruct (Size.width ss =? 0); [apply decodes_only_keeps, keeps_raise |].
  rewrite Hargs.
  match goal with
  | |- decodes_only _ (bind (lift (Ok items)) ?k) => change (decodes_only items (k items))
  end.
  cbv beta.
  destruct (negb (nonempty items)); [apply decodes_only_keeps, keeps_raise |].
  apply decodes_only_bind; [apply decodes_only_keeps, keeps_detect_support | intros ok].
  destruct (negb ok); [apply decodes_only_keeps, keeps_raise |].
  apply decodes_only_bind; [apply process_items_decodes_items | intros errors].
  apply decodes_only_keeps.
  destruct (negb (nonempty errors)); [apply keeps_ret |].
  apply keeps_bind; [| intros _; apply keeps_raise].
  induction errors as [| err errors IH]; cbn [for_each]; [apply keeps_ret |].
  apply keeps_bind; [| intros _; exact IH].
  unfold print_stderr. apply keeps_modify. intros; reflexivity.
Qed.

(** ** Signals *)

Lemma handler_without_parameters_raises (w : world) (refresh : bool) :
  sigwinch w = Some (Lambda 0 refresh) ->
  deliver_SIGWINCH w = (Exc TypeError, w).
Proof.
  intros H. unfold deliver_SIGWINCH, bind, get. rewrite H. reflexivity.
Qed.

(** C10: [main] installs a handler without parameters. After a resize to
    24 x 80 cells the delivery of SIGWINCH calls it with two arguments:
    the call raises [TypeError] and the cached geometry stays the old one.
    A handler with two parameters would have refreshed it. *)
Theorem sigwinch_handler_raises_TypeError :
  let w := snd (main (Run.library false) ["icat"; "x.png"]%string Run.supporting) in
  let resized := resize (Size.Make 24 80 640 384) w in
  sigwinch w = Some (Lambda 0 true)
  /\ screen_size_ans w = Some Run.geometry
  /\ deliver_SIGWINCH resized = (Exc TypeError, resized)
  /\ screen_size_ans (snd (deliver_SIGWINCH resized)) = Some Run.geometry
  /\ screen_size_ans (snd (call (Lambda 2 true) 2 resized))
     = Some (Size.Make 24 80 640 384).
Proof.
  vm_compute. repeat split; reflexivity.
Qed.

(** * Further properties *)

(** ** binary64: the quotient of two integers

    [a / b] on two [int]s below [2^53] lies strictly within one unit in
    the last place of the exact quotient, which is enough for [int], [floor]
    and [ceil] of it to be the exact integer quotients when [a < 2^52]. *)

Lemma binary_round_aux_even (p : positive) (e : Z) :
  Z.pos (digits2_pos p) = 53 -> -1074 <= e + 1 -> e + 1 <= 971 ->
  binary_round_aux Float.prec Float.emax false (Z.pos p~0) e loc_Exact
  = S754_finite false p (e + 1).
Proof.
  intros Hd Hlo Hhi. unfold binary_round_aux.
  assert (Hs : shr_fexp Float.prec Float.emax (Z.pos p~0) e loc_Exact
               = (Build_shr_record (Z.pos p) false false, e + 1)).
  { unfold shr_fexp. cbn [Zdigits2 digits2_pos]. rewrite Pos2Z.inj_succ, Hd.
    rewrite fexp_normal by lia.
    replace (Z.succ 53 + e - 53 - e) with 1 by lia. reflexivity. }
  rewrite Hs. cbn [shr_m loc_of_shr_record round_nearest_even].
  assert (Hs2 : shr_fexp Float.prec Float.emax (Z.pos p) (e + 1) loc_Exact
                = (Build_shr_record (Z.pos p) false false, e + 1)).
  { unfold shr_fexp. cbn [Zdigits2]. rewrite Hd, fexp_normal by lia.
    replace (53 + (e + 1) - 53 - (e + 1)) with 0 by lia. reflexivity. }
  rewrite Hs2. cbn [shr_m].
  assert (Hle : (e + 1 <=? Float.emax - Float.prec) = true)
    by (apply Z.leb_le; unfold Float.emax, Float.prec; lia).
  rewrite Hle. reflexivity.
Qed.

(** Rounding a quotient of 53 or 54 bits: it is rounded up only when
    something was lost. *)
Lemma binary_round_aux_quotient (pq : positive) (ex : Z) (lx : location) :
  let d := Z.pos (digits2_pos pq) in
  53 <= d <= 54 -> -1074 <= d + ex - 53 -> d + ex - 53 < 971 ->
  exists m' e',
    binary_round_aux Float.prec Float.emax false (Z.pos pq) ex lx = S754_finite false m' e'
    /\ Z.pos (digits2_pos m') = 53
    /\ ex + (d - 53) <= e'
    /\ (Z.pos m' * 2 ^ (e' - (ex + (d - 53))) = Z.pos pq / 2 ^ (d - 53)
        \/ (Z.pos m' * 2 ^ (e' - (ex + (d - 53))) = Z.pos pq / 2 ^ (d - 53) + 1
            /\ (lx <> loc_Exact \/ Z.pos pq mod 2 ^ (d - 53) <> 0))).
Proof.
  intros d Hd Hlo Hhi.
  destruct (binary_round_aux_normal pq ex lx) as (m' & e' & Hres & Hd' & He' & Hval);
    fold d; [lia | lia | lia |].
  fold d in He', Hval.
  exists m', e'. split; [exact Hres |]. split; [exact Hd' |]. split; [exact He' |].
  destruct Hval as [Hval | Hval]; [left; exact Hval |].
  destruct lx as [| c]; [| right; split; [exact Hval | left; discriminate]].
  destruct (Z.eq_dec (Z.pos pq mod 2 ^ (d - 53)) 0) as [Hmod | Hmod];
    [| right; split; [exact Hval | right; exact Hmod]].
  left.
  assert (Hcases : d = 53 \/ d = 54) by lia.
  destruct Hcases as [E | E].
  - rewrite binary_round_aux_exact in Hres by (fold d; lia).
    injection Hres as <- <-.
    rewrite E. replace (ex - (ex + (53 - 53))) with 0 by lia.
    change (2 ^ (53 - 53)) with 1. rewrite Z.pow_0_r, Z.mul_1_r, Z.div_1_r. reflexivity.
  - rewrite E in Hmod. change (2 ^ (54 - 53)) with 2 in Hmod.
    destruct pq as [p | p |].
    + exfalso. rewrite (Pos2Z.inj_xI p) in Hmod. Z.div_mod_to_equations. lia.
    + assert (Hdp : Z.pos (digits2_pos p) = 53).
      { subst d. cbn [digits2_pos] in E. rewrite Pos2Z.inj_succ in E. lia. }
      rewrite binary_round_aux_even in Hres by lia.
      injection Hres as <- <-.
      rewrite E. replace (ex + 1 - (ex + (54 - 53))) with 0 by lia.
      change (2 ^ (54 - 53)) with 2. rewrite Z.pow_0_r, Z.mul_1_r.
      rewrite (Pos2Z.inj_xO p). Z.div_mod_to_equations. lia.
    + subst d. cbn in E. lia.
Qed.

Lemma new_location_zero (n : Z) : new_location n 0 = loc_Exact.
Proof.
  unfold new_location, new_location_even, new_location_odd.
  destruct (Z.even n); reflexivity.
Qed.

(** The quotient of two positive integers below [2^53]. *)
Lemma SFdiv_int (pa pb : positive) :
  Z.pos pa < 2 ^ 53 -> Z.pos pb < 2 ^ 53 ->
  exists mc ec E1 Q1,
    SFdiv Float.prec Float.emax (S754_finite false pa 0) (S754_finite false pb 0)
    = S754_finite false mc ec
    /\ E1 <= ec /\ Z.pos mc * 2 ^ (ec - E1) = Q1
    /\ E1 <= Z.pos (digits2_pos pa) - Z.pos (digits2_pos pb) - 52
    /\ -200 <= E1
    /\ 2 ^ 52 <= Q1
    /\ ((Q1 - 1) * Z.pos pb) * 2 ^ (E1 + 200) < Z.pos pa * 2 ^ 200
    /\ Z.pos pa * 2 ^ 200 < ((Q1 + 1) * Z.pos pb) * 2 ^ (E1 + 200).
Proof.
  intros Ha Hb.
  pose proof (digits_bounds pa) as Ba. pose proof (digits_bounds pb) as Bb.
  set (da := Z.pos (digits2_pos pa)) in *. set (db := Z.pos (digits2_pos pb)) in *.
  assert (Hda : 1 <= da <= 53).
  { split; [subst da; lia | apply digits_below; lia]. }
  assert (Hdb : 1 <= db <= 53).
  { split; [subst db; lia | apply digits_below; lia]. }
  unfold SFdiv, SFdiv_core_binary. cbn [Zdigits2 xorb]. fold da db.
  rewrite !Z.add_0_r, Z.sub_0_r.
  rewrite fexp_normal by lia.
  replace (Z.min (da - db - 53) 0) with (da - db - 53) by lia.
  set (s := 0 - (da - db - 53)).
  assert (Hs : 0 < s) by (subst s; lia).
  destruct s as [| ps | ps] eqn:Es; [lia | | lia].
  rewrite <- Es. clear Es.
  rewrite Z.shiftl_mul_pow2 by lia.
  set (a := Z.pos pa * 2 ^ s).
  assert (Hq : Z.div_eucl a (Z.pos pb) = (a / Z.pos pb, a mod Z.pos pb)).
  { unfold Z.div, Z.modulo. destruct (Z.div_eucl a (Z.pos pb)); reflexivity. }
  rewrite Hq.
  pose proof (pow2_pos s ltac:(lia)) as Hps.
  assert (Ealo : 2 ^ (da - 1) * 2 ^ s = 2 ^ 52 * 2 ^ db).
  { rewrite <- !Z.pow_add_r by lia. f_equal. lia. }
  assert (Eahi : 2 ^ da * 2 ^ s = 2 ^ 54 * 2 ^ (db - 1)).
  { rewrite <- !Z.pow_add_r by lia. f_equal. lia. }
  assert (Halo : 2 ^ 52 * 2 ^ db <= a).
  { subst a. rewrite <- Ealo. apply Z.mul_le_mono_nonneg_r; lia. }
  assert (Hahi : a < 2 ^ 54 * 2 ^ (db - 1)).
  { subst a. rewrite <- Eahi. apply Z.mul_lt_mono_pos_r; lia. }
  assert (Hqlo : 2 ^ 52 <= a / Z.pos pb).
  { apply Z.div_le_lower_bound; [lia |].
    assert (Z.pos pb * 2 ^ 52 <= 2 ^ db * 2 ^ 52) by (apply Z.mul_le_mono_nonneg_r; lia).
    lia. }
  assert (Hqhi : a / Z.pos pb < 2 ^ 54).
  { apply Z.div_lt_upper_bound; [lia |].
    assert (2 ^ (db - 1) * 2 ^ 54 <= Z.pos pb * 2 ^ 54) by (apply Z.mul_le_mono_nonneg_r; lia).
    lia. }
  pose proof (Z.div_mod a (Z.pos pb) ltac:(lia)) as Hdm.
  pose proof (Z.mod_pos_bound a (Z.pos pb) ltac:(lia)) as Hr.
  set (r := a mod Z.pos pb) in *.
  destruct (a / Z.pos pb) as [| pq | pq] eqn:Eq;
    [change (2 ^ 52) with 4503599627370496 in Hqlo; lia | | lia].
  set (d := Z.pos (digits2_pos pq)).
  assert (Hd : 53 <= d <= 54).
  { pose proof (digits_bounds pq) as [Dlo Dhi]. fold d in Dlo, Dhi.
    split.
    - destruct (Z.le_gt_cases 53 d) as [H | H]; [exact H | exfalso].
      assert (2 ^ d <= 2 ^ 52) by (apply Z.pow_le_mono_r; lia). lia.
    - destruct (Z.le_gt_cases d 54) as [H | H]; [exact H | exfalso].
      assert (2 ^ 54 <= 2 ^ (d - 1)) by (apply Z.pow_le_mono_r; lia). lia. }
  destruct (binary_round_aux_quotient pq (da - db - 53) (new_location (Z.pos pb) r))
    as (mc & ec & Hres & Hdc & Hec & Hval); fold d; [lia | lia | lia |].
  fold d in Hec, Hval.
  pose proof (leading_bits pq) as Hlead. cbv zeta in Hlead. fold d in Hlead.
  specialize (Hlead ltac:(lia)).
  set (E1 := da - db - 53 + (d - 53)) in *.
  exists mc, ec, E1, (Z.pos mc * 2 ^ (ec - E1)).
  split; [exact Hres |]. split; [exact Hec |]. split; [reflexivity |].
  split; [subst E1; lia |]. split; [subst E1; lia |].
  set (Q1 := Z.pos mc * 2 ^ (ec - E1)) in *.
  set (k := 2 ^ (d - 53)) in *.
  assert (Hk : 0 < k) by (apply pow2_pos; lia).
  set (qq := Z.pos pq / k) in *.
  pose proof (Z.div_mod (Z.pos pq) k ltac:(lia)) as Hdm2. fold qq in Hdm2.
  pose proof (Z.mod_pos_bound (Z.pos pq) k Hk) as Hr2.
  set (q0 := Z.pos pq mod k) in *.
  split; [lia |].
  (* a = (qq * k + q0) * pb + r *)
  assert (HA : a = qq * (Z.pos pb * k) + (q0 * Z.pos pb + r)).
  { rewrite Hdm, Hdm2. ring. }
  assert (Hrest : 0 <= q0 * Z.pos pb + r < Z.pos pb * k).
  { split; [assert (0 <= q0 * Z.pos pb) by (apply Z.mul_nonneg_nonneg; lia); lia |].
    assert (q0 * Z.pos pb <= (k - 1) * Z.pos pb) by (apply Z.mul_le_mono_nonneg_r; lia).
    lia. }
  assert (Hscale : 2 ^ s = k * 2 ^ (- E1)).
  { subst k E1 s. rewrite <- Z.pow_add_r by lia. f_equal. lia. }
  assert (H200 : 2 ^ 200 = 2 ^ (- E1) * 2 ^ (E1 + 200)).
  { subst E1. rewrite <- Z.pow_add_r by lia. f_equal. lia. }
  assert (HK : 0 < 2 ^ (- E1)) by (apply pow2_pos; subst E1; lia).
  assert (HW : 0 < 2 ^ (E1 + 200)) by (apply pow2_pos; subst E1; lia).
  (* strictly between (Q1 - 1) D and (Q1 + 1) D *)
  assert (Hstrict : (Q1 - 1) * (Z.pos pb * k) < a < (Q1 + 1) * (Z.pos pb * k)).
  { set (D := Z.pos pb * k) in *.
    assert (HD : 0 < D) by (subst D; lia).
    destruct Hval as [Hval | [Hval Hlost]].
    - assert (Q1 = qq) by exact Hval.
      assert ((Q1 - 1) * D < qq * D) by (apply Z.mul_lt_mono_pos_r; lia).
      assert (qq * D + D = (Q1 + 1) * D) by (subst Q1; rewrite Hval; ring).
      lia.
    - assert (HQ : Q1 = qq + 1) by exact Hval.
      assert (Hpos : 0 < q0 * Z.pos pb + r).
      { destruct Hlost as [Hloc | Hq0].
        - destruct (Z.eq_dec r 0) as [Hr0 | Hr0].
          + exfalso. apply Hloc. rewrite Hr0. apply new_location_zero.
          + assert (0 <= q0 * Z.pos pb) by (apply Z.mul_nonneg_nonneg; lia). lia.
        - assert (1 * Z.pos pb <= q0 * Z.pos pb)
            by (apply Z.mul_le_mono_nonneg_r; fold q0 in Hq0; lia).
          lia. }
      assert ((Q1 - 1) * D = qq * D) by (rewrite HQ; ring).
      assert ((Q1 + 1) * D = qq * D + 2 * D) by (rewrite HQ; ring).
      lia. }
  (* divide by k, multiply by 2^(E1+200) *)
  assert (Hmid : (Q1 - 1) * Z.pos pb < Z.pos pa * 2 ^ (- E1) < (Q1 + 1) * Z.pos pb).
  { subst a. rewrite Hscale in Hstrict.
    replace (Z.pos pa * (k * 2 ^ (- E1))) with (Z.pos pa * 2 ^ (- E1) * k) in Hstrict by ring.
    replace ((Q1 - 1) * (Z.pos pb * k)) with ((Q1 - 1) * Z.pos pb * k) in Hstrict by ring.
    replace ((Q1 + 1) * (Z.pos pb * k)) with ((Q1 + 1) * Z.pos pb * k) in Hstrict by ring.
    destruct Hstrict as [S1 S2].
    split; apply (Z.mul_lt_mono_pos_r k); assumption. }
  rewrite H200.
  replace (Z.pos pa * (2 ^ (- E1) * 2 ^ (E1 + 200)))
    with (Z.pos pa * 2 ^ (- E1) * 2 ^ (E1 + 200)) by ring.
  destruct Hmid as [M1 M2].
  split; apply Z.mul_lt_mono_pos_r; assumption.
Qed.

Lemma trunc_normal (mp : positive) (ep E2 Q2 : Z) :
  E2 <= ep -> E2 < 0 -> Z.pos mp * 2 ^ (ep - E2) = Q2 ->
  Float.trunc (S754_finite false mp ep) = Ok (Q2 / 2 ^ (- E2)).
Proof.
  intros Hle Hneg HQ.
  pose proof (floor_normal mp ep E2 Q2 Hle Hneg HQ) as Hf.
  unfold Float.trunc. unfold Float.floor in Hf.
  destruct (Z.leb_spec 0 ep) as [Hep | Hep]; [exact Hf |].
  rewrite Z.quot_div_nonneg; [exact Hf | lia | apply pow2_pos; lia].
Qed.

Lemma ceil_normal (mp : positive) (ep E2 Q2 : Z) :
  E2 <= ep -> E2 < 0 -> Z.pos mp * 2 ^ (ep - E2) = Q2 ->
  Float.ceil (S754_finite false mp ep) = Ok (- (- Q2 / 2 ^ (- E2))).
Proof.
  intros Hle Hneg HQ. unfold Float.ceil. f_equal. subst Q2.
  destruct (Z.leb_spec 0 ep) as [Hep | Hep].
  - replace (ep - E2) with (ep + - E2) by lia.
    rewrite Z.pow_add_r by lia. rewrite Z.mul_assoc.
    rewrite <- Z.mul_opp_l.
    rewrite Z.div_mul; [lia |]. pose proof (pow2_pos (- E2)). lia.
  - replace (- E2) with (- ep + (ep - E2)) by lia.
    rewrite Z.pow_add_r by lia.
    rewrite <- Z.mul_opp_l.
    rewrite Z.div_mul_cancel_r; [reflexivity | |];
      [pose proof (pow2_pos (- ep)) | pose proof (pow2_pos (ep - E2))]; lia.
Qed.

(** A value [Q / K] strictly within [1 / K] of [a / b] has the integer
    part and the ceiling of [a / b], when [K] is large enough to separate
    [a / b] from the integers next to it. *)
Lemma quotient_exact (a b Q K : Z) :
  0 < a < 2 ^ 52 -> 0 < b -> 0 < K -> 2 ^ 52 <= Q ->
  (Q - 1) * b < a * K < (Q + 1) * b ->
  Q / K = a / b /\ - (- Q / K) = - (- a / b).
Proof.
  intros Ha Hb HK HQ [Hlo Hhi].
  change (2 ^ 52) with 4503599627370496 in *.
  assert (HbK : b < K).
  { assert (4503599627370495 * b <= (Q - 1) * b) by (apply Z.mul_le_mono_nonneg_r; lia).
    assert (a * K <= 4503599627370495 * K) by (apply Z.mul_le_mono_nonneg_r; lia).
    lia. }
  split.
  - pose proof (Z.div_mod a b ltac:(lia)) as Hdm.
    pose proof (Z.mod_pos_bound a b Hb) as Hr.
    set (n := a / b) in *. set (t := a mod b) in *.
    assert (Hn : 0 <= n) by (subst n; apply Z.div_pos; lia).
    symmetry. apply (Z.div_unique_pos Q K n (Q - K * n)); [| ring].
    split.
    + destruct (Z.le_gt_cases (K * n) Q) as [H | H]; [lia | exfalso].
      assert ((Q + 1) * b <= K * n * b) by (apply Z.mul_le_mono_nonneg_r; lia).
      assert (b * n * K <= a * K) by (apply Z.mul_le_mono_nonneg_r; lia).
      replace (K * n * b) with (b * n * K) in * by ring. lia.
    + destruct (Z.lt_ge_cases Q (K * (n + 1))) as [H | H]; [lia | exfalso].
      assert ((K * (n + 1) - 1) * b <= (Q - 1) * b) by (apply Z.mul_le_mono_nonneg_r; lia).
      assert (a * K <= (b * (n + 1) - 1) * K) by (apply Z.mul_le_mono_nonneg_r; lia).
      replace ((K * (n + 1) - 1) * b) with (K * (n + 1) * b - b) in * by ring.
      replace ((b * (n + 1) - 1) * K) with (K * (n + 1) * b - K) in * by ring.
      lia.
  - pose proof (Z.div_mod (- a) b ltac:(lia)) as Hdm.
    pose proof (Z.mod_pos_bound (- a) b Hb) as Hr.
    set (n := - a / b) in *. set (t := (- a) mod b) in *.
    f_equal.
    symmetry. apply (Z.div_unique_pos (- Q) K n (- Q - K * n)); [| ring].
    split.
    + destruct (Z.le_gt_cases (K * n) (- Q)) as [H | H]; [lia | exfalso].
      assert (- (K * n) * b <= (Q - 1) * b) by (apply Z.mul_le_mono_nonneg_r; lia).
      assert (a * K <= - (b * n) * K) by (apply Z.mul_le_mono_nonneg_r; lia).
      replace (- (b * n) * K) with (- (K * n) * b) in * by ring. lia.
    + destruct (Z.lt_ge_cases (- Q) (K * (n + 1))) as [H | H]; [lia | exfalso].
      assert ((Q + 1) * b <= (- (K * (n + 1)) + 1) * b)
        by (apply Z.mul_le_mono_nonneg_r; lia).
      assert ((- (b * (n + 1)) + 1) * K <= a * K) by (apply Z.mul_le_mono_nonneg_r; lia).
      replace ((- (K * (n + 1)) + 1) * b) with (- (K * (n + 1) * b) + b) in * by ring.
      replace ((- (b * (n + 1)) + 1) * K) with (- (K * (n + 1) * b) + K) in * by ring.
      lia.
Qed.

(** [int(a / b)] and [ceil(a / b)] on two [int]s are the integer quotient
    and its ceiling. *)
Lemma int_truediv_exact (a b : Z) :
  0 <= a < 2 ^ 52 -> 0 < b < 2 ^ 53 ->
  exists q,
    Float.int_truediv a b = Ok q
    /\ Float.trunc q = Ok (a / b)
    /\ Float.ceil q = Ok (- (- a / b)).
Proof.
  intros Ha Hb. unfold Float.int_truediv.
  assert (Eb : (b =? 0) = false) by (apply Z.eqb_neq; lia). rewrite Eb.
  destruct b as [| pb | pb]; [lia | | lia].
  destruct a as [| pa | pa]; [| | lia].
  - exists (S754_zero false). repeat split.
  - assert (H5253 : 2 ^ 52 < 2 ^ 53) by (vm_compute; reflexivity).
    destruct (SFdiv_int pa pb ltac:(lia) ltac:(lia))
      as (mc & ec & E1 & Q1 & Hdiv & Hec & HQ1 & HE1 & HE1lo & HQ1lo & Hlo & Hhi).
    cbn [Float.int_as_float]. rewrite Hdiv. cbn [Float.is_finite].
    exists (S754_finite false mc ec). split; [reflexivity |].
    pose proof (Pos2Z.is_pos (digits2_pos pb)) as Hdb.
    assert (Hda : Z.pos (digits2_pos pa) <= 52) by (apply digits_below; lia).
    assert (HE1neg : E1 < 0) by lia.
    rewrite (trunc_normal mc ec E1 Q1 Hec HE1neg HQ1).
    rewrite (ceil_normal mc ec E1 Q1 Hec HE1neg HQ1).
    assert (HK : 0 < 2 ^ (- E1)) by (apply pow2_pos; lia).
    assert (HW : 0 < 2 ^ (E1 + 200)) by (apply pow2_pos; lia).
    assert (H200 : 2 ^ 200 = 2 ^ (- E1) * 2 ^ (E1 + 200)).
    { rewrite <- Z.pow_add_r by lia. f_equal. lia. }
    rewrite H200 in Hlo, Hhi.
    replace (Z.pos pa * (2 ^ (- E1) * 2 ^ (E1 + 200)))
      with (Z.pos pa * 2 ^ (- E1) * 2 ^ (E1 + 200)) in Hlo, Hhi by ring.
    apply Z.mul_lt_mono_pos_r in Hlo; [| exact HW].
    apply Z.mul_lt_mono_pos_r in Hhi; [| exact HW].
    destruct (quotient_exact (Z.pos pa) (Z.pos pb) Q1 (2 ^ (- E1))
                ltac:(lia) ltac:(lia) HK HQ1lo (conj Hlo Hhi)) as [Hq Hc].
    rewrite Hq, Hc. split; reflexivity.
Qed.

(** ** Layout: what [fit_image] does to a size *)

(** The case analysis of [fit_image] on sizes of fewer than [2^50]
    pixels: the result is within the native size and within the bounds,
    and a size that was cut meets one of the bounds. *)
Lemma fit_image_shrinks (w h W H : Z) :
  0 <= w < 2 ^ 53 -> 0 <= h < 2 ^ 53 -> w * h < 2 ^ 50 -> 0 <= W -> 0 <= H ->
  exists w' h',
    fit_image w h W H = Ok (w', h')
    /\ 0 <= w' <= Z.min w W /\ 0 <= h' <= Z.min h H
    /\ (W < w \/ H < h -> w' = W \/ h' = H).
Proof.
  intros Hw Hh Hwh HW HH. unfold fit_image.
  destruct (Z.ltb_spec H h) as [C1 | C1].
  - assert (HHw : H * w <= w * h).
    { rewrite (Z.mul_comm w h). apply Z.mul_le_mono_nonneg_r; lia. }
    destruct (scale_to_spec H h w ltac:(lia) ltac:(lia) Hw ltac:(lia))
      as (w1 & E1 & P1 & A1 & A2).
    rewrite E1. cbn [bind_result].
    assert (Hw1 : w1 <= w).
    { apply (quotient_le h); [lia |].
      assert (H * w <= h * w) by (apply Z.mul_le_mono_nonneg_r; lia). lia. }
    destruct (Z.ltb_spec W w1) as [C2 | C2].
    + assert (HWH : W * H <= w * h) by (apply Z.mul_le_mono_nonneg; lia).
      destruct (scale_to_spec W w1 H ltac:(lia) ltac:(lia) ltac:(lia) ltac:(lia))
        as (h2 & E2 & P2 & B1 & B2).
      rewrite E2. cbn [bind_result].
      assert (Hh2 : h2 <= H).
      { apply (quotient_le w1); [lia |].
        assert (W * H <= w1 * H) by (apply Z.mul_le_mono_nonneg_r; lia). lia. }
      rewrite (proj2 (Z.ltb_ge H h2) Hh2). cbn [bind_result].
      exists W, h2. split; [reflexivity |]. repeat split; lia.
    + cbn [bind_result]. rewrite Z.ltb_irrefl. cbn [bind_result].
      exists w1, H. split; [reflexivity |]. repeat split; lia.
  - cbn [bind_result].
    destruct (Z.ltb_spec W w) as [C2 | C2].
    + assert (HWh : W * h <= w * h) by (apply Z.mul_le_mono_nonneg_r; lia).
      destruct (scale_to_spec W w h ltac:(lia) ltac:(lia) Hh ltac:(lia))
        as (h2 & E2 & P2 & B1 & B2).
      rewrite E2. cbn [bind_result].
      assert (Hh2 : h2 <= h).
      { apply (quotient_le w); [lia |].
        assert (W * h <= w * h) by (apply Z.mul_le_mono_nonneg_r; lia). lia. }
      rewrite (proj2 (Z.ltb_ge H h2) ltac:(lia)). cbn [bind_result].
      exists W, h2. split; [reflexivity |]. repeat split; lia.
    + cbn [bind_result]. rewrite (proj2 (Z.ltb_ge H h) C1). cbn [bind_result].
      exists w, h. split; [reflexivity |]. repeat split; lia.
Qed.

(** X3. [fit_image] never enlarges: on sizes of fewer than [2^50] pixels
    neither side of the result is above the native one, bounds well above
    the image included. *)
Theorem fit_image_never_enlarges (w h W H : Z) :
  0 <= w < 2 ^ 53 -> 0 <= h < 2 ^ 53 -> w * h < 2 ^ 50 -> 0 <= W -> 0 <= H ->
  exists w' h', fit_image w h W H = Ok (w', h') /\ w' <= w /\ h' <= h.
Proof.
  intros Hw Hh Hwh HW HH.
  destruct (fit_image_shrinks w h W H Hw Hh Hwh HW HH) as (w' & h' & E & Bw & Bh & _).
  exists w', h'. split; [exact E | lia].
Qed.

(** 640 x 480 into bounds of 10000 x 300. *)
Lemma fit_image_never_enlarges_witness :
  exists w' h', fit_image 640 480 10000 300 = Ok (w', h') /\ w' <= 640 /\ h' <= 480.
Proof.
  apply (fit_image_never_enlarges 640 480 10000 300); lia.
Defined.

(** X4. An image that does not fit is cut until it meets a bound: the result
    has the bounding width or the bounding height exactly. *)
Theorem fit_image_meets_a_bound (w h W H : Z) :
  0 <= w < 2 ^ 53 -> 0 <= h < 2 ^ 53 -> w * h < 2 ^ 50 -> 0 <= W -> 0 <= H ->
  W < w \/ H < h ->
  exists w' h', fit_image w h W H = Ok (w', h') /\ (w' = W \/ h' = H).
Proof.
  intros Hw Hh Hwh HW HH Hcut.
  destruct (fit_image_shrinks w h W H Hw Hh Hwh HW HH) as (w' & h' & E & _ & _ & Hm).
  exists w', h'. split; [exact E | exact (Hm Hcut)].
Qed.

(** 4000 x 3000 into 800 x 800. *)
Lemma fit_image_meets_a_bound_witness :
  exists w' h', fit_image 4000 3000 800 800 = Ok (w', h') /\ (w' = 800 \/ h' = 800).
Proof.
  apply (fit_image_meets_a_bound 4000 3000 800 800); lia.
Defined.

(** X5. Fitting twice is fitting once: the result of [fit_image] is a fixed
    point of [fit_image] for the same bounds. *)
Theorem fit_image_idempotent (w h W H : Z) :
  0 <= w < 2 ^ 53 -> 0 <= h < 2 ^ 53 -> w * h < 2 ^ 50 -> 0 <= W -> 0 <= H ->
  exists w' h',
    fit_image w h W H = Ok (w', h') /\ fit_image w' h' W H = Ok (w', h').
Proof.
  intros Hw Hh Hwh HW HH.
  destruct (fit_image_shrinks w h W H Hw Hh Hwh HW HH) as (w' & h' & E & Bw & Bh & _).
  exists w', h'. split; [exact E |]. apply fit_image_within; lia.
Qed.

(** 4000 x 3000 into 800 x 500. *)
Lemma fit_image_idempotent_witness :
  exists w' h',
    fit_image 4000 3000 800 500 = Ok (w', h') /\ fit_image w' h' 800 500 = Ok (w', h').
Proof.
  apply (fit_image_idempotent 4000 3000 800 500); lia.
Defined.

(** ** Cursor placement *)

Lemma bind_lift_Ok {A B} (a : A) (k : A -> M B) (w : world) :
  bind (lift (Ok a)) k w = k a w.
Proof. reflexivity. Qed.

Lemma bind_lift_Raise {A B} (e : exn) (k : A -> M B) (w : world) :
  bind (lift (Raise e)) k w = (Exc e, w).
Proof. reflexivity. Qed.

(** [screen_size()] on a world that has a geometry to report. *)
Lemma screen_size_answers (w : world) (sz : Size.t) :
  reported_size w = Some sz ->
  screen_size false w = (Ret sz, set_screen_size_ans (Some sz) w).
Proof.
  unfold reported_size, screen_size. intros H. step.
  destruct w as [tw ans out cr ot it at' fl ck ev hf dc se sg fr]. cbn in *.
  destruct ans as [cached |].
  - inversion H; subst cached. reflexivity.
  - unfold bind, ioctl_TIOCGWINSZ. cbn. rewrite H. reflexivity.
Qed.

Lemma ceil_div_bounds (a b : Z) :
  0 < b -> (ceil_div a b - 1) * b < a <= ceil_div a b * b.
Proof.
  intros Hb. unfold ceil_div.
  pose proof (Z.div_mod (- a) b ltac:(lia)) as Hdm.
  pose proof (Z.mod_pos_bound (- a) b Hb) as Hr.
  set (n := - a / b) in *. set (t := (- a) mod b) in *.
  replace ((- n - 1) * b) with (- (b * n) - b) by ring.
  replace (- n * b) with (- (b * n)) by ring. lia.
Qed.

Lemma cell_size_positive (pixels cells : Z) :
  1 <= cells <= pixels -> 1 <= pixels / cells <= pixels.
Proof.
  intros H. split.
  - apply Z.div_le_lower_bound; lia.
  - apply Z.div_le_upper_bound; [lia |].
    assert (1 * pixels <= cells * pixels) by (apply Z.mul_le_mono_nonneg_r; lia). lia.
Qed.

(** The branch of [set_cursor] for an image that needs no more cells
    than the line has. *)
Lemma set_cursor_narrow (cmd : dict) (width height : Z) (w : world) (ss : Size.t) :
  reported_size w = Some ss -> stdout_credit w = None ->
  1 <= Size.cols ss <= Size.width ss -> Size.width ss < 2 ^ 52 ->
  0 <= width < 2 ^ 52 ->
  let cw := Size.width ss / Size.cols ss in
  let n := ceil_div width cw in
  let pad := (Size.cols ss - n) / 2 in
  n <= Size.cols ss ->
  set_cursor cmd width height w
  = (Ret (dict_set "X" (PInt (width mod cw)) cmd),
     set_stdout (stdout w ++ spaces pad) None (set_screen_size_ans (Some ss) w)).
Proof.
  intros Hsz Hcr Hcols HW Hwidth cw n pad Hn.
  assert (H5253 : 2 ^ 52 < 2 ^ 53) by (vm_compute; reflexivity).
  pose proof (cell_size_positive _ _ Hcols) as Hcw. fold cw in Hcw.
  unfold set_cursor.
  erewrite bind_Ret by (apply screen_size_answers; exact Hsz).
  set (w1 := set_screen_size_ans (Some ss) w).
  destruct (int_truediv_exact (Size.width ss) (Size.cols ss) ltac:(lia) ltac:(lia))
    as (q & Hq & Htr & _).
  rewrite Hq. cbn [bind_result]. rewrite Htr, bind_lift_Ok. fold cw.
  destruct (int_truediv_exact width cw ltac:(lia) ltac:(lia)) as (q2 & Hq2 & _ & Hce).
  rewrite Hq2. cbn [bind_result]. rewrite Hce, bind_lift_Ok. fold (ceil_div width cw). fold n.
  rewrite (proj2 (Z.ltb_ge (Size.cols ss) n) Hn). fold pad.
  destruct (Z.eqb_spec pad 0) as [E0 | E0].
  - rewrite E0. cbn [spaces Z.to_nat repeat]. rewrite app_nil_r.
    subst w1. destruct w; cbn in Hcr; subst. reflexivity.
  - erewrite bind_Ret by (apply stdout_write_ok; exact Hcr). reflexivity.
Qed.

(** X6. An image that needs no more cells than the line has is centred: with
    cells of [cw] pixels it needs [n = ceil(width / cw)] of them,
    [set_cursor] writes [(cols - n) // 2] spaces, so that the margins
    differ by one cell at most, and sets [X] to [width mod cw]. The
    float quotients of the code are the exact integer ones. *)
Theorem set_cursor_centres_narrow_image (cmd : dict) (width height : Z)
    (w : world) (ss : Size.t) :
  reported_size w = Some ss -> stdout_credit w = None ->
  1 <= Size.cols ss <= Size.width ss -> Size.width ss < 2 ^ 52 ->
  0 <= width < 2 ^ 52 ->
  let cw := Size.width ss / Size.cols ss in
  let n := ceil_div width cw in
  let pad := (Size.cols ss - n) / 2 in
  n <= Size.cols ss ->
  exists w',
    set_cursor cmd width height w = (Ret (dict_set "X" (PInt (width mod cw)) cmd), w')
    /\ stdout w' = stdout w ++ spaces pad
    /\ frames w' = frames w
    /\ (n - 1) * cw < width <= n * cw
    /\ 0 <= pad /\ 0 <= Size.cols ss - n - 2 * pad <= 1.
Proof.
  intros Hsz Hcr Hcols HW Hwidth cw n pad Hn.
  pose proof (cell_size_positive _ _ Hcols) as Hcw. fold cw in Hcw.
  rewrite (set_cursor_narrow cmd width height w ss Hsz Hcr Hcols HW Hwidth Hn).
  eexists. split; [reflexivity |]. split; [reflexivity |]. split; [reflexivity |].
  pose proof (ceil_div_bounds width cw ltac:(lia)) as Hceil. fold n in Hceil.
  pose proof (Z.div_mod (Size.cols ss - n) 2 ltac:(lia)) as Hdm.
  pose proof (Z.mod_pos_bound (Size.cols ss - n) 2 ltac:(lia)) as Hr.
  fold pad in Hdm.
  assert (Hpad : 0 <= pad) by (subst pad; apply Z.div_pos; lia).
  split; [exact Hceil | lia].
Qed.

(** A picture of 300 x 200 pixels on 100 columns of 10 pixels. *)
Lemma set_cursor_centres_narrow_image_witness :
  exists w',
    set_cursor [] 300 200 Run.supporting = (Ret (dict_set "X" (PInt (300 mod (1000 / 100))) []), w')
    /\ stdout w' = stdout Run.supporting ++ spaces ((100 - ceil_div 300 (1000 / 100)) / 2)
    /\ frames w' = frames Run.supporting
    /\ (ceil_div 300 (1000 / 100) - 1) * (1000 / 100) < 300
       <= ceil_div 300 (1000 / 100) * (1000 / 100)
    /\ 0 <= (100 - ceil_div 300 (1000 / 100)) / 2
    /\ 0 <= 100 - ceil_div 300 (1000 / 100) - 2 * ((100 - ceil_div 300 (1000 / 100)) / 2) <= 1.
Proof.
  apply (set_cursor_centres_narrow_image [] 300 200 Run.supporting Run.geometry);
    try reflexivity; cbn; try lia.
  vm_compute. discriminate.
Defined.

(** X7. An image that needs more cells than the line has is given the whole
    line: [c] is the number of columns, [r] the number of rows of [ch]
    pixels that cover the height, [Y] what is left of the height in the
    last row; nothing is written. *)
Theorem set_cursor_rows_of_wide_image (cmd : dict) (width height : Z)
    (w : world) (ss : Size.t) :
  reported_size w = Some ss ->
  1 <= Size.cols ss <= Size.width ss -> Size.width ss < 2 ^ 52 ->
  1 <= Size.rows ss <= Size.height ss -> Size.height ss < 2 ^ 52 ->
  0 <= width < 2 ^ 52 -> 0 <= height < 2 ^ 52 -> width * height < 2 ^ 50 ->
  let cw := Size.width ss / Size.cols ss in
  let ch := Size.height ss / Size.rows ss in
  let r := ceil_div height ch in
  Size.cols ss < ceil_div width cw ->
  exists w',
    set_cursor cmd width height w
    = (Ret (dict_set "Y" (PInt (height mod ch))
              (dict_set "r" (PInt r) (dict_set "c" (PInt (Size.cols ss)) cmd))), w')
    /\ stdout w' = stdout w
    /\ frames w' = frames w
    /\ (r - 1) * ch < height <= r * ch
    /\ 0 <= height mod ch < ch.
Proof.
  intros Hsz Hcols HW Hrows HH Hwidth Hheight Hpixels cw ch r Hwide.
  assert (H5253 : 2 ^ 52 < 2 ^ 53) by (vm_compute; reflexivity).
  pose proof (cell_size_positive _ _ Hcols) as Hcw. fold cw in Hcw.
  pose proof (cell_size_positive _ _ Hrows) as Hch. fold ch in Hch.
  unfold set_cursor.
  erewrite bind_Ret by (apply screen_size_answers; exact Hsz).
  set (w1 := set_screen_size_ans (Some ss) w).
  destruct (int_truediv_exact (Size.width ss) (Size.cols ss) ltac:(lia) ltac:(lia))
    as (q & Hq & Htr & _).
  rewrite Hq. cbn [bind_result]. rewrite Htr, bind_lift_Ok. fold cw.
  destruct (int_truediv_exact width cw ltac:(lia) ltac:(lia)) as (q2 & Hq2 & _ & Hce).
  rewrite Hq2. cbn [bind_result]. rewrite Hce, bind_lift_Ok. fold (ceil_div width cw).
  rewrite (proj2 (Z.ltb_lt (Size.cols ss) (ceil_div width cw)) Hwide).
  destruct (fit_image_shrinks width height (Size.width ss) height
              ltac:(lia) ltac:(lia) Hpixels ltac:(lia) ltac:(lia))
    as (fw & fh & Hfit & _).
  rewrite Hfit, bind_lift_Ok.
  destruct (int_truediv_exact (Size.height ss) (Size.rows ss) ltac:(lia) ltac:(lia))
    as (q3 & Hq3 & Htr3 & _).
  rewrite Hq3. cbn [bind_result]. rewrite Htr3, bind_lift_Ok. fold ch.
  destruct (int_truediv_exact height ch ltac:(lia) ltac:(lia)) as (q4 & Hq4 & _ & Hce4).
  rewrite Hq4. cbn [bind_result]. rewrite Hce4, bind_lift_Ok. fold (ceil_div height ch). fold r.
  exists w1. split; [reflexivity |]. split; [reflexivity |]. split; [reflexivity |].
  split; [apply ceil_div_bounds; lia | apply Z.mod_pos_bound; lia].
Qed.

(** A picture of 2000 x 1000 pixels on 100 columns of 10 pixels and 50
    rows of 16. *)
Lemma set_cursor_rows_of_wide_image_witness :
  exists w',
    set_cursor [] 2000 1000 Run.supporting
    = (Ret (dict_set "Y" (PInt (1000 mod (800 / 50)))
              (dict_set "r" (PInt (ceil_div 1000 (800 / 50)))
                 (dict_set "c" (PInt 100) []))), w')
    /\ stdout w' = stdout Run.supporting
    /\ frames w' = frames Run.supporting
    /\ (ceil_div 1000 (800 / 50) - 1) * (800 / 50) < 1000
       <= ceil_div 1000 (800 / 50) * (800 / 50)
    /\ 0 <= 1000 mod (800 / 50) < 800 / 50.
Proof.
  apply (set_cursor_rows_of_wide_image [] 2000 1000 Run.supporting Run.geometry);
    try reflexivity; cbn; lia.
Defined.

(** X8. A terminal that reports no column, or fewer pixels than columns, has
    cells of zero pixels: [set_cursor] raises [ZeroDivisionError],
    whatever the image, and writes nothing. [main] only refuses a pixel
    width of zero. *)
Theorem set_cursor_cell_width_zero (cmd : dict) (width height : Z)
    (w : world) (ss : Size.t) :
  reported_size w = Some ss ->
  0 <= Size.width ss < 2 ^ 52 -> 0 <= Size.cols ss < 2 ^ 53 ->
  Size.width ss < Size.cols ss \/ Size.cols ss = 0 ->
  exists w',
    set_cursor cmd width height w = (Exc ZeroDivisionError, w')
    /\ stdout w' = stdout w /\ frames w' = frames w.
Proof.
  intros Hsz HW Hcols Hzero.
  unfold set_cursor.
  erewrite bind_Ret by (apply screen_size_answers; exact Hsz).
  exists (set_screen_size_ans (Some ss) w).
  split; [| split; reflexivity].
  destruct (Z.eq_dec (Size.cols ss) 0) as [E0 | E0].
  - rewrite E0. unfold Float.int_truediv. cbn [Z.eqb bind_result].
    apply bind_lift_Raise.
  - destruct (int_truediv_exact (Size.width ss) (Size.cols ss) ltac:(lia) ltac:(lia))
      as (q & Hq & Htr & _).
    rewrite Hq. cbn [bind_result]. rewrite Htr, bind_lift_Ok.
    rewrite Z.div_small by lia.
    unfold Float.int_truediv. cbn [Z.eqb bind_result].
    apply bind_lift_Raise.
Qed.

(** A terminal of 100 columns that reports a width of 50 pixels. *)
Lemma set_cursor_cell_width_zero_witness :
  exists w',
    set_cursor [] 300 200 (Run.terminal (Size.Make 50 100 50 800) None [] [])
    = (Exc ZeroDivisionError, w')
    /\ stdout w' = [] /\ frames w' = [].
Proof.
  apply (set_cursor_cell_width_zero [] 300 200
           (Run.terminal (Size.Make 50 100 50 800) None [] [])
           (Size.Make 50 100 50 800));
    try reflexivity; cbn; lia.
Defined.

(** X9. A terminal that reports no row, or fewer pixels than rows in its
    height (a pixel height of zero, which [main] lets through), has rows
    of zero pixels: for an image wider than the line [set_cursor] raises
    [ZeroDivisionError]. *)
Theorem set_cursor_cell_height_zero (cmd : dict) (width height : Z)
    (w : world) (ss : Size.t) :
  reported_size w = Some ss ->
  1 <= Size.cols ss <= Size.width ss -> Size.width ss < 2 ^ 52 ->
  0 <= Size.height ss < 2 ^ 52 -> 0 <= Size.rows ss < 2 ^ 53 ->
  Size.height ss < Size.rows ss \/ Size.rows ss = 0 ->
  0 <= width < 2 ^ 52 -> 0 <= height < 2 ^ 52 -> width * height < 2 ^ 50 ->
  Size.cols ss < ceil_div width (Size.width ss / Size.cols ss) ->
  exists w',
    set_cursor cmd width height w = (Exc ZeroDivisionError, w')
    /\ stdout w' = stdout w /\ frames w' = frames w.
Proof.
  intros Hsz Hcols HW HH Hrows Hzero Hwidth Hheight Hpixels Hwide.
  assert (H5253 : 2 ^ 52 < 2 ^ 53) by (vm_compute; reflexivity).
  pose proof (cell_size_positive _ _ Hcols) as Hcw.
  set (cw := Size.width ss / Size.cols ss) in *.
  unfold set_cursor.
  erewrite bind_Ret by (apply screen_size_answers; exact Hsz).
  exists (set_screen_size_ans (Some ss) w).
  split; [| split; reflexivity].
  destruct (int_truediv_exact (Size.width ss) (Size.cols ss) ltac:(lia) ltac:(lia))
    as (q & Hq & Htr & _).
  rewrite Hq. cbn [bind_result]. rewrite Htr, bind_lift_Ok. fold cw.
  destruct (int_truediv_exact width cw ltac:(lia) ltac:(lia)) as (q2 & Hq2 & _ & Hce).
  rewrite Hq2. cbn [bind_result]. rewrite Hce, bind_lift_Ok. fold (ceil_div width cw).
  rewrite (proj2 (Z.ltb_lt (Size.cols ss) (ceil_div width cw)) Hwide).
  destruct (fit_image_shrinks width height (Size.width ss) height
              ltac:(lia) ltac:(lia) Hpixels ltac:(lia) ltac:(lia))
    as (fw & fh & Hfit & _).
  rewrite Hfit, bind_lift_Ok.
  destruct (Z.eq_dec (Size.rows ss) 0) as [E0 | E0].
  - rewrite E0. unfold Float.int_truediv. cbn [Z.eqb bind_result].
    apply bind_lift_Raise.
  - destruct (int_truediv_exact (Size.height ss) (Size.rows ss) ltac:(lia) ltac:(lia))
      as (q3 & Hq3 & Htr3 & _).
    rewrite Hq3. cbn [bind_result]. rewrite Htr3, bind_lift_Ok.
    rewrite Z.div_small by lia.
    unfold Float.int_truediv. cbn [Z.eqb bind_result].
    apply bind_lift_Raise.
Qed.

(** A picture of 2000 x 1000 pixels on a terminal that reports a height
    of zero pixels. *)
Lemma set_cursor_cell_height_zero_witness :
  exists w',
    set_cursor [] 2000 1000 Run.no_pixel_height = (Exc ZeroDivisionError, w')
    /\ stdout w' = stdout Run.no_pixel_height
    /\ frames w' = frames Run.no_pixel_height.
Proof.
  apply (set_cursor_cell_height_zero [] 2000 1000 Run.no_pixel_height
           (Size.Make 50 100 1000 0));
    try reflexivity; cbn; lia.
Defined.

(** ** Transport: the bytes of a frame and the frames of a payload *)

Lemma is_ascii_join_comma_false (parts : list string) :
  forallb is_ascii parts = false -> is_ascii (join "," parts) = false.
Proof.
  induction parts as [| p parts IH]; cbn [forallb]; [discriminate |].
  intros H. destruct parts as [| q parts].
  - cbn [forallb] in H. rewrite andb_true_r in H. exact H.
  - change (join "," (p :: q :: parts))
      with (String.append p (String.append "," (join "," (q :: parts)))).
    rewrite !is_ascii_append.
    destruct (is_ascii p); [| reflexivity].
    cbn [andb] in H |- *. apply IH. exact H.
Qed.

Lemma wire_ascii_false (cmd : dict) :
  wire_ascii cmd = false ->
  encode_ascii (join "," (map format_item cmd)) = Raise UnicodeEncodeError.
Proof.
  intros H. unfold encode_ascii.
  rewrite is_ascii_join_comma_false; [reflexivity |].
  unfold wire_ascii in H. rewrite <- H. clear H.
  induction cmd as [| kv cmd IH]; [reflexivity |].
  cbn [map forallb]. rewrite IH. reflexivity.
Qed.

(** X2. A command with a character outside ASCII cannot be encoded:
    [write_gr_cmd] raises [UnicodeEncodeError] after it has written the
    introducer [ESC _ G], which is left without its terminator; no frame
    is completed. *)
Theorem write_gr_cmd_non_ascii (cmd : dict) (payload : bytes) (w : world) :
  stdout_credit w = None ->
  wire_ascii cmd = false ->
  exists w',
    write_gr_cmd cmd payload w = (Exc UnicodeEncodeError, w')
    /\ stdout w' = stdout w ++ [ESC; "_"%byte; "G"%byte]
    /\ frames w' = frames w.
Proof.
  intros Hc Ha. unfold write_gr_cmd.
  rewrite (wire_ascii_false cmd Ha).
  erewrite bind_Ret by (apply stdout_write_ok; exact Hc).
  eexists. split; [reflexivity |]. split; reflexivity.
Qed.

(** A command whose value is an e with an acute accent. *)
Lemma write_gr_cmd_non_ascii_witness :
  exists w',
    write_gr_cmd Run.accented [] Run.supporting = (Exc UnicodeEncodeError, w')
    /\ stdout w' = stdout Run.supporting ++ [ESC; "_"%byte; "G"%byte]
    /\ frames w' = frames Run.supporting.
Proof.
  apply (write_gr_cmd_non_ascii Run.accented [] Run.supporting); reflexivity.
Defined.

(** X10. The bytes [write_chunked] writes are its frames back to back, each
    as [ESC _ G <keys> ; <chunk> ESC \ ], with nothing before, between or
    after them. *)
Theorem write_chunked_writes_frames_only (E : env) (mode : string) (cmd : dict)
    (data : bytes) (w : world) :
  stdout_credit w = None ->
  wire_ascii cmd = true ->
  exists final w' sent,
    write_chunked E mode cmd data w = (Ret final, w')
    /\ frames w' = frames w ++ sent
    /\ stdout w' = stdout w ++ concat (map frame_bytes sent).
Proof.
  intros Hc Ha. rewrite (write_chunked_exact E mode cmd data w Hc Ha).
  eexists; eexists; eexists. split; [reflexivity |]. split; reflexivity.
Qed.

(** An RGB payload of 3100 bytes: 4136 bytes of base64 text, two
    frames. *)
Lemma write_chunked_writes_frames_only_witness :
  exists final w' sent,
    write_chunked (Run.library false) "RGB" [("a"%string, PStr "T")] (repeat x00 3100)
      Run.supporting = (Ret final, w')
    /\ frames w' = frames Run.supporting ++ sent
    /\ stdout w' = stdout Run.supporting ++ concat (map frame_bytes sent).
Proof.
  apply (write_chunked_writes_frames_only (Run.library false) "RGB"
           [("a"%string, PStr "T")] (repeat x00 3100) Run.supporting); reflexivity.
Defined.

Lemma chunk_frames_later (fuel : nat) :
  forall data : bytes,
    Forall (fun fr : dict * bytes => exists m, fst fr = [("m"%string, PInt m)])
      (chunk_frames fuel [] data).
Proof.
  induction fuel as [| fuel IH]; intros data; cbn [chunk_frames].
  - destruct (nonempty data); constructor.
  - destruct (nonempty data); constructor; [| apply IH].
    cbn [fst dict_set]. eexists. reflexivity.
Qed.

Lemma chunk_frames_nonempty (fuel : nat) (cmd : dict) (data : bytes) :
  (length data <= fuel)%nat ->
  nonempty (chunk_frames fuel cmd data) = nonempty data.
Proof.
  intros Hlen. destruct fuel as [| fuel]; cbn [chunk_frames].
  - destruct data; [reflexivity | cbn in Hlen; lia].
  - destruct (nonempty data); reflexivity.
Qed.

(** X11. The command travels in the first frame only: it carries the keys of
    the caller (and [o=z] unless the mode is PNG) with [m] added, [m=1]
    exactly when more frames follow; every later frame carries [m] and
    nothing else. The caller's dict is empty afterwards. *)
Theorem write_chunked_command_in_first_frame (E : env) (mode : string) (cmd : dict)
    (data : bytes) (w : world) :
  stdout_credit w = None ->
  wire_ascii cmd = true ->
  encoded_payload E mode data <> [] ->
  exists w' chunk later,
    let first :=
      (dict_set "m" (PInt (py_bool_Z (nonempty later)))
         (if negb (String.eqb mode "PNG") then dict_set "o" (PStr "z") cmd else cmd),
       chunk) in
    write_chunked E mode cmd data w = (Ret [], w')
    /\ frames w' = frames w ++ first :: later
    /\ stdout w' = stdout w ++ concat (map frame_bytes (first :: later))
    /\ Forall (fun fr : dict * bytes => exists m, fst fr = [("m"%string, PInt m)]) later.
Proof.
  intros Hc Ha Hne.
  rewrite (write_chunked_exact E mode cmd data w Hc Ha).
  apply nonempty_true in Hne. rewrite Hne.
  set (text := encoded_payload E mode data) in *.
  set (cmd' := if negb (String.eqb mode "PNG") then _ else _).
  destruct (length text) as [| fuel] eqn:Hlen.
  { destruct text; [discriminate | discriminate]. }
  cbn [chunk_frames]. rewrite Hne.
  set (rest := skipn chunk_size text).
  assert (Hlen' : (length rest <= fuel)%nat).
  { subst rest. rewrite length_skipn. pose proof chunk_size_pos. lia. }
  eexists; exists (firstn chunk_size text), (chunk_frames fuel [] rest).
  cbv zeta.
  pose proof (chunk_frames_nonempty fuel [] rest Hlen') as Hn.
  unfold bytes in Hn |- *. rewrite Hn.
  split; [reflexivity |]. split; [destruct w; reflexivity |].
  split; [destruct w; reflexivity | apply chunk_frames_later].
Qed.

(** An RGB payload of 3100 bytes: 4136 bytes of base64 text, two
    frames. *)
Lemma write_chunked_command_in_first_frame_witness :
  exists w' chunk later,
    let first :=
      (dict_set "m" (PInt (py_bool_Z (nonempty later)))
         (dict_set "o" (PStr "z") [("a"%string, PStr "T")]), chunk) in
    write_chunked (Run.library false) "RGB" [("a"%string, PStr "T")] (repeat x00 3100)
      Run.supporting = (Ret [], w')
    /\ frames w' = frames Run.supporting ++ first :: later
    /\ stdout w' = stdout Run.supporting ++ concat (map frame_bytes (first :: later))
    /\ Forall (fun fr : dict * bytes => exists m, fst fr = [("m"%string, PInt m)]) later.
Proof.
  apply (write_chunked_command_in_first_frame (Run.library false) "RGB"
           [("a"%string, PStr "T")] (repeat x00 3100) Run.supporting);
    [reflexivity | reflexivity | vm_compute; discriminate].
Defined.

Lemma ceil_div_one (a b : Z) : 0 < a <= b -> ceil_div a b = 1.
Proof.
  intros H. pose proof (ceil_div_bounds a b ltac:(lia)) as [Hlo Hhi].
  set (c := ceil_div a b) in *.
  destruct (Z.lt_trichotomy c 1) as [Hc | [Hc | Hc]]; [exfalso | exact Hc | exfalso].
  - assert (c * b <= 0 * b) by (apply Z.mul_le_mono_nonneg_r; lia). lia.
  - assert (1 * b <= (c - 1) * b) by (apply Z.mul_le_mono_nonneg_r; lia). lia.
Qed.

Lemma ceil_div_step (a b : Z) : 0 < b -> ceil_div (a + b) b = ceil_div a b + 1.
Proof.
  intros Hb. unfold ceil_div.
  replace (- (a + b)) with (- a + (- 1) * b) by ring.
  rewrite Z.div_add by lia. ring.
Qed.

Lemma chunk_frames_length (fuel : nat) :
  forall (cmd : dict) (data : bytes),
    (length data <= fuel)%nat ->
    Z.of_nat (length (chunk_frames fuel cmd data))
    = ceil_div (Z.of_nat (length data)) (Z.of_nat chunk_size).
Proof.
  pose proof chunk_size_pos as Hpos.
  induction fuel as [| fuel IH]; intros cmd data Hlen.
  - destruct data; [reflexivity | cbn in Hlen; lia].
  - cbn [chunk_frames]. destruct (nonempty data) eqn:Hne.
    + assert (Hl : (0 < length data)%nat) by (destruct data; [discriminate | cbn; lia]).
      cbn [length]. rewrite Nat2Z.inj_succ, IH by (rewrite length_skipn; lia).
      rewrite length_skipn.
      destruct (Nat.le_gt_cases (length data) chunk_size) as [Hle | Hgt].
      * replace (length data - chunk_size)%nat with 0%nat by lia.
        rewrite (ceil_div_one (Z.of_nat (length data))) by lia. reflexivity.
      * rewrite Nat2Z.inj_sub by lia.
        replace (Z.of_nat (length data))
          with (Z.of_nat (length data) - Z.of_nat chunk_size + Z.of_nat chunk_size) at 2 by ring.
        rewrite ceil_div_step by lia. lia.
    + apply nonempty_false in Hne. subst data. reflexivity.
Qed.

(** X12. The number of frames is the length of the base64 text divided by
    4096, rounded up. *)
Theorem write_chunked_frame_count (E : env) (mode : string) (cmd : dict)
    (data : bytes) (w : world) :
  stdout_credit w = None ->
  wire_ascii cmd = true ->
  exists final w' sent,
    write_chunked E mode cmd data w = (Ret final, w')
    /\ frames w' = frames w ++ sent
    /\ stdout w' = stdout w ++ concat (map frame_bytes sent)
    /\ Z.of_nat (length sent)
       = ceil_div (Z.of_nat (length (encoded_payload E mode data))) 4096.
Proof.
  intros Hc Ha. rewrite (write_chunked_exact E mode cmd data w Hc Ha).
  eexists; eexists; eexists. split; [reflexivity |]. split; [reflexivity |].
  split; [reflexivity |].
  rewrite chunk_frames_length by apply le_n.
  f_equal.
Qed.

(** An RGB payload of 3100 bytes: 4136 bytes of base64 text, two
    frames. *)
Lemma write_chunked_frame_count_witness :
  exists final w' sent,
    write_chunked (Run.library false) "RGB" [("a"%string, PStr "T")] (repeat x00 3100)
      Run.supporting = (Ret final, w')
    /\ frames w' = frames Run.supporting ++ sent
    /\ stdout w' = stdout Run.supporting ++ concat (map frame_bytes sent)
    /\ Z.of_nat (length sent)
       = ceil_div
           (Z.of_nat (length (encoded_payload (Run.library false) "RGB" (repeat x00 3100))))
           4096.
Proof.
  apply (write_chunked_frame_count (Run.library false) "RGB"
           [("a"%string, PStr "T")] (repeat x00 3100) Run.supporting); reflexivity.
Defined.

(** Three bytes make four characters: the base64 text of a prefix of
    whole groups is a prefix of the base64 text. *)
Lemma base64_encode_split (k : nat) :
  forall l : bytes,
    (k * 3 <= length l)%nat ->
    firstn (k * 4) (Base64.encode l) = Base64.encode (firstn (k * 3) l)
    /\ skipn (k * 4) (Base64.encode l) = Base64.encode (skipn (k * 3) l).
Proof.
  induction k as [| k IH]; intros l Hlen.
  - split; reflexivity.
  - destruct l as [| x [| y [| z l]]]; cbn [length] in Hlen; try lia.
    destruct (IH l ltac:(cbn [Nat.mul Nat.add] in Hlen; lia)) as [H1 H2].
    change (S k * 4)%nat with (S (S (S (S (k * 4))))).
    change (S k * 3)%nat with (S (S (S (k * 3)))).
    cbn [Base64.encode firstn skipn]. rewrite H1, H2.
    split; reflexivity.
Qed.

Lemma base64_encode_short (k : nat) :
  forall l : bytes,
    (length l <= k * 3)%nat -> (length (Base64.encode l) <= k * 4)%nat.
Proof.
  induction k as [| k IH]; intros l Hlen.
  - destruct l; [cbn; lia | cbn in Hlen; lia].
  - destruct l as [| x [| y [| z l]]]; cbn [length Base64.encode]; try lia.
    cbn [length] in Hlen. specialize (IH l ltac:(lia)).
    cbn [length]. lia.
Qed.

Lemma chunk_size_groups : chunk_size = (1024 * 4)%nat.
Proof. reflexivity. Qed.

Lemma decode_each_chunks (fuel : nat) :
  forall (cmd : dict) (raw : bytes),
    (length (Base64.encode raw) <= fuel)%nat ->
    decode_each (map snd (chunk_frames fuel cmd (Base64.encode raw))) = Some raw.
Proof.
  induction fuel as [| fuel IH]; intros cmd raw Hlen.
  - destruct raw as [| x raw].
    + reflexivity.
    + exfalso. pose proof (base64_encode_nonempty (x :: raw) ltac:(discriminate)) as Hne.
      destruct (Base64.encode (x :: raw)); [congruence | cbn in Hlen; lia].
  - cbn [chunk_frames]. destruct (nonempty (Base64.encode raw)) eqn:Hne.
    + cbn [map snd decode_each].
      destruct (Nat.le_gt_cases (1024 * 3) (length raw)) as [Hbig | Hsmall].
      * destruct (base64_encode_split 1024 raw Hbig) as [H1 H2].
        rewrite chunk_size_groups, H1, H2, base64_decode_encode.
        rewrite IH.
        -- rewrite firstn_skipn. reflexivity.
        -- rewrite <- H2, length_skipn.
           apply nonempty_true in Hne.
           destruct (Base64.encode raw); [congruence | cbn [length] in *; lia].
      * pose proof (base64_encode_short 1024 raw ltac:(lia)) as Hshort.
        rewrite chunk_size_groups.
        rewrite firstn_all2 by exact Hshort.
        rewrite skipn_all2 by exact Hshort.
        rewrite base64_decode_encode.
        assert (Hnil : forall c, chunk_frames fuel c [] = []) by (destruct fuel; reflexivity).
        rewrite Hnil. cbn [map decode_each]. rewrite app_nil_r. reflexivity.
    + apply nonempty_false in Hne.
      destruct raw as [| x raw]; [reflexivity |].
      exfalso. exact (base64_encode_nonempty (x :: raw) ltac:(discriminate) Hne).
Qed.

(** X13. Every chunk is base64 text of its own: 4096 is a multiple of four, so
    a chunk ends with a group. A receiver that decodes each frame as it
    arrives and joins the pieces has the payload as it was encoded (the
    compressed data, or the PNG file). *)
Theorem write_chunked_chunks_decode_separately (E : env) (mode : string) (cmd : dict)
    (data : bytes) (w : world) :
  stdout_credit w = None ->
  wire_ascii cmd = true ->
  exists final w' sent,
    write_chunked E mode cmd data w = (Ret final, w')
    /\ frames w' = frames w ++ sent
    /\ stdout w' = stdout w ++ concat (map frame_bytes sent)
    /\ decode_each (map snd sent) = Some (raw_payload E mode data).
Proof.
  intros Hc Ha. rewrite (write_chunked_exact E mode cmd data w Hc Ha).
  eexists; eexists; eexists. split; [reflexivity |]. split; [reflexivity |].
  split; [reflexivity |].
  apply decode_each_chunks. apply le_n.
Qed.

(** An RGB payload of 3100 bytes: 4136 bytes of base64 text, two
    frames. *)
Lemma write_chunked_chunks_decode_separately_witness :
  exists final w' sent,
    write_chunked (Run.library false) "RGB" [("a"%string, PStr "T")] (repeat x00 3100)
      Run.supporting = (Ret final, w')
    /\ frames w' = frames Run.supporting ++ sent
    /\ stdout w' = stdout Run.supporting ++ concat (map frame_bytes sent)
    /\ decode_each (map snd sent) = Some (raw_payload (Run.library false) "RGB" (repeat x00 3100)).
Proof.
  apply (write_chunked_chunks_decode_separately (Run.library false) "RGB"
           [("a"%string, PStr "T")] (repeat x00 3100) Run.supporting); reflexivity.
Defined.

(** ** Negotiation: the response table *)

Lemma record_response_keeps (responses : gmap Z bool) (m : byte * bytes) (k : Z) (v : bool) :
  responses !! k = Some v -> record_response responses m !! k = Some v.
Proof.
  intros Hk. unfold record_response. destruct m as [iid status].
  destruct (Byte.eqb iid "1" || Byte.eqb iid "2"); [| exact Hk].
  set (key := if Byte.eqb iid "1" then 1 else 2).
  destruct (responses !! key) eqn:Hkey; [exact Hk |].
  rewrite lookup_insert_ne; [exact Hk |]. intros <-. congruence.
Qed.

Lemma record_responses_keep (ms : list (byte * bytes)) :
  forall (responses : gmap Z bool) (k : Z) (v : bool),
    responses !! k = Some v ->
    fold_left record_response ms responses !! k = Some v.
Proof.
  induction ms as [| m ms IH]; intros responses k v Hk; cbn [fold_left]; [exact Hk |].
  apply IH. apply record_response_keeps. exact Hk.
Qed.

(** X18. The first answer to a probe stands: a frame for an id that is in the
    table already changes nothing, whatever it says. This is what makes
    the scan of the whole input after every read harmless. *)
Theorem parse_responses_first_answer_stands (received : bytes)
    (responses : gmap Z bool) (k : Z) (v : bool) :
  responses !! k = Some v ->
  parse_responses received responses !! k = Some v.
Proof.
  intros Hk. unfold parse_responses. apply record_responses_keep. exact Hk.
Qed.

(** Probe 1 was refused; a frame that says OK for it arrives. *)
Lemma parse_responses_first_answer_stands_witness :
  parse_responses (response_frame "1" (b "OK")) {[1 := false]} !! 1 = Some false.
Proof.
  apply (parse_responses_first_answer_stands (response_frame "1" (b "OK"))
           {[1 := false]} 1 false).
  vm_compute. reflexivity.
Defined.

Lemma record_response_other (responses : gmap Z bool) (m : byte * bytes) (k : Z) :
  k <> 1 -> k <> 2 -> record_response responses m !! k = responses !! k.
Proof.
  intros H1 H2. unfold record_response. destruct m as [iid status].
  destruct (Byte.eqb iid "1" || Byte.eqb iid "2"); [| reflexivity].
  set (key := if Byte.eqb iid "1" then 1 else 2).
  assert (Hkey : key <> k) by (subst key; destruct (Byte.eqb iid "1"); congruence).
  destruct (responses !! key); [reflexivity |].
  apply lookup_insert_ne. exact Hkey.
Qed.

(** X19. Only the ids 1 and 2 enter the table. The class [[1|2]] of the
    pattern lets a bar through as an id; the test that follows drops it. *)
Theorem parse_responses_only_ids_1_and_2 (received : bytes)
    (responses : gmap Z bool) (k : Z) :
  k <> 1 -> k <> 2 ->
  parse_responses received responses !! k = responses !! k.
Proof.
  intros H1 H2. unfold parse_responses.
  generalize (finditer received) as ms. intros ms. revert responses.
  induction ms as [| m ms IH]; intros responses; cbn [fold_left]; [reflexivity |].
  rewrite IH. apply record_response_other; assumption.
Qed.

(** A frame whose id is the bar, which the pattern matches. *)
Lemma parse_responses_only_ids_1_and_2_witness :
  finditer (response_frame "|" (b "OK")) = [("|"%byte, b "OK")]
  /\ parse_responses (response_frame "|" (b "OK")) ∅ !! 124 = (∅ : gmap Z bool) !! 124.
Proof.
  split; [vm_compute; reflexivity |].
  apply (parse_responses_only_ids_1_and_2 (response_frame "|" (b "OK")) ∅ 124);
    discriminate.
Defined.

Lemma byte_eqb_false (x y : byte) : x <> y -> Byte.eqb x y = false.
Proof.
  intros H. destruct (Byte.eqb x y) eqn:E; [| reflexivity].
  apply Byte.byte_dec_bl in E. contradiction.
Qed.

Lemma starts_with_ST_not_ESC (c : byte) (s : bytes) :
  c <> ESC -> starts_with_ST (c :: s) = false.
Proof.
  intros H. unfold starts_with_ST. destruct s; [reflexivity |].
  rewrite (byte_eqb_false c ESC H). reflexivity.
Qed.

(** The lazy group stops at the first terminator. *)
Lemma lazy_group_status (status : bytes) :
  status <> [] ->
  Forall (fun c => c <> newline /\ c <> ESC) status ->
  forall tail : bytes,
    lazy_group (status ++ ESC :: "\"%byte :: tail) = Some (status, (length status + 2)%nat).
Proof.
  induction status as [| c status IH]; [congruence |].
  intros _ Hall tail. inversion Hall as [| ? ? [Hnl Hesc] Hrest]; subst.
  cbn [app lazy_group]. rewrite (byte_eqb_false c newline Hnl).
  destruct status as [| c' status].
  - reflexivity.
  - inversion Hrest as [| ? ? [_ Hesc'] _]; subst.
    pose proof (IH ltac:(discriminate) Hrest tail) as Hg.
    cbn [app] in Hg |- *.
    rewrite (starts_with_ST_not_ESC c' _ Hesc'), Hg. reflexivity.
Qed.

Lemma match_at_not_ESC (c : byte) (s : bytes) : c <> ESC -> match_at (c :: s) = None.
Proof.
  intros H. unfold match_at.
  destruct s as [| u [| g [| i [| q [| c' [| semi rest]]]]]]; try reflexivity.
  rewrite (byte_eqb_false c ESC H). reflexivity.
Qed.

Lemma finditer_skips_noise (pre : bytes) :
  Forall (fun c => c <> ESC) pre ->
  forall s : bytes, finditer_from O (pre ++ s) = finditer_from O s.
Proof.
  induction pre as [| c pre IH]; intros Hall s; [reflexivity |].
  inversion Hall as [| ? ? Hc Hrest]; subst.
  cbn [app finditer_from]. rewrite (match_at_not_ESC c _ Hc). apply IH. exact Hrest.
Qed.

Lemma finditer_steps_over (l : bytes) :
  forall tail : bytes, finditer_from (length l) (l ++ tail) = finditer_from O tail.
Proof.
  induction l as [| c l IH]; intros tail; [reflexivity |].
  cbn [length app finditer_from]. apply IH.
Qed.

Lemma finditer_response_frame (iid : byte) (status tail : bytes) :
  in_class_1_bar_2 iid = true ->
  status <> [] ->
  Forall (fun c => c <> newline /\ c <> ESC) status ->
  finditer_from O (response_frame iid status ++ tail) = (iid, status) :: finditer_from O tail.
Proof.
  intros Hid Hne Hall. unfold response_frame.
  cbn [app finditer_from match_at].
  replace (Byte.eqb ESC ESC) with true by reflexivity.
  replace (Byte.eqb "_" "_") with true by reflexivity.
  replace (Byte.eqb "G" "G") with true by reflexivity.
  replace (Byte.eqb "i" "i") with true by reflexivity.
  replace (Byte.eqb "=" "=") with true by reflexivity.
  replace (Byte.eqb ";" ";") with true by reflexivity.
  rewrite Hid. cbn [andb].
  rewrite <- app_assoc. cbn [app].
  rewrite (lazy_group_status status Hne Hall tail).
  f_equal.
  change (Nat.pred (7 + (length status + 2)))
    with (6 + (length status + 2))%nat.
  cbn [Nat.add finditer_from].
  replace (length status + 2)%nat with (length (status ++ [ESC; "\"%byte]))
    by (rewrite length_app; reflexivity).
  change (status ++ ESC :: "\"%byte :: tail) with (status ++ [ESC; "\"%byte] ++ tail).
  rewrite app_assoc. apply finditer_steps_over.
Qed.

(** X20. The frame [ESC _ G i=<id>;<status> ESC \ ] for id 1 or 2 is read as
    the answer [status == b'OK'] of its probe, whatever bytes without an
    escape came before it (keys typed meanwhile) and whatever follows. *)
Theorem parse_responses_reads_a_frame (pre status tail : bytes) (iid : byte) :
  Forall (fun c => c <> ESC) pre ->
  iid = "1"%byte \/ iid = "2"%byte ->
  status <> [] ->
  Forall (fun c => c <> newline /\ c <> ESC) status ->
  parse_responses (pre ++ response_frame iid status ++ tail) ∅
    !! (if Byte.eqb iid "1" then 1 else 2)
  = Some (bytes_eqb status (b "OK")).
Proof.
  intros Hpre Hid Hne Hall. unfold parse_responses, finditer.
  rewrite (finditer_skips_noise pre Hpre).
  rewrite finditer_response_frame;
    [| destruct Hid as [-> | ->]; reflexivity | exact Hne | exact Hall].
  cbn [fold_left]. apply record_responses_keep.
  unfold record_response.
  destruct Hid as [-> | ->]; cbn [Byte.eqb orb]; rewrite lookup_empty;
    apply lookup_insert_eq.
Qed.

(** Two keys typed, then the terminal refuses probe 2 with [ENOENT],
    then accepts it. *)
Lemma parse_responses_reads_a_frame_witness :
  parse_responses (b "qq" ++ response_frame "2" (b "ENOENT") ++ response_frame "2" (b "OK")) ∅
    !! 2
  = Some false.
Proof.
  apply (parse_responses_reads_a_frame (b "qq") (b "ENOENT") (response_frame "2" (b "OK")) "2").
  - repeat constructor; discriminate.
  - right. reflexivity.
  - discriminate.
  - repeat constructor; discriminate.
Defined.

(** ** Negotiation: what is sent and what is answered *)

Lemma monotonic_output (E : env) (w w' : world) (r : outcome Float.float) :
  monotonic E w = (r, w') ->
  stdout w' = stdout w /\ frames w' = frames w /\ stdout_credit w' = stdout_credit w.
Proof.
  unfold monotonic. destruct (clock w); intros H; inversion H; repeat split; reflexivity.
Qed.

Lemma select_output (timeout : Float.float) (w w' : world) (r : outcome stdin_event) :
  select timeout w = (r, w') ->
  stdout w' = stdout w /\ frames w' = frames w /\ stdout_credit w' = stdout_credit w.
Proof.
  unfold select. destruct (stdin_events w) as [| [| after [| c d] |] rest];
    intros H; inversion H; repeat split; reflexivity.
Qed.

(** The polling loop writes nothing. *)
Lemma poll_output (E : env) (fuel : nat) :
  forall start wait_for received (responses : gmap Z bool) w r w',
    poll E fuel start wait_for received responses w = (r, w') ->
    stdout w' = stdout w /\ frames w' = frames w /\ stdout_credit w' = stdout_credit w.
Proof.
  induction fuel as [| fuel IH]; intros start wait_for received responses w r w' H.
  - inversion H. repeat split; reflexivity.
  - cbn [poll] in H. unfold bind in H.
    destruct (monotonic E w) as [[now | e |] w1] eqn:Hm;
      pose proof (monotonic_output _ _ _ _ Hm) as (Ho1 & Hf1 & Hc1);
      [| inversion H; subst; repeat split; assumption
       | inversion H; subst; repeat split; assumption].
    destruct (keep_polling now start wait_for responses).
    + destruct (select poll_timeout w1) as [[ev | e |] w2] eqn:Hs;
        pose proof (select_output _ _ _ _ Hs) as (Ho2 & Hf2 & Hc2);
        [| inversion H; subst; repeat split; congruence
         | inversion H; subst; repeat split; congruence].
      destruct ev as [| after d |].
      * apply IH in H as (Ho & Hf & Hc). repeat split; congruence.
      * destruct (read d received responses) as [received' responses'].
        apply IH in H as (Ho & Hf & Hc). repeat split; congruence.
      * inversion H; subst. repeat split; congruence.
    + inversion H; subst. repeat split; assumption.
Qed.

(** X21. Called on a terminal, whatever the terminal answers and however
    the wait ends, what [detect_support] writes is the message, the two
    probe frames (four bytes to be read back, and the name of a temporary
    file holding them) and the sequence that erases the message. *)
Theorem detect_support_sends_two_probes (E : env) (wait_for : Z) (w w' : world)
    (name : bytes) (r : outcome bool) :
  stdout_credit w = None ->
  stdin_isatty w = true ->
  tmp_name E = Some name ->
  detect_support E wait_for w = (r, w') ->
  r <> Starved ->
  let first := (probe_1, standard_b64encode (b "abcd")) in
  let second := (probe_2, standard_b64encode name) in
  frames w' = frames w ++ [first; second]
  /\ stdout w'
     = stdout w ++ checking_message wait_for
         ++ frame_bytes first ++ frame_bytes second ++ [ESC; "["%byte; "J"%byte].
Proof.
  intros Hc Ht Htmp Hrun Hr first second.
  rewrite (detect_support_enters E wait_for w Hc Ht) in Hrun.
  unfold bind at 1 in Hrun. unfold try_finally in Hrun.
  set (w0 := entered wait_for w) in *.
  assert (Hbody : forall body w1,
             negotiate E wait_for w0 = (body, w1) ->
             body <> Starved ->
             frames w1 = frames w ++ [first; second]
             /\ stdout w1 = stdout w ++ checking_message wait_for
                              ++ frame_bytes first ++ frame_bytes second
             /\ stdout_credit w1 = None).
  { intros body w1 Hneg Hbody.
    destruct (clock w0) as [| lag0 lags] eqn:Hclock.
    { unfold negotiate, bind, monotonic in Hneg. rewrite Hclock in Hneg.
      inversion Hneg; subst. congruence. }
    rewrite (negotiate_starts E wait_for w0 name lag0 lags eq_refl Htmp Hclock) in Hneg.
    apply poll_output in Hneg as (Ho & Hf & Hcr).
    rewrite Ho, Hf, Hcr. subst w0. world_simpl.
    rewrite <- !app_assoc. repeat split; reflexivity. }
  destruct (negotiate E wait_for w0) as [body w1] eqn:Hneg.
  destruct body as [responses | e |].
  - destruct (Hbody _ _ eq_refl ltac:(discriminate)) as (Hf & Ho & Hcr).
    rewrite (restore_terminal_exact _ _ w1 Hcr) in Hrun.
    destruct (stdin_isatty w1).
    + unfold bind, modify, ret in Hrun. inversion Hrun; subst. world_simpl.
      rewrite Hf, Ho, <- !app_assoc. split; reflexivity.
    + inversion Hrun; subst. world_simpl.
      rewrite Hf, Ho, <- !app_assoc. split; reflexivity.
  - destruct (Hbody _ _ eq_refl ltac:(discriminate)) as (Hf & Ho & Hcr).
    rewrite (restore_terminal_exact _ _ w1 Hcr) in Hrun.
    destruct (stdin_isatty w1); inversion Hrun; subst; world_simpl;
      rewrite Hf, Ho, <- !app_assoc; split; reflexivity.
  - inversion Hrun; subst. congruence.
Qed.

(** A wait during which two stray bytes arrive. *)
Lemma detect_support_sends_two_probes_witness :
  let run := detect_support (Run.library false) 10 Run.noisy in
  let first := (probe_1, standard_b64encode (b "abcd")) in
  let second := (probe_2, standard_b64encode (b "/tmp/tmpq1w2e3")) in
  frames (snd run) = frames Run.noisy ++ [first; second]
  /\ stdout (snd run)
     = stdout Run.noisy ++ checking_message 10
         ++ frame_bytes first ++ frame_bytes second ++ [ESC; "["%byte; "J"%byte].
Proof.
  apply (detect_support_sends_two_probes (Run.library false) 10 Run.noisy
           (snd (detect_support (Run.library false) 10 Run.noisy))
           (b "/tmp/tmpq1w2e3")
           (fst (detect_support (Run.library false) 10 Run.noisy))).
  - reflexivity.
  - reflexivity.
  - reflexivity.
  - vm_compute. reflexivity.
  - vm_compute. discriminate.
Defined.

(** The turn in which a read resolves an id, and the test that ends the
    loop. A read that gives nothing leaves fd 0 without its terminal. *)
Lemma poll_resolves (E : env) (start : Float.float) (wait_for : Z) (lag_now lag_end : N)
    (rest : list N) (after : N) (d : bytes) (revs : list stdin_event)
    (received : bytes) (w : world) (fuel : nat) :
  clock w = lag_now :: lag_end :: rest ->
  before_deadline start wait_for (clock_seconds E (now w + lag_now)) = true ->
  stdin_events w = Data after d :: revs ->
  is_Some (snd (read d received ∅) !! 1) \/ is_Some (snd (read d received ∅) !! 2) ->
  poll E (S (S fuel)) start wait_for received ∅ w
  = (Ret (snd (read d received ∅)),
     (if nonempty d then fun w => w else set_stdin_isatty false)
       (set_stdin_events revs
          (set_clock rest
             (set_now (now w + lag_now + took poll_wait (Data after d) + lag_end) w)))).
Proof.
  intros Hclock Hnow Hevs Hres.
  change (poll E (S (S fuel)) start wait_for received ∅ w)
    with (bind (monotonic E)
            (fun now =>
               if keep_polling now start wait_for ∅ then
                 bind (select poll_timeout)
                   (fun ev =>
                      match ev with
                      | Idle => poll E (S fuel) start wait_for received ∅
                      | Data _ d =>
                          let '(received, responses) := read d received ∅ in
                          poll E (S fuel) start wait_for received responses
                      | SelectFails => raise OSError
                      end)
               else ret ∅) w).
  unfold bind at 1. unfold monotonic. rewrite Hclock.
  rewrite keep_polling_empty, Hnow.
  unfold bind at 1. unfold select. world_simpl. rewrite Hevs. fold poll_wait.
  destruct d as [| c d]; cbv beta iota;
    match goal with
    | |- context [read ?d received ∅] =>
        destruct (read d received ∅) as [received' responses] eqn:Hread
    end;
    cbn [snd] in *;
    (erewrite (poll_stops_on_one_answer E fuel start wait_for received' responses _
                 lag_end rest); [| reflexivity | exact Hres]);
    destruct w; reflexivity.
Qed.

(** The try block of a negotiation that a read resolves in time. *)
Lemma negotiate_resolves (E : env) (wait_for : Z) (w : world) (name : bytes)
    (lag0 : N) (lags : list N) (lag_now lag_end : N) (rest : list N)
    (evs revs : list stdin_event) (after : N) (d : bytes) :
  stdout_credit w = None ->
  tmp_name E = Some name ->
  clock w = lag0 :: lags ++ lag_now :: lag_end :: rest ->
  stdin_events w = evs ++ Data after d :: revs ->
  length evs = length lags ->
  let start := (now w + lag0)%N in
  Forall (fun t => in_time E wait_for start t = true) (test_times start lags evs) ->
  in_time E wait_for start (time_after start lags evs + lag_now) = true ->
  quiet [] evs ->
  let responses := snd (read d (delivered evs) ∅) in
  is_Some (responses !! 1) \/ is_Some (responses !! 2) ->
  negotiate E wait_for w
  = (Ret responses,
     (if nonempty d then fun w => w else set_stdin_isatty false)
       (set_stdin_events revs
          (set_clock rest
             (set_now (time_after start lags evs + lag_now
                       + took poll_wait (Data after d) + lag_end)
                (set_frames (frames w ++ [(probe_1, standard_b64encode (b "abcd"));
                                          (probe_2, standard_b64encode name)])
                   (set_stdout (stdout w
                                  ++ frame_bytes (probe_1, standard_b64encode (b "abcd"))
                                  ++ frame_bytes (probe_2, standard_b64encode name)) None
                      w)))))).
Proof.
  intros Hc Htmp Hclock Hevs Hlen start Hearly Hnow Hq responses Hres.
  rewrite (negotiate_starts E wait_for w name lag0 _ Hc Htmp Hclock).
  fold start.
  rewrite length_app. cbn [length].
  replace (S (length lags + S (S (length rest))))
    with (length lags + S (S (S (length rest))))%nat by lia.
  erewrite (poll_quiet_prefix E (clock_seconds E start) wait_for
              (lag_now :: lag_end :: rest) (Data after d :: revs) lags evs []);
    [| reflexivity | world_simpl; exact Hevs | exact Hlen | exact Hearly | exact Hq].
  cbn [app]. world_simpl.
  erewrite poll_resolves; [| reflexivity | exact Hnow | reflexivity | exact Hres].
  fold responses. world_simpl.
  destruct (nonempty d); destruct w; reflexivity.
Qed.

(** The run of [detect_support] up to an answer that resolves an id. *)
Lemma detect_support_resolves (E : env) (wait_for : Z) (w : world) (name : bytes)
    (evs revs : list stdin_event) (d : bytes) (rest : list N) :
  stdout_credit w = None ->
  stdin_isatty w = true ->
  tmp_name E = Some name ->
  resolved_by E wait_for w evs d rest revs ->
  let responses := first_answers evs d in
  exists w',
    detect_support E wait_for w = (Ret (answer 1 responses), w')
    /\ has_files w' = Some (answer 2 responses)
    /\ stdin_attr w' = stdin_attr w /\ stdin_fl w' = stdin_fl w
    /\ clock w' = rest /\ stdin_events w' = revs
    /\ stdout_credit w' = None /\ stdin_isatty w' = true
    /\ screen_size_ans w' = screen_size_ans w /\ tty_winsize w' = tty_winsize w
    /\ decoded w' = decoded w /\ stderr w' = stderr w /\ sigwinch w' = sigwinch w
    /\ frames w'
       = frames w ++ [(probe_1, standard_b64encode (b "abcd"));
                      (probe_2, standard_b64encode name)]
    /\ stdout w'
       = stdout w ++ checking_message wait_for
           ++ frame_bytes (probe_1, standard_b64encode (b "abcd"))
           ++ frame_bytes (probe_2, standard_b64encode name)
           ++ [ESC; "["%byte; "J"%byte].
Proof.
  intros Hc Ht Htmp
    (lag0 & lags & lag_now & lag_end & after
     & Hclock & Hevs & Hlen & Hearly & Hnow & Hq & Hd & Hres) responses.
  rewrite (detect_support_enters E wait_for w Hc Ht).
  unfold bind at 1. unfold try_finally.
  erewrite (negotiate_resolves E wait_for (entered wait_for w) name lag0 lags lag_now
              lag_end rest evs revs after d eq_refl Htmp Hclock Hevs Hlen Hearly Hnow Hq Hres).
  rewrite (proj2 (nonempty_true d) Hd).
  rewrite restore_terminal_exact by reflexivity.
  world_simpl. rewrite Ht.
  unfold bind, modify, ret.
  eexists. split; [reflexivity |].
  world_simpl. rewrite <- !app_assoc. repeat split; assumption.
Qed.

(** X22. Called on a terminal, [detect_support] answers what the first
    frame that resolves an id says. While nothing is learnt the loop
    takes one clock reading and one turn of [select] at a time; the read
    [d] that brings a frame for id 1 or 2 before the deadline ends it at
    the next test: the result is the answer to probe 1, [has_files] the
    answer to probe 2, each false when it has not come by then, and the
    terminal is as it was. *)
Theorem detect_support_reports_first_answer (E : env) (wait_for : Z) (w : world)
    (name : bytes) (lag0 : N) (lags : list N) (lag_now lag_end : N) (rest : list N)
    (evs revs : list stdin_event) (after : N) (d : bytes) :
  stdout_credit w = None ->
  stdin_isatty w = true ->
  tmp_name E = Some name ->
  clock w = lag0 :: lags ++ lag_now :: lag_end :: rest ->
  let start := (now w + lag0)%N in
  Forall (fun t => in_time E wait_for start t = true) (test_times start lags evs) ->
  in_time E wait_for start (time_after start lags evs + lag_now) = true ->
  stdin_events w = evs ++ Data after d :: revs ->
  length evs = length lags ->
  quiet [] evs ->
  d <> [] ->
  let responses := parse_responses (delivered evs ++ d) ∅ in
  is_Some (responses !! 1) \/ is_Some (responses !! 2) ->
  exists w',
    detect_support E wait_for w = (Ret (answer 1 responses), w')
    /\ has_files w' = Some (answer 2 responses)
    /\ stdin_attr w' = stdin_attr w /\ stdin_fl w' = stdin_fl w
    /\ clock w' = rest /\ stdin_events w' = revs.
Proof.
  intros Hc Ht Htmp Hclock start Hearly Hnow Hevs Hlen Hq Hd responses Hres.
  assert (Hread : first_answers evs d = responses).
  { unfold first_answers, read. rewrite (proj2 (nonempty_true d) Hd). reflexivity. }
  destruct (detect_support_resolves E wait_for w name evs revs d rest Hc Ht Htmp)
    as (w' & Hrun & Hfiles & Hattr & Hfl & Hck & Hev & _).
  { exists lag0, lags, lag_now, lag_end, after. cbv zeta. fold start.
    rewrite Hread. repeat split; assumption. }
  rewrite Hread in Hrun, Hfiles.
  exists w'. repeat split; assumption.
Qed.

(** Probe 1 is answered with OK in the first read. *)
Lemma detect_support_reports_first_answer_witness :
  exists w',
    detect_support (Run.library false) 10 Run.supporting
    = (Ret (answer 1 (parse_responses (Run.response "1" "OK") ∅)), w')
    /\ has_files w' = Some (answer 2 (parse_responses (Run.response "1" "OK") ∅))
    /\ stdin_attr w' = stdin_attr Run.supporting /\ stdin_fl w' = stdin_fl Run.supporting
    /\ clock w' = [] /\ stdin_events w' = [].
Proof.
  apply (detect_support_reports_first_answer (Run.library false) 10 Run.supporting
           (b "/tmp/tmpq1w2e3") 20000%N [] 20000%N 20000%N [] [] [] 50000000%N
           (Run.response "1" "OK")).
  - reflexivity.
  - reflexivity.
  - reflexivity.
  - reflexivity.
  - constructor.
  - vm_compute. reflexivity.
  - reflexivity.
  - reflexivity.
  - exact I.
  - discriminate.
  - left. eexists. vm_compute. reflexivity.
Defined.

(** The run of [detect_support] when the terminal hangs up during the
    wait. *)
Lemma detect_support_hangs_up (E : env) (wait_for : Z) (w : world)
    (name : bytes) (lag0 : N) (lags : list N) (lag_now lag_end : N) (rest : list N)
    (evs revs : list stdin_event) (after : N) :
  stdout_credit w = None ->
  stdin_isatty w = true ->
  tmp_name E = Some name ->
  clock w = lag0 :: lags ++ lag_now :: lag_end :: rest ->
  let start := (now w + lag0)%N in
  Forall (fun t => in_time E wait_for start t = true) (test_times start lags evs) ->
  in_time E wait_for start (time_after start lags evs + lag_now) = true ->
  stdin_events w = evs ++ Data after [] :: revs ->
  length evs = length lags ->
  quiet [] evs ->
  exists w',
    detect_support E wait_for w = (Exc TermiosError, w')
    /\ has_files w' = has_files w
    /\ stdin_isatty w' = false
    /\ stdin_attr w' = raw_mode (stdin_attr w)
    /\ stdin_fl w' = Z.lor (stdin_fl w) O_NONBLOCK
    /\ clock w' = rest /\ stdin_events w' = revs
    /\ stdout w'
       = stdout w ++ checking_message wait_for
           ++ frame_bytes (probe_1, standard_b64encode (b "abcd"))
           ++ frame_bytes (probe_2, standard_b64encode name)
           ++ [ESC; "["%byte; "J"%byte]
    /\ decoded w' = decoded w /\ stderr w' = stderr w.
Proof.
  intros Hc Ht Htmp Hclock start Hearly Hnow Hevs Hlen Hq.
  rewrite (detect_support_enters E wait_for w Hc Ht).
  unfold bind at 1. unfold try_finally.
  erewrite (negotiate_resolves E wait_for (entered wait_for w) name lag0 lags lag_now
              lag_end rest evs revs after [] eq_refl Htmp Hclock Hevs Hlen Hearly Hnow Hq).
  2: { left. cbn [read nonempty snd]. rewrite lookup_insert_ne by discriminate.
       rewrite lookup_insert_eq. eexists. reflexivity. }
  cbn [nonempty].
  rewrite restore_terminal_exact by reflexivity.
  world_simpl.
  eexists. split; [reflexivity |].
  world_simpl. rewrite <- !app_assoc. repeat split; reflexivity.
Qed.

(** X23. The terminal hangs up during the wait: the read gives nothing,
    both probes are marked as refused and the loop ends at the next test,
    without waiting for the timeout. But [tcsetattr] in the [finally]
    block raises [termios.error] on the terminal that is gone: the call
    answers nothing, [has_files] is not set, and standard input is left
    in non-blocking mode. What was written is the message, the probes and
    the erase sequence. *)
Theorem detect_support_end_of_input (E : env) (wait_for : Z) (w : world)
    (name : bytes) (lag0 : N) (lags : list N) (lag_now lag_end : N) (rest : list N)
    (evs revs : list stdin_event) (after : N) :
  stdout_credit w = None ->
  stdin_isatty w = true ->
  tmp_name E = Some name ->
  clock w = lag0 :: lags ++ lag_now :: lag_end :: rest ->
  let start := (now w + lag0)%N in
  Forall (fun t => in_time E wait_for start t = true) (test_times start lags evs) ->
  in_time E wait_for start (time_after start lags evs + lag_now) = true ->
  stdin_events w = evs ++ Data after [] :: revs ->
  length evs = length lags ->
  quiet [] evs ->
  exists w',
    detect_support E wait_for w = (Exc TermiosError, w')
    /\ has_files w' = has_files w
    /\ stdin_isatty w' = false
    /\ stdin_attr w' = raw_mode (stdin_attr w)
    /\ stdin_fl w' = Z.lor (stdin_fl w) O_NONBLOCK
    /\ clock w' = rest /\ stdin_events w' = revs
    /\ stdout w'
       = stdout w ++ checking_message wait_for
           ++ frame_bytes (probe_1, standard_b64encode (b "abcd"))
           ++ frame_bytes (probe_2, standard_b64encode name)
           ++ [ESC; "["%byte; "J"%byte].
Proof.
  intros Hc Ht Htmp Hclock start Hearly Hnow Hevs Hlen Hq.
  destruct (detect_support_hangs_up E wait_for w name lag0 lags lag_now lag_end rest
              evs revs after Hc Ht Htmp Hclock Hearly Hnow Hevs Hlen Hq)
    as (w' & Hrun & Hfiles & Hgone & Hattr & Hfl & Hck & Hev & Hout & _).
  exists w'. repeat split; assumption.
Qed.

(** The terminal goes away 50 milliseconds into the first wait. *)
Lemma detect_support_end_of_input_witness :
  exists w',
    detect_support (Run.library false) 10 Run.hung_up = (Exc TermiosError, w')
    /\ has_files w' = None
    /\ stdin_isatty w' = false
    /\ stdin_attr w' = raw_mode Run.cooked
    /\ stdin_fl w' = Z.lor 2 O_NONBLOCK
    /\ clock w' = [] /\ stdin_events w' = []
    /\ stdout w'
       = [] ++ checking_message 10
           ++ frame_bytes (probe_1, standard_b64encode (b "abcd"))
           ++ frame_bytes (probe_2, standard_b64encode (b "/tmp/tmpq1w2e3"))
           ++ [ESC; "["%byte; "J"%byte].
Proof.
  apply (detect_support_end_of_input (Run.library false) 10 Run.hung_up
           (b "/tmp/tmpq1w2e3") 20000%N [] 20000%N 20000%N [] [] [] 50000000%N).
  - reflexivity.
  - reflexivity.
  - reflexivity.
  - reflexivity.
  - constructor.
  - vm_compute. reflexivity.
  - reflexivity.
  - reflexivity.
  - exact I.
Defined.


(** ** Driver: what is scanned, what is processed, how a run ends *)

(** X24. Without a terminal on both standard streams [main] stops at once:
    the geometry is not asked for, the arguments are not parsed, nothing
    is written. The message names standard output whichever stream it
    is. *)
Theorem main_requires_terminals (E : env) (args : list string) (w : world) :
  stdout_isatty w = false \/ stdin_isatty w = false ->
  main E args w
  = (Exc (SystemExit "Must be run in a terminal, stdout is currently not a terminal"),
     set_sigwinch (Some (Lambda 0 true)) w).
Proof.
  intros H. unfold main. do 3 step.
  cbn [stdout_isatty stdin_isatty set_sigwinch].
  destruct H as [-> | ->]; [reflexivity |].
  rewrite orb_true_r. reflexivity.
Qed.

(** Standard input comes from a pipe. *)
Lemma main_requires_terminals_witness :
  main (Run.library false) ["icat"; "x.png"]%string Run.piped_input
  = (Exc (SystemExit "Must be run in a terminal, stdout is currently not a terminal"),
     set_sigwinch (Some (Lambda 0 true)) Run.piped_input).
Proof.
  apply (main_requires_terminals (Run.library false) ["icat"; "x.png"]%string Run.piped_input).
  right. reflexivity.
Defined.

Lemma ceil_div_zero (b : Z) : ceil_div 0 b = 0.
Proof. unfold ceil_div. cbn [Z.opp]. rewrite Zdiv_0_l. reflexivity. Qed.

Lemma wire_ascii_cons (k : string) (v : pyval) (cmd : dict) :
  is_ascii k = true ->
  match v with PInt _ => True | PStr s => is_ascii s = true end ->
  wire_ascii cmd = true ->
  wire_ascii ((k, v) :: cmd) = true.
Proof.
  intros Hk Hv Ha. unfold wire_ascii in *. cbn [forallb]. rewrite Ha, andb_true_r.
  unfold format_item. cbn [fst snd]. rewrite !is_ascii_append, Hk, is_ascii_format_val.
  destruct v; [reflexivity | exact Hv].
Qed.


(** X15. An SVG file goes through [rsvg-convert] and is sent as one PNG
    transmission: [a=T], [S] the number of bytes of the PNG, [f=100], no
    compression flag. [process] passes a width of zero for it, so the
    cursor is moved half the line to the right and [X] is zero. A
    newline follows the frames. *)
Theorem process_sends_svg_as_png (E : env) (path : string) (png : bytes)
    (w : world) (ss : Size.t) :
  reported_size w = Some ss -> stdout_credit w = None ->
  1 <= Size.cols ss <= Size.width ss -> Size.width ss < 2 ^ 52 ->
  rsvg_convert E path = RsvgOutput png ->
  let text := standard_b64encode png in
  let cmd := [("a", PStr "T"); ("S", PInt (Z.of_nat (length png)));
              ("f", PStr "100"); ("X", PInt 0)]%string in
  let sent := chunk_frames (length text) cmd text in
  exists w',
    process E path "image/svg+xml" w = (Ret tt, w')
    /\ decoded w' = decoded w ++ [path]
    /\ frames w' = frames w ++ sent
    /\ stdout w'
       = stdout w ++ spaces (Size.cols ss / 2) ++ concat (map frame_bytes sent) ++ [newline].
Proof.
  intros Hsz Hcr Hcols HW Hrsvg text cmd sent.
  pose proof (cell_size_positive _ _ Hcols) as Hcw.
  unfold process. rewrite String.eqb_refl.
  erewrite bind_Ret
    by (unfold convert_svg, bind, note_decoded, modify, ret; rewrite Hrsvg; reflexivity).
  set (w1 := set_decoded (decoded w ++ [path]) w).
  cbv beta iota. unfold show. rewrite String.eqb_refl.
  erewrite bind_Ret; cycle 1.
  { erewrite bind_Ret by reflexivity.
    erewrite bind_Ret; cycle 1.
    { apply (set_cursor_narrow _ 0 0 w1 ss); try assumption; try reflexivity; try lia.
      rewrite ceil_div_zero. lia. }
    rewrite ceil_div_zero, Zmod_0_l, Z.sub_0_r.
    erewrite bind_Ret; cycle 1.
    { apply write_chunked_exact; [reflexivity |].
      repeat (apply wire_ascii_cons; [reflexivity | exact I || reflexivity |]).
      reflexivity. }
    reflexivity. }
  rewrite stdout_write_ok by reflexivity.
  eexists. split; [reflexivity |].
  subst w1. cbn. rewrite <- !app_assoc. repeat split; reflexivity.
Qed.

(** The SVG [logo.svg], rasterised into four bytes. *)
Lemma process_sends_svg_as_png_witness :
  let text := standard_b64encode [x89; x50; x4e; x47] in
  let cmd := [("a", PStr "T"); ("S", PInt 4); ("f", PStr "100"); ("X", PInt 0)]%string in
  let sent := chunk_frames (length text) cmd text in
  exists w',
    process svg_library "logo.svg" "image/svg+xml" Run.supporting = (Ret tt, w')
    /\ decoded w' = decoded Run.supporting ++ ["logo.svg"%string]
    /\ frames w' = frames Run.supporting ++ sent
    /\ stdout w'
       = stdout Run.supporting ++ spaces (100 / 2) ++ concat (map frame_bytes sent) ++ [newline].
Proof.
  apply (process_sends_svg_as_png svg_library "logo.svg" [x89; x50; x4e; x47]
           Run.supporting Run.geometry);
    try reflexivity; cbn; lia.
Defined.

(** [process] on a raster image that fits the line. *)
Lemma process_raster_narrow (E : env) (path mt : string) (im0 : pil_image)
    (w : world) (ss : Size.t) :
  String.eqb mt "image/svg+xml" = false ->
  pil_installed E = true ->
  image_open E path = inr im0 ->
  let im := if String.eqb (im_mode im0) "RGB" || String.eqb (im_mode im0) "RGBA"
            then im0 else image_convert_rgba E im0 in
  im_mode im = "RGB"%string \/ im_mode im = "RGBA"%string ->
  reported_size w = Some ss -> stdout_credit w = None ->
  1 <= Size.cols ss <= Size.width ss -> Size.width ss < 2 ^ 52 ->
  let width := fst (im_size im) in
  let height := snd (im_size im) in
  0 <= width < 2 ^ 52 ->
  let cw := Size.width ss / Size.cols ss in
  let n := ceil_div width cw in
  n <= Size.cols ss ->
  let text := standard_b64encode (zlib_compress E (im_bytes im)) in
  let cmd := [("a", PStr "T");
              ("f", PStr (if String.eqb (im_mode im) "RGB" then "24" else "32"));
              ("s", PInt width); ("v", PInt height);
              ("X", PInt (width mod cw)); ("o", PStr "z")]%string in
  let sent := chunk_frames (length text) cmd text in
  process E path mt w
  = (Ret tt,
     set_stdout (stdout w ++ spaces ((Size.cols ss - n) / 2)
                   ++ concat (map frame_bytes sent) ++ [newline]) None
       (set_frames (frames w ++ sent)
          (set_screen_size_ans (Some ss)
             (set_decoded (decoded w ++ [path]) w)))).
Proof.
  intros Hmt Hpil Hopen im Hmode Hsz Hcr Hcols HW width height Hwidth cw n Hn text cmd sent.
  unfold process. rewrite Hmt, Hpil. cbn [negb].
  erewrite bind_Ret
    by (unfold bind, note_decoded, modify, ret; rewrite Hopen; reflexivity).
  fold im. fold width. fold height.
  set (w1 := set_decoded (decoded w ++ [path]) w).
  cbv beta iota. unfold show.
  assert (Hrun :
            (let* cmd0 := lift (add_format_code
                                  (if String.eqb (im_mode im) "PNG"
                                   then dict_set "S" (PInt (Z.of_nat (length (im_bytes im))))
                                          [("a"%string, PStr "T")]
                                   else [("a"%string, PStr "T")])
                                  (im_mode im) width height) in
             let* cmd1 := set_cursor cmd0 width height in
             let* _ := write_chunked E (im_mode im) cmd1 (im_bytes im) in
             ret tt) w1
            = (Ret tt,
               set_frames (frames w ++ sent)
                 (set_stdout (stdout w ++ spaces ((Size.cols ss - n) / 2)
                                ++ concat (map frame_bytes sent)) None
                    (set_screen_size_ans (Some ss) w1)))).
  { assert (Hcmd0 : add_format_code
                      (if String.eqb (im_mode im) "PNG"
                       then dict_set "S" (PInt (Z.of_nat (length (im_bytes im))))
                              [("a"%string, PStr "T")]
                       else [("a"%string, PStr "T")])
                      (im_mode im) width height
                    = Ok [("a", PStr "T");
                          ("f", PStr (if String.eqb (im_mode im) "RGB" then "24" else "32"));
                          ("s", PInt width); ("v", PInt height)]%string)
      by (destruct Hmode as [-> | ->]; reflexivity).
    rewrite Hcmd0, bind_lift_Ok.
    erewrite bind_Ret
      by (apply (set_cursor_narrow _ width height w1 ss); assumption).
    fold cw. fold n.
    erewrite bind_Ret; cycle 1.
    { apply write_chunked_exact; [reflexivity |].
      repeat (apply wire_ascii_cons;
              [reflexivity
              | first [exact I | reflexivity
                      | destruct (String.eqb (im_mode im) "RGB"); reflexivity] |]).
      reflexivity. }
    assert (Hflag : negb (String.eqb (im_mode im) "PNG") = true)
      by (destruct Hmode as [-> | ->]; reflexivity).
    unfold encoded_payload. rewrite Hflag.
    subst w1. unfold ret. cbn. rewrite <- !app_assoc. reflexivity. }
  erewrite bind_Ret by exact Hrun.
  rewrite stdout_write_ok by reflexivity.
  subst w1. destruct w. cbn. rewrite <- !app_assoc. reflexivity.
Qed.

(** X16. A raster image goes through the decoder, is converted to RGBA
    unless it is RGB or RGBA already, and is sent compressed: [a=T],
    [f=24] or [f=32], [s] and [v] its width and height in pixels,
    [o=z], the pixels deflated. When it fits the line it is centred and a
    newline follows the frames. *)
Theorem process_sends_raster_compressed (E : env) (path mt : string) (im0 : pil_image)
    (w : world) (ss : Size.t) :
  String.eqb mt "image/svg+xml" = false ->
  pil_installed E = true ->
  image_open E path = inr im0 ->
  let im := if String.eqb (im_mode im0) "RGB" || String.eqb (im_mode im0) "RGBA"
            then im0 else image_convert_rgba E im0 in
  im_mode im = "RGB"%string \/ im_mode im = "RGBA"%string ->
  reported_size w = Some ss -> stdout_credit w = None ->
  1 <= Size.cols ss <= Size.width ss -> Size.width ss < 2 ^ 52 ->
  let width := fst (im_size im) in
  let height := snd (im_size im) in
  0 <= width < 2 ^ 52 ->
  let cw := Size.width ss / Size.cols ss in
  let n := ceil_div width cw in
  n <= Size.cols ss ->
  let text := standard_b64encode (zlib_compress E (im_bytes im)) in
  let cmd := [("a", PStr "T");
              ("f", PStr (if String.eqb (im_mode im) "RGB" then "24" else "32"));
              ("s", PInt width); ("v", PInt height);
              ("X", PInt (width mod cw)); ("o", PStr "z")]%string in
  let sent := chunk_frames (length text) cmd text in
  exists w',
    process E path mt w = (Ret tt, w')
    /\ decoded w' = decoded w ++ [path]
    /\ frames w' = frames w ++ sent
    /\ stdout w'
       = stdout w ++ spaces ((Size.cols ss - n) / 2)
           ++ concat (map frame_bytes sent) ++ [newline].
Proof.
  intros Hmt Hpil Hopen im Hmode Hsz Hcr Hcols HW width height Hwidth cw n Hn text cmd sent.
  rewrite (process_raster_narrow E path mt im0 w ss Hmt Hpil Hopen Hmode Hsz Hcr Hcols HW
             Hwidth Hn).
  eexists. split; [reflexivity |]. repeat split; reflexivity.
Qed.

(** The picture [x.png], 300 x 200 pixels of RGB, on 100 columns of 10
    pixels. *)
Lemma process_sends_raster_compressed_witness :
  let text := standard_b64encode (Run.stored (repeat x00 12)) in
  let cmd := [("a", PStr "T"); ("f", PStr "24"); ("s", PInt 300); ("v", PInt 200);
              ("X", PInt 0); ("o", PStr "z")]%string in
  let sent := chunk_frames (length text) cmd text in
  exists w',
    process (Run.library false) "x.png" "image/png" Run.supporting = (Ret tt, w')
    /\ decoded w' = decoded Run.supporting ++ ["x.png"%string]
    /\ frames w' = frames Run.supporting ++ sent
    /\ stdout w'
       = stdout Run.supporting ++ spaces 35 ++ concat (map frame_bytes sent) ++ [newline].
Proof.
  apply (process_sends_raster_compressed (Run.library false) "x.png" "image/png"
           Run.small_image Run.supporting Run.geometry);
    try reflexivity; cbn; try lia.
  - left. reflexivity.
  - vm_compute. discriminate.
Defined.

(** ** Driver: a whole run *)

(** [main] up to the answer of the terminal. *)
Lemma main_negotiated (E : env) (args items : list string) (w : world) (ss : Size.t)
    (name : bytes) (evs revs : list stdin_event) (d : bytes) (rest : list N) :
  stdout_isatty w = true -> stdin_isatty w = true ->
  reported_size w = Some ss -> Size.width ss <> 0 ->
  parse_args E (tl args) = Ok items -> items <> [] ->
  stdout_credit w = None -> tmp_name E = Some name ->
  resolved_by E 10 w evs d rest revs ->
  exists w2,
    main E args w
    = (if negb (answer 1 (first_answers evs d)) then raise unsupported
       else
         let* errors := process_items E items [] in
         if negb (nonempty errors) then ret tt
         else
           do for_each errors (fun err => print_stderr (OpenFailed_str err)) then
           raise (SystemExitCode 1)) w2
    /\ has_files w2 = Some (answer 2 (first_answers evs d))
    /\ stdin_attr w2 = stdin_attr w /\ stdin_fl w2 = stdin_fl w
    /\ clock w2 = rest /\ stdin_events w2 = revs
    /\ stdout_credit w2 = None
    /\ screen_size_ans w2 = Some ss
    /\ decoded w2 = decoded w /\ stderr w2 = stderr w
    /\ sigwinch w2 = Some (Lambda 0 true)
    /\ frames w2
       = frames w ++ [(probe_1, standard_b64encode (b "abcd"));
                      (probe_2, standard_b64encode name)]
    /\ stdout w2
       = stdout w ++ checking_message 10
           ++ frame_bytes (probe_1, standard_b64encode (b "abcd"))
           ++ frame_bytes (probe_2, standard_b64encode name)
           ++ [ESC; "["%byte; "J"%byte].
Proof.
  intros Hout Hin Hsz Hwidth Hargs Hitems Hcr Htmp Hres.
  unfold main. do 3 step.
  cbn [stdout_isatty stdin_isatty set_sigwinch]. rewrite Hout, Hin. cbn [negb orb].
  set (w0 := set_sigwinch (Some (Lambda 0 true)) w).
  erewrite bind_Ret by (apply screen_size_answers; exact Hsz).
  rewrite (proj2 (Z.eqb_neq _ _) Hwidth).
  rewrite Hargs, bind_lift_Ok.
  rewrite (proj2 (nonempty_true items) Hitems). cbn [negb].
  set (w1 := set_screen_size_ans (Some ss) w0).
  destruct (detect_support_resolves E 10 w1 name evs revs d rest Hcr Hin Htmp Hres)
    as (w2 & Hrun & Hfiles & Hattr & Hfl & Hck & Hev & Hcr2 & _ & Hans & _ & Hdec & Herr
        & Hsig & Hfr & Hso).
  erewrite bind_Ret by exact Hrun.
  exists w2. split; [reflexivity |].
  repeat split; assumption.
Qed.

(** X25. A terminal whose first answer does not accept probe 1 (it refuses
    it, or answers probe 2 only) is unsupported: [main] exits with the
    message that says so, having opened no file and sent nothing but the
    probes, and leaves the terminal as it was. *)
Theorem main_refuses_unsupported_terminal (E : env) (args items : list string)
    (w : world) (ss : Size.t) (name : bytes) (evs revs : list stdin_event) (d : bytes)
    (rest : list N) :
  stdout_isatty w = true -> stdin_isatty w = true ->
  reported_size w = Some ss -> Size.width ss <> 0 ->
  parse_args E (tl args) = Ok items -> items <> [] ->
  stdout_credit w = None -> tmp_name E = Some name ->
  resolved_by E 10 w evs d rest revs ->
  answer 1 (first_answers evs d) = false ->
  exists w',
    main E args w = (Exc unsupported, w')
    /\ decoded w' = decoded w
    /\ frames w'
       = frames w ++ [(probe_1, standard_b64encode (b "abcd"));
                      (probe_2, standard_b64encode name)]
    /\ stdin_attr w' = stdin_attr w /\ stdin_fl w' = stdin_fl w.
Proof.
  intros Hout Hin Hsz Hwidth Hargs Hitems Hcr Htmp Hres Hno.
  destruct (main_negotiated E args items w ss name evs revs d rest
              Hout Hin Hsz Hwidth Hargs Hitems Hcr Htmp Hres)
    as (w2 & Hrun & _ & Hattr & Hfl & _ & _ & _ & _ & Hdec & _ & _ & Hfr & _).
  rewrite Hno in Hrun. exists w2. repeat split; assumption.
Qed.

(** The terminal refuses the first probe. *)
Lemma main_refuses_unsupported_terminal_witness :
  let w := Run.terminal Run.geometry None (Run.brisk 3)
             [Data 50000000 (Run.response "1" "ENOTSUPPORTED")] in
  exists w',
    main (Run.library false) ["icat"; "x.png"]%string w = (Exc unsupported, w')
    /\ decoded w' = decoded w
    /\ frames w'
       = frames w ++ [(probe_1, standard_b64encode (b "abcd"));
                      (probe_2, standard_b64encode (b "/tmp/tmpq1w2e3"))]
    /\ stdin_attr w' = stdin_attr w /\ stdin_fl w' = stdin_fl w.
Proof.
  apply (main_refuses_unsupported_terminal (Run.library false) ["icat"; "x.png"]%string
           ["x.png"%string] _ Run.geometry (b "/tmp/tmpq1w2e3") [] []
           (Run.response "1" "ENOTSUPPORTED") []);
    try reflexivity; try discriminate.
  exists 20000%N, [], 20000%N, 20000%N, 50000000%N.
  split; [reflexivity |]. split; [reflexivity |]. split; [reflexivity |].
  split; [constructor |]. split; [vm_compute; reflexivity |]. split; [exact I |].
  split; [discriminate |]. left. eexists. vm_compute. reflexivity.
Defined.

(** X31. When the terminal hangs up while [main] waits for the answers to
    its probes, the run does not end with the message for a terminal
    without graphics: [termios.error] leaves [detect_support] and [main]
    uncaught. No file has been opened, nothing went to standard error,
    and standard input is left in raw and non-blocking mode. *)
Theorem main_fails_when_terminal_hangs_up (E : env) (args items : list string)
    (w : world) (ss : Size.t) (name : bytes) (lag0 : N) (lags : list N)
    (lag_now lag_end : N) (rest : list N) (evs revs : list stdin_event) (after : N) :
  stdout_isatty w = true -> stdin_isatty w = true ->
  reported_size w = Some ss -> Size.width ss <> 0 ->
  parse_args E (tl args) = Ok items -> items <> [] ->
  stdout_credit w = None -> tmp_name E = Some name ->
  clock w = lag0 :: lags ++ lag_now :: lag_end :: rest ->
  let start := (now w + lag0)%N in
  Forall (fun t => in_time E 10 start t = true) (test_times start lags evs) ->
  in_time E 10 start (time_after start lags evs + lag_now) = true ->
  stdin_events w = evs ++ Data after [] :: revs ->
  length evs = length lags ->
  quiet [] evs ->
  exists w',
    main E args w = (Exc TermiosError, w')
    /\ decoded w' = decoded w /\ stderr w' = stderr w
    /\ has_files w' = has_files w
    /\ stdin_attr w' = raw_mode (stdin_attr w)
    /\ stdin_fl w' = Z.lor (stdin_fl w) O_NONBLOCK.
Proof.
  intros Hout Hin Hsz Hwidth Hargs Hitems Hcr Htmp Hclock start Hearly Hnow Hevs Hlen Hq.
  unfold main. do 3 step.
  cbn [stdout_isatty stdin_isatty set_sigwinch]. rewrite Hout, Hin. cbn [negb orb].
  set (w0 := set_sigwinch (Some (Lambda 0 true)) w).
  erewrite bind_Ret by (apply screen_size_answers; exact Hsz).
  rewrite (proj2 (Z.eqb_neq _ _) Hwidth).
  rewrite Hargs, bind_lift_Ok.
  rewrite (proj2 (nonempty_true items) Hitems). cbn [negb].
  set (w1 := set_screen_size_ans (Some ss) w0).
  destruct (detect_support_hangs_up E 10 w1 name lag0 lags lag_now lag_end rest
              evs revs after Hcr Hin Htmp Hclock Hearly Hnow Hevs Hlen Hq)
    as (w' & Hrun & Hfiles & _ & Hattr & Hfl & _ & _ & _ & Hdec & Herr).
  exists w'. split.
  - unfold bind at 1. rewrite Hrun. reflexivity.
  - repeat split; assumption.
Qed.

(** [icat x.png] on a terminal that goes away 50 milliseconds into the
    first wait. *)
Lemma main_fails_when_terminal_hangs_up_witness :
  exists w',
    main (Run.library false) ["icat"; "x.png"]%string Run.hung_up = (Exc TermiosError, w')
    /\ decoded w' = decoded Run.hung_up /\ stderr w' = stderr Run.hung_up
    /\ has_files w' = has_files Run.hung_up
    /\ stdin_attr w' = raw_mode (stdin_attr Run.hung_up)
    /\ stdin_fl w' = Z.lor (stdin_fl Run.hung_up) O_NONBLOCK.
Proof.
  apply (main_fails_when_terminal_hangs_up (Run.library false) ["icat"; "x.png"]%string
           ["x.png"%string] Run.hung_up Run.geometry (b "/tmp/tmpq1w2e3")
           20000%N [] 20000%N 20000%N [] [] [] 50000000%N).
  - reflexivity.
  - reflexivity.
  - reflexivity.
  - discriminate.
  - reflexivity.
  - discriminate.
  - reflexivity.
  - reflexivity.
  - reflexivity.
  - constructor.
  - vm_compute. reflexivity.
  - reflexivity.
  - reflexivity.
  - exact I.
Defined.

(** An item that cannot be opened is recorded and the loop goes on. *)
Lemma process_item_unreadable (E : env) (item : string) (errors : list (string * string))
    (w : world) (message : string) :
  isdir E item = false ->
  open_error E item = Some message ->
  process_item E item errors w
  = (Ret (errors ++ [(item, message)]), set_decoded (decoded w ++ [item]) w).
Proof.
  intros Hdir Herr. unfold open_error in Herr.
  unfold process_item, try_except_OpenFailed. rewrite Hdir.
  unfold bind at 1. unfold process. fold (item_type E item).
  destruct (String.eqb (item_type E item) "image/svg+xml").
  - unfold bind, convert_svg, note_decoded, modify, raise, ret.
    destruct (rsvg_convert E item); inversion Herr. reflexivity.
  - destruct (pil_installed E); [| discriminate]. cbn [negb].
    unfold bind, note_decoded, modify, raise, ret.
    destruct (image_open E item); inversion Herr. reflexivity.
Qed.

Lemma process_items_unreadable (E : env) :
  forall (items : list string) (errors : list (string * string)) (w : world),
    Forall (unreadable E) items ->
    process_items E items errors w
    = (Ret (errors
              ++ map (fun item =>
                        (item, match open_error E item with
                               | Some message => message
                               | None => ""%string
                               end)) items),
       set_decoded (decoded w ++ items) w).
Proof.
  induction items as [| item items IH]; intros errors w Hall.
  - cbn [process_items map]. rewrite !app_nil_r. destruct w; reflexivity.
  - inversion Hall as [| ? ? (Hdir & message & Herr) Hrest]; subst.
    cbn [process_items].
    erewrite bind_Ret by (apply process_item_unreadable; [exact Hdir | exact Herr]).
    rewrite IH by exact Hrest.
    cbn [map]. rewrite Herr. destruct w; cbn. rewrite <- !app_assoc. reflexivity.
Qed.

Lemma for_each_print_stderr (lines : list (string * string)) :
  forall w : world,
    for_each lines (fun err => print_stderr (OpenFailed_str err)) w
    = (Ret tt, set_stderr (stderr w ++ map OpenFailed_str lines) w).
Proof.
  induction lines as [| l lines IH]; intros w.
  - cbn [for_each map]. rewrite app_nil_r. destruct w; reflexivity.
  - cbn [for_each]. erewrite bind_Ret by reflexivity.
    rewrite IH. cbn [map]. destruct w; cbn. rewrite <- app_assoc. reflexivity.
Qed.

(** X26. Files that cannot be opened (the decoder refuses them, or
    [rsvg-convert] fails on them) do not stop the run: every item is
    tried, in order; then one line per item goes to standard error,
    [Failed to open: <item> with error: <text>], in order too, and
    [main] exits with status 1. No image frame is sent. *)
Theorem main_reports_every_open_failure (E : env) (args items : list string)
    (w : world) (ss : Size.t) (name : bytes) (evs revs : list stdin_event) (d : bytes)
    (rest : list N) :
  stdout_isatty w = true -> stdin_isatty w = true ->
  reported_size w = Some ss -> Size.width ss <> 0 ->
  parse_args E (tl args) = Ok items -> items <> [] ->
  stdout_credit w = None -> tmp_name E = Some name ->
  resolved_by E 10 w evs d rest revs ->
  answer 1 (first_answers evs d) = true ->
  Forall (unreadable E) items ->
  exists w',
    main E args w = (Exc (SystemExitCode 1), w')
    /\ decoded w' = decoded w ++ items
    /\ stderr w' = stderr w ++ map (failure_line E) items
    /\ frames w'
       = frames w ++ [(probe_1, standard_b64encode (b "abcd"));
                      (probe_2, standard_b64encode name)]
    /\ stdin_attr w' = stdin_attr w /\ stdin_fl w' = stdin_fl w.
Proof.
  intros Hout Hin Hsz Hwidth Hargs Hitems Hcr Htmp Hres Hyes Hall.
  destruct (main_negotiated E args items w ss name evs revs d rest
              Hout Hin Hsz Hwidth Hargs Hitems Hcr Htmp Hres)
    as (w2 & Hrun & _ & Hattr & Hfl & _ & _ & _ & _ & Hdec & Herr & _ & Hfr & _).
  rewrite Hyes in Hrun. cbn [negb] in Hrun.
  erewrite bind_Ret in Hrun by (apply (process_items_unreadable E); exact Hall).
  cbn [app] in Hrun.
  match type of Hrun with
  | context [nonempty ?l] =>
      assert (Hne : nonempty l = true) by (destruct items; [congruence | reflexivity])
  end.
  rewrite Hne in Hrun. cbn [negb] in Hrun.
  erewrite bind_Ret in Hrun by apply for_each_print_stderr.
  eexists. split; [exact Hrun |].
  cbn. rewrite Hdec, Herr, map_map. repeat split; assumption.
Qed.

(** A name the decoder cannot identify and an SVG that [rsvg-convert]
    cannot process. *)
Lemma main_reports_every_open_failure_witness :
  let w := Run.supporting in
  exists w',
    main blind_library ["icat"; "a.txt"; "b.svg"]%string w = (Exc (SystemExitCode 1), w')
    /\ decoded w' = decoded w ++ ["a.txt"; "b.svg"]%string
    /\ stderr w' = stderr w ++ map (failure_line blind_library) ["a.txt"; "b.svg"]%string
    /\ frames w'
       = frames w ++ [(probe_1, standard_b64encode (b "abcd"));
                      (probe_2, standard_b64encode (b "/tmp/tmpq1w2e3"))]
    /\ stdin_attr w' = stdin_attr w /\ stdin_fl w' = stdin_fl w.
Proof.
  apply (main_reports_every_open_failure blind_library
           ["icat"; "a.txt"; "b.svg"]%string ["a.txt"; "b.svg"]%string
           Run.supporting Run.geometry (b "/tmp/tmpq1w2e3") [] [] (Run.response "1" "OK") []);
    try reflexivity; try discriminate.
  - exists 20000%N, [], 20000%N, 20000%N, 50000000%N.
    split; [reflexivity |]. split; [reflexivity |]. split; [reflexivity |].
    split; [constructor |]. split; [vm_compute; reflexivity |]. split; [exact I |].
    split; [discriminate |]. left. eexists. vm_compute. reflexivity.
  - repeat constructor; eexists; reflexivity.
Defined.

(** X27. A fatal error is not collected: where the decoder is missing (for a
    file that is not an SVG) or [rsvg-convert] is missing (for an SVG),
    the item ends the loop with [SystemExit]. The items after it are not
    tried, and the failures recorded before it are dropped with the list,
    never printed. *)
Theorem process_items_stop_at_fatal_error (E : env) (item : string)
    (later : list string) (errors : list (string * string)) (w : world) (e : exn) :
  isdir E item = false ->
  fatal_error E item = Some e ->
  exists w',
    process_items E (item :: later) errors w = (Exc e, w')
    /\ stdout w' = stdout w /\ frames w' = frames w /\ stderr w' = stderr w
    /\ forall p, In p (decoded w') -> In p (decoded w) \/ p = item.
Proof.
  intros Hdir Hfatal. unfold fatal_error in Hfatal. cbn [process_items].
  unfold bind at 1. unfold process_item, try_except_OpenFailed. rewrite Hdir.
  unfold bind at 1. unfold process. fold (item_type E item).
  destruct (String.eqb (item_type E item) "image/svg+xml").
  - unfold bind, convert_svg, note_decoded, modify, raise, ret.
    destruct (rsvg_convert E item); inversion Hfatal.
    eexists. split; [reflexivity |]. repeat split; try reflexivity.
    cbn. intros p Hp. apply in_app_or in Hp as [Hp | [<- | []]]; auto.
  - destruct (pil_installed E); [discriminate |]. inversion Hfatal.
    exists w. split; [reflexivity |]. repeat split; try reflexivity. auto.
Qed.

(** Three names on a system without the decoder, one failure on record. *)
Lemma process_items_stop_at_fatal_error_witness :
  exists w',
    process_items bare_library ["x.png"; "y.png"; "z.png"]%string
      [("w.svg", "rsvg-convert could not process the image")]%string Run.supporting
    = (Exc (SystemExit "You need to install the python-pillow package for image support"), w')
    /\ stdout w' = stdout Run.supporting /\ frames w' = frames Run.supporting
    /\ stderr w' = stderr Run.supporting
    /\ forall p, In p (decoded w') -> In p (decoded Run.supporting) \/ p = "x.png"%string.
Proof.
  apply (process_items_stop_at_fatal_error bare_library "x.png" ["y.png"; "z.png"]%string
           [("w.svg", "rsvg-convert could not process the image")]%string Run.supporting);
    reflexivity.
Defined.

(** X28. A whole run on one raster image that fits the line, on a terminal
    that accepts probe 1: [main] returns normally. What it has written
    is the message, the two probes, the erase sequence, the spaces that
    centre the image, the frames of the image and a newline; the file was
    opened once; nothing went to standard error; the terminal is as it
    was. *)
Theorem main_shows_a_raster_image (E : env) (args : list string) (item : string)
    (im0 : pil_image) (w : world) (ss : Size.t) (name : bytes)
    (evs revs : list stdin_event) (d : bytes) (rest : list N) :
  stdout_isatty w = true -> stdin_isatty w = true ->
  reported_size w = Some ss ->
  1 <= Size.cols ss <= Size.width ss -> Size.width ss < 2 ^ 52 ->
  parse_args E (tl args) = Ok [item] ->
  stdout_credit w = None -> tmp_name E = Some name ->
  resolved_by E 10 w evs d rest revs ->
  answer 1 (first_answers evs d) = true ->
  isdir E item = false ->
  String.eqb (item_type E item) "image/svg+xml" = false ->
  pil_installed E = true ->
  image_open E item = inr im0 ->
  let im := if String.eqb (im_mode im0) "RGB" || String.eqb (im_mode im0) "RGBA"
            then im0 else image_convert_rgba E im0 in
  im_mode im = "RGB"%string \/ im_mode im = "RGBA"%string ->
  let width := fst (im_size im) in
  let height := snd (im_size im) in
  0 <= width < 2 ^ 52 ->
  let cw := Size.width ss / Size.cols ss in
  let n := ceil_div width cw in
  n <= Size.cols ss ->
  let text := standard_b64encode (zlib_compress E (im_bytes im)) in
  let cmd := [("a", PStr "T");
              ("f", PStr (if String.eqb (im_mode im) "RGB" then "24" else "32"));
              ("s", PInt width); ("v", PInt height);
              ("X", PInt (width mod cw)); ("o", PStr "z")]%string in
  let sent := chunk_frames (length text) cmd text in
  let first := (probe_1, standard_b64encode (b "abcd")) in
  let second := (probe_2, standard_b64encode name) in
  exists w',
    main E args w = (Ret tt, w')
    /\ decoded w' = decoded w ++ [item]
    /\ frames w' = frames w ++ [first; second] ++ sent
    /\ stdout w'
       = stdout w ++ checking_message 10 ++ frame_bytes first ++ frame_bytes second
           ++ [ESC; "["%byte; "J"%byte]
           ++ spaces ((Size.cols ss - n) / 2) ++ concat (map frame_bytes sent) ++ [newline]
    /\ stderr w' = stderr w
    /\ stdin_attr w' = stdin_attr w /\ stdin_fl w' = stdin_fl w.
Proof.
  intros Hout Hin Hsz Hcols HW Hargs Hcr Htmp Hres Hyes Hdir Htype Hpil Hopen im Hmode
    width height Hwidth cw n Hn text cmd sent first second.
  destruct (main_negotiated E args [item] w ss name evs revs d rest
              Hout Hin Hsz ltac:(lia) Hargs ltac:(discriminate) Hcr Htmp Hres)
    as (w2 & Hrun & _ & Hattr & Hfl & _ & _ & Hcr2 & Hans & Hdec & Herr & _ & Hfr & Hso).
  rewrite Hyes in Hrun. cbn [negb] in Hrun.
  assert (Hsz2 : reported_size w2 = Some ss) by (unfold reported_size; rewrite Hans; reflexivity).
  assert (Hitems : process_items E [item] [] w2
                   = (Ret [],
                      set_stdout (stdout w2 ++ spaces ((Size.cols ss - n) / 2)
                                    ++ concat (map frame_bytes sent) ++ [newline]) None
                        (set_frames (frames w2 ++ sent)
                           (set_screen_size_ans (Some ss)
                              (set_decoded (decoded w2 ++ [item]) w2))))).
  { cbn [process_items]. unfold process_item, try_except_OpenFailed. rewrite Hdir.
    unfold bind at 1. unfold bind at 1. fold (item_type E item).
    rewrite (process_raster_narrow E item (item_type E item) im0 w2 ss
               Htype Hpil Hopen Hmode Hsz2 Hcr2 Hcols HW Hwidth Hn).
    reflexivity. }
  erewrite bind_Ret in Hrun by exact Hitems.
  cbn [nonempty negb] in Hrun.
  eexists. split; [exact Hrun |].
  cbn. rewrite Hdec, Hfr, Hso, Herr, <- !app_assoc. cbn [app].
  repeat split; assumption.
Qed.

(** [icat x.png] on the terminal of [Run.supporting]. *)
Lemma main_shows_a_raster_image_witness :
  let w := Run.supporting in
  let text := standard_b64encode (Run.stored (repeat x00 12)) in
  let cmd := [("a", PStr "T"); ("f", PStr "24"); ("s", PInt 300); ("v", PInt 200);
              ("X", PInt 0); ("o", PStr "z")]%string in
  let sent := chunk_frames (length text) cmd text in
  let first := (probe_1, standard_b64encode (b "abcd")) in
  let second := (probe_2, standard_b64encode (b "/tmp/tmpq1w2e3")) in
  exists w',
    main (Run.library false) ["icat"; "x.png"]%string w = (Ret tt, w')
    /\ decoded w' = decoded w ++ ["x.png"%string]
    /\ frames w' = frames w ++ [first; second] ++ sent
    /\ stdout w'
       = stdout w ++ checking_message 10 ++ frame_bytes first ++ frame_bytes second
           ++ [ESC; "["%byte; "J"%byte]
           ++ spaces 35 ++ concat (map frame_bytes sent) ++ [newline]
    /\ stderr w' = stderr w
    /\ stdin_attr w' = stdin_attr w /\ stdin_fl w' = stdin_fl w.
Proof.
  apply (main_shows_a_raster_image (Run.library false) ["icat"; "x.png"]%string "x.png"
           Run.small_image Run.supporting Run.geometry (b "/tmp/tmpq1w2e3")
           [] [] (Run.response "1" "OK") []);
    try reflexivity; try (cbn; lia).
  - exists 20000%N, [], 20000%N, 20000%N, 50000000%N.
    split; [reflexivity |]. split; [reflexivity |]. split; [reflexivity |].
    split; [constructor |]. split; [vm_compute; reflexivity |]. split; [exact I |].
    split; [discriminate |]. left. eexists. vm_compute. reflexivity.
  - left. reflexivity.
  - vm_compute. discriminate.
Defined.

(** ** What a whole run leaves behind *)

Section Maintained.

Variable P : world -> Prop.

Lemma maintains_ret {A} (a : A) : maintains P (ret a).
Proof. intros w r w' H _ HP. inversion H; subst. exact HP. Qed.

Lemma maintains_raise {A} (e : exn) : maintains P (@raise A e).
Proof. intros w r w' H _ HP. inversion H; subst. exact HP. Qed.

Lemma maintains_lift {A} (x : result A) : maintains P (lift x).
Proof. destruct x; [apply maintains_ret | apply maintains_raise]. Qed.

Lemma maintains_get {A} (f : world -> A) : maintains P (get f).
Proof. intros w r w' H _ HP. inversion H; subst. exact HP. Qed.

Lemma maintains_modify (f : world -> world) :
  (forall w, P w -> P (f w)) -> maintains P (modify f).
Proof. intros Hf w r w' H _ HP. inversion H; subst. apply Hf. exact HP. Qed.

Lemma maintains_bind {A B} (m : M A) (k : A -> M B) :
  maintains P m -> (forall a, maintains P (k a)) -> maintains P (bind m k).
Proof.
  intros Hm Hk w r w' H Hr HP. unfold bind in H.
  destruct (m w) as [[a | e |] w1] eqn:E1.
  - apply (Hk a w1 r w' H Hr). apply (Hm w _ w1 E1); [discriminate | exact HP].
  - inversion H; subst. apply (Hm w _ w' E1); [discriminate | exact HP].
  - inversion H; subst. congruence.
Qed.

Lemma maintains_try_except {A} (body : M A) (handler : string -> string -> M A) :
  maintains P body -> (forall p m, maintains P (handler p m)) ->
  maintains P (try_except_OpenFailed body handler).
Proof.
  intros Hb Hh w r w' H Hr HP. unfold try_except_OpenFailed in H.
  destruct (body w) as [rb w1] eqn:E1.
  destruct rb as [a | e |].
  - inversion H; subst. apply (Hb w _ w' E1); [discriminate | exact HP].
  - destruct e; try (inversion H; subst; apply (Hb w _ w' E1); [discriminate | exact HP]).
    apply (Hh path message w1 r w' H Hr).
    apply (Hb w _ w1 E1); [discriminate | exact HP].
  - inversion H; subst. congruence.
Qed.

Lemma maintains_for_each {A} (l : list A) (body : A -> M unit) :
  (forall x, maintains P (body x)) -> maintains P (for_each l body).
Proof.
  intros Hb. induction l as [| x l IH]; cbn [for_each].
  - apply maintains_ret.
  - apply maintains_bind; [apply Hb | intros _; exact IH].
Qed.

Variable E : env.

Hypothesis P_write : forall bs, maintains P (stdout_write bs).
Hypothesis P_size : maintains P (screen_size false).
Hypothesis P_frames : forall v w, P w -> P (set_frames v w).
Hypothesis P_decoded : forall v w, P w -> P (set_decoded v w).
Hypothesis P_stderr : forall v w, P w -> P (set_stderr v w).
Hypothesis P_sigwinch : forall v w, P w -> P (set_sigwinch v w).
Hypothesis P_detect : forall wait_for, maintains P (detect_support E wait_for).

Lemma maintains_write_gr_cmd (cmd : dict) (payload : bytes) :
  maintains P (write_gr_cmd cmd payload).
Proof.
  unfold write_gr_cmd, stdout_flush, log_frame.
  repeat first
    [ apply P_write | apply maintains_lift
    | apply maintains_modify; intros; apply P_frames; assumption
    | apply maintains_bind; [| intros ?] ].
Qed.

Lemma maintains_write_chunks (fuel : nat) :
  forall cmd data, maintains P (write_chunks fuel cmd data).
Proof.
  induction fuel as [| fuel IH]; intros cmd data; cbn [write_chunks];
    destruct (nonempty data); try apply maintains_ret.
  - intros w r w' H Hr. inversion H; subst. congruence.
  - apply maintains_bind; [apply maintains_write_gr_cmd | intros _; apply IH].
Qed.

Lemma maintains_write_chunked (mode : string) (cmd : dict) (data : bytes) :
  maintains P (write_chunked E mode cmd data).
Proof.
  unfold write_chunked. destruct (negb (String.eqb mode "PNG")); apply maintains_write_chunks.
Qed.

Lemma maintains_set_cursor (cmd : dict) (width height : Z) :
  maintains P (set_cursor cmd width height).
Proof.
  unfold set_cursor.
  apply maintains_bind; [apply P_size | intros ss].
  apply maintains_bind; [apply maintains_lift | intros cw].
  apply maintains_bind; [apply maintains_lift | intros cells].
  destruct (Size.cols ss <? cells).
  - repeat first [apply maintains_ret | apply maintains_lift
                 | apply maintains_bind; [| intros ?]].
  - apply maintains_bind; [| intros _; apply maintains_ret].
    destruct (_ =? 0); [apply maintains_ret | apply P_write].
Qed.

Lemma maintains_show (data : bytes) (mode : string) (width height : Z) :
  maintains P (show E data mode width height).
Proof.
  unfold show.
  apply maintains_bind; [apply maintains_lift | intros cmd].
  apply maintains_bind; [apply maintains_set_cursor | intros cmd'].
  apply maintains_bind; [apply maintains_write_chunked | intros _].
  apply maintains_ret.
Qed.

Lemma maintains_note_decoded (path : string) : maintains P (note_decoded path).
Proof. unfold note_decoded. apply maintains_modify. intros w HP. apply P_decoded. exact HP. Qed.

Lemma maintains_process (path mt : string) : maintains P (process E path mt).
Proof.
  unfold process. apply maintains_bind.
  - destruct (String.eqb mt "image/svg+xml").
    + apply maintains_bind; [| intros data; apply maintains_ret].
      unfold convert_svg.
      apply maintains_bind; [apply maintains_note_decoded | intros _].
      destruct (rsvg_convert E path); [apply maintains_ret | apply maintains_raise ..].
    + destruct (negb (pil_installed E)); [apply maintains_raise |].
      apply maintains_bind; [apply maintains_note_decoded | intros _].
      destruct (image_open E path); [apply maintains_raise | apply maintains_ret].
  - intros [[[data mode] width] height].
    apply maintains_bind; [apply maintains_show | intros _; apply P_write].
Qed.

Lemma maintains_process_item (item : string) (errors : list (string * string)) :
  maintains P (process_item E item errors).
Proof.
  unfold process_item. apply maintains_try_except.
  - apply maintains_bind; [| intros _; apply maintains_ret].
    destruct (isdir E item).
    + apply maintains_for_each. intros [x mt]. apply maintains_process.
    + apply maintains_process.
  - intros p m. apply maintains_ret.
Qed.

Lemma maintains_process_items (items : list string) :
  forall errors, maintains P (process_items E items errors).
Proof.
  induction items as [| item items IH]; intros errors; cbn [process_items].
  - apply maintains_ret.
  - apply maintains_bind; [apply maintains_process_item | intros errors'; apply IH].
Qed.

Lemma maintains_main (args : list string) : maintains P (main E args).
Proof.
  unfold main.
  apply maintains_bind;
    [apply maintains_modify; intros w HP; apply P_sigwinch; exact HP | intros _].
  apply maintains_bind; [apply maintains_get | intros out_tty].
  apply maintains_bind; [apply maintains_get | intros in_tty].
  destruct (negb out_tty || negb in_tty); [apply maintains_raise |].
  apply maintains_bind; [apply P_size | intros ss].
  destruct (Size.width ss =? 0); [apply maintains_raise |].
  apply maintains_bind; [apply maintains_lift | intros items].
  destruct (negb (nonempty items)); [apply maintains_raise |].
  apply maintains_bind; [apply P_detect | intros supported].
  destruct (negb supported); [apply maintains_raise |].
  apply maintains_bind; [apply maintains_process_items | intros errors].
  destruct (negb (nonempty errors)); [apply maintains_ret |].
  apply maintains_bind; [| intros _; apply maintains_raise].
  apply maintains_for_each. intros err. unfold print_stderr.
  apply maintains_modify. intros w HP. apply P_stderr. exact HP.
Qed.

End Maintained.

Lemma detect_support_credit (E : env) (wait_for : Z) (w w' : world) (r : outcome bool) :
  stdout_credit w = None ->
  detect_support E wait_for w = (r, w') ->
  r <> Starved ->
  stdout_credit w' = None.
Proof.
  intros Hc Hrun Hr.
  destruct (stdin_isatty w) eqn:Ht;
    [| rewrite (detect_support_not_a_terminal E wait_for w Ht) in Hrun;
       inversion Hrun; subst; exact Hc].
  rewrite (detect_support_enters E wait_for w Hc Ht) in Hrun.
  unfold bind at 1 in Hrun. unfold try_finally in Hrun.
  destruct (negotiate E wait_for (entered wait_for w)) as [body w1] eqn:Hbody.
  assert (Hc1 : stdout_credit w1 = None).
  { eapply negotiate_credit; [| exact Hbody]. reflexivity. }
  rewrite (restore_terminal_exact _ _ w1 Hc1) in Hrun.
  destruct body as [responses | e |]; [| | inversion Hrun; subst; congruence];
    destruct (stdin_isatty w1);
    unfold bind, modify, ret in Hrun; inversion Hrun; subst; reflexivity.
Qed.

(** A terminal that has hung up does not come back during the call. *)
Lemma detect_support_gone (E : env) (wait_for : Z) (w w' : world) (r : outcome bool) :
  stdout_credit w = None ->
  detect_support E wait_for w = (r, w') ->
  stdin_isatty w' = true -> stdin_isatty w = true.
Proof.
  intros Hc Hrun Hthere.
  destruct (stdin_isatty w) eqn:Ht; [reflexivity |].
  rewrite (detect_support_not_a_terminal E wait_for w Ht) in Hrun.
  inversion Hrun; subst. congruence.
Qed.



(** ** Geometry: the cache *)

(** X1. The geometry is asked of the terminal once. After a call that
    answered, every call without [refresh] gives the same answer without
    an ioctl, also when the terminal has been resized since, or has gone
    away. *)
Theorem screen_size_answers_from_cache (w w1 : world) (sz : Size.t)
    (reported : option Size.t) :
  screen_size false w = (Ret sz, w1) ->
  let later :=
    World reported (screen_size_ans w1) (stdout w1) (stdout_credit w1) (stdout_isatty w1)
      (stdin_isatty w1) (stdin_attr w1) (stdin_fl w1) (now w1) (clock w1)
      (stdin_events w1) (has_files w1) (decoded w1) (stderr w1) (sigwinch w1)
      (frames w1) in
  screen_size false later = (Ret sz, later).
Proof.
  intros H later. unfold screen_size, bind, get in H.
  assert (Hans : screen_size_ans w1 = Some sz).
  { destruct (screen_size_ans w) as [cached |] eqn:Hc.
    - inversion H; subst. exact Hc.
    - unfold ioctl_TIOCGWINSZ in H. destruct (tty_winsize w); inversion H; subst.
      reflexivity. }
  unfold screen_size, bind, get. subst later. cbn [screen_size_ans]. rewrite Hans.
  reflexivity.
Qed.

(** The terminal of 50 x 100 cells is resized to 24 x 80 after the first
    call. *)
Lemma screen_size_answers_from_cache_witness :
  let w1 := snd (screen_size false Run.supporting) in
  let later := resize (Size.Make 24 80 640 384) w1 in
  screen_size false later = (Ret Run.geometry, later).
Proof.
  apply (screen_size_answers_from_cache Run.supporting
           (snd (screen_size false Run.supporting)) Run.geometry
           (Some (Size.Make 24 80 640 384))).
  reflexivity.
Defined.

(** On a refresh the terminal is asked again and its answer replaces
    the cache; when the ioctl fails the call raises [OSError] and the
    cache keeps what it had. *)
Lemma screen_size_refresh_asks_again (w : world) :
  match tty_winsize w with
  | Some sz =>
      exists w', screen_size true w = (Ret sz, w')
                 /\ screen_size_ans w' = Some sz
                 /\ screen_size false w' = (Ret sz, w')
  | None => screen_size true w = (Exc OSError, w)
  end.
Proof.
  unfold screen_size at 1 3. unfold bind, get, ioctl_TIOCGWINSZ.
  destruct (tty_winsize w) as [sz |]; [| destruct (screen_size_ans w); reflexivity].
  exists (set_screen_size_ans (Some sz) w).
  split; [destruct (screen_size_ans w); reflexivity |].
  split; reflexivity.
Qed.

(** [icat pics], where the decoder opens whatever path it is given. *)
Lemma main_decodes_only_items_witness :
  let run := main (Run.library true) ["icat"; "pics"]%string Run.supporting in
  exists added,
    decoded (snd run) = decoded Run.supporting ++ added
    /\ Forall (fun p => In p ["pics"%string]) added.
Proof.
  apply (main_decodes_only_items (Run.library true) ["icat"; "pics"]%string
           ["pics"%string] eq_refl Run.supporting
           (fst (main (Run.library true) ["icat"; "pics"]%string Run.supporting))
           (snd (main (Run.library true) ["icat"; "pics"]%string Run.supporting))).
  vm_compute. reflexivity.
Defined.

(** ** Transport: what a chunk is made of *)

Lemma enc6_base64_char (n : Z) : base64_char (Base64.enc6 n).
Proof.
  unfold base64_char, Base64.enc6.
  destruct (nth_in_or_default (Z.to_nat n) Base64.alphabet Base64.pad) as [H | H];
    [left; exact H | right; exact H].
Qed.

Lemma base64_encode_chars (l : bytes) : Forall base64_char (Base64.encode l).
Proof.
  assert (Hpad : base64_char Base64.pad) by (right; reflexivity).
  induction l as [| x | x y | x y z l IH] using list_ind3; cbn [Base64.encode].
  - apply Forall_nil_2.
  - apply Forall_cons_2; [apply enc6_base64_char |].
    apply Forall_cons_2; [apply enc6_base64_char |].
    apply Forall_cons_2; [exact Hpad |].
    apply Forall_cons_2; [exact Hpad |]. apply Forall_nil_2.
  - apply Forall_cons_2; [apply enc6_base64_char |].
    apply Forall_cons_2; [apply enc6_base64_char |].
    apply Forall_cons_2; [apply enc6_base64_char |].
    apply Forall_cons_2; [exact Hpad |]. apply Forall_nil_2.
  - apply Forall_cons_2; [apply enc6_base64_char |].
    apply Forall_cons_2; [apply enc6_base64_char |].
    apply Forall_cons_2; [apply enc6_base64_char |].
    apply Forall_cons_2; [apply enc6_base64_char |]. exact IH.
Qed.

Lemma base64_char_not_control (c : byte) :
  base64_char c -> c <> ESC /\ c <> ";"%byte /\ c <> "\"%byte.
Proof.
  assert (Htable : forallb
                     (fun a => negb (Byte.eqb a ESC) && negb (Byte.eqb a ";")
                               && negb (Byte.eqb a "\"))
                     (Base64.pad :: Base64.alphabet) = true)
    by (vm_compute; reflexivity).
  intros H.
  assert (Hin : In c (Base64.pad :: Base64.alphabet))
    by (destruct H as [H | ->]; [right; exact H | left; reflexivity]).
  pose proof (proj1 (forallb_forall _ _) Htable c Hin) as Hc. cbv beta in Hc.
  apply andb_prop in Hc as [Hc H3]. apply andb_prop in Hc as [H1 H2].
  repeat split; intros ->; discriminate.
Qed.

Lemma chunk_frames_chars (P : byte -> Prop) (fuel : nat) :
  forall (cmd : dict) (data : bytes),
    Forall P data ->
    Forall (fun fr : dict * bytes => Forall P (snd fr)) (chunk_frames fuel cmd data).
Proof.
  induction fuel as [| fuel IH]; intros cmd data Hall; cbn [chunk_frames].
  - destruct (nonempty data); constructor.
  - destruct (nonempty data); constructor.
    + cbn [snd]. apply Forall_take. exact Hall.
    + apply IH. apply Forall_drop. exact Hall.
Qed.

(** X14. The payload cannot end its frame early: every byte of every chunk
    is one of the 64 characters of the base64 alphabet or the padding
    [=], so none is an escape, a backslash or the semicolon that
    separates the command from the payload. *)
Theorem write_chunked_chunks_are_base64_text (E : env) (mode : string) (cmd : dict)
    (data : bytes) (w : world) :
  stdout_credit w = None ->
  wire_ascii cmd = true ->
  exists final w' sent,
    write_chunked E mode cmd data w = (Ret final, w')
    /\ frames w' = frames w ++ sent
    /\ stdout w' = stdout w ++ concat (map frame_bytes sent)
    /\ Forall (fun fr : dict * bytes =>
                 Forall (fun c => base64_char c
                                  /\ c <> ESC /\ c <> ";"%byte /\ c <> "\"%byte) (snd fr))
         sent.
Proof.
  intros Hc Ha. rewrite (write_chunked_exact E mode cmd data w Hc Ha).
  eexists; eexists; eexists. split; [reflexivity |]. split; [reflexivity |].
  split; [reflexivity |].
  apply chunk_frames_chars. unfold encoded_payload, standard_b64encode.
  eapply Forall_impl; [apply base64_encode_chars |].
  intros c Hchar. split; [exact Hchar | apply base64_char_not_control; exact Hchar].
Qed.

(** An RGB payload of 3100 bytes: 4136 bytes of base64 text, two
    frames. *)
Lemma write_chunked_chunks_are_base64_text_witness :
  exists final w' sent,
    write_chunked (Run.library false) "RGB" [("a"%string, PStr "T")] (repeat x00 3100)
      Run.supporting = (Ret final, w')
    /\ frames w' = frames Run.supporting ++ sent
    /\ stdout w' = stdout Run.supporting ++ concat (map frame_bytes sent)
    /\ Forall (fun fr : dict * bytes =>
                 Forall (fun c => base64_char c
                                  /\ c <> ESC /\ c <> ";"%byte /\ c <> "\"%byte) (snd fr))
         sent.
Proof.
  apply (write_chunked_chunks_are_base64_text (Run.library false) "RGB"
           [("a"%string, PStr "T")] (repeat x00 3100) Run.supporting); reflexivity.
Defined.
